(** * Arduino LED strip: the remote-controlled scenario engine

    A shallow embedding of [src/arduino-led-strip/arduino-led-strip.ino]:
    the global settings of the sketch, the button handler
    [readReceiverAndProcess], the switch-mode timer [shouldSwitchScenario],
    the rejection loop [selectRandomScenario], the scaled clock
    [milliseconds] and the cooperative delay [sleep].

    The sketch runs on an ATmega328P: [int] is a 16-bit signed integer,
    [unsigned long] a 32-bit unsigned one and [uint8_t] a byte.  Integers are
    modelled in [Z] with the wrap-around written out.  The infrared receiver,
    the millisecond clock and FastLED's random generator are inputs of the
    program; they are modelled as streams read through a cursor. *)

From Stdlib Require Import ZArith List Bool Lia Permutation.
Import ListNotations.
Open Scope Z_scope.

(** ** Machine integers *)

(** [unsigned long] on AVR: arithmetic modulo 2^32. *)
Definition u32 (z : Z) : Z := z mod 4294967296.

(** [uint8_t]: arithmetic modulo 2^8. *)
Definition u8 (z : Z) : Z := z mod 256.

(** [int] on AVR: 16 bits, two's complement. *)
Definition wrap16 (z : Z) : Z := (z + 32768) mod 65536 - 32768.

(** ** Remote receiver *)

(** [Receiver::Button], in declaration order. *)
Inductive Button : Type :=
  | POWER | FUNC_STOP | VOL_PLUS | FAST_BACK | PAUSE | FAST_FORWARD | DOWN
  | VOL_MINUS | UP | EQ | ST_REPT
  | NUM_0 | NUM_1 | NUM_2 | NUM_3 | NUM_4 | NUM_5 | NUM_6 | NUM_7 | NUM_8
  | NUM_9 | NONE.

(** The integer value of an enumerator (C++ numbers them from 0). *)
Definition buttonCode (button : Button) : Z :=
  match button with
  | POWER => 0 | FUNC_STOP => 1 | VOL_PLUS => 2 | FAST_BACK => 3 | PAUSE => 4
  | FAST_FORWARD => 5 | DOWN => 6 | VOL_MINUS => 7 | UP => 8 | EQ => 9
  | ST_REPT => 10
  | NUM_0 => 11 | NUM_1 => 12 | NUM_2 => 13 | NUM_3 => 14 | NUM_4 => 15
  | NUM_5 => 16 | NUM_6 => 17 | NUM_7 => 18 | NUM_8 => 19 | NUM_9 => 20
  | NONE => 21
  end.

(** [button == other] on enumerators. *)
Definition isButton (button other : Button) : bool :=
  buttonCode button =? buttonCode other.

(** [Receiver::rawDataToButtonCode]: the codes of the Elegoo remote; every
    other code, the repeat code 0xFFFFFFFF included, is [NONE]. *)
Definition rawDataToButtonCode (rawData : Z) : Button :=
  if rawData =? 0xBA45FF00 then POWER
  else if rawData =? 0xB847FF00 then FUNC_STOP
  else if rawData =? 0xB946FF00 then VOL_PLUS
  else if rawData =? 0xBB44FF00 then FAST_BACK
  else if rawData =? 0xBF40FF00 then PAUSE
  else if rawData =? 0xBC43FF00 then FAST_FORWARD
  else if rawData =? 0xF807FF00 then DOWN
  else if rawData =? 0xEA15FF00 then VOL_MINUS
  else if rawData =? 0xF609FF00 then UP
  else if rawData =? 0xE619FF00 then EQ
  else if rawData =? 0xF20DFF00 then ST_REPT
  else if rawData =? 0xE916FF00 then NUM_0
  else if rawData =? 0xF30CFF00 then NUM_1
  else if rawData =? 0xE718FF00 then NUM_2
  else if rawData =? 0xA15EFF00 then NUM_3
  else if rawData =? 0xF708FF00 then NUM_4
  else if rawData =? 0xE31CFF00 then NUM_5
  else if rawData =? 0xA55AFF00 then NUM_6
  else if rawData =? 0xBD42FF00 then NUM_7
  else if rawData =? 0xAD52FF00 then NUM_8
  else if rawData =? 0xB54AFF00 then NUM_9
  else NONE.

(** ** LED strip data *)

Record CRGB : Type := mkCRGB { red : Z; green : Z; blue : Z }.

Definition NUM_LEDS : Z := 50.

(** The buffer after [FastLED.clear()]: every entry is the zero colour. *)
Definition blankStrip : list CRGB := repeat (mkCRGB 0 0 0) (Z.to_nat NUM_LEDS).

(** What the sketch sends to the FastLED driver, newest call first. *)
Inductive FastLEDCall : Type :=
  | PushFrame (frame : list CRGB)
  | SetBrightness (scale : Z).

(** ** Scenario data *)

(** The ten animation routines stored in [Scenario::func]. *)
Inductive Render : Type :=
  | FadeInOut | RunningLight | LoopedSequence | SmoothColorChange
  | RandomColors | EvensAndOdds | JumpLeftRight | Racing | BlastWave
  | StackingColors.

Record Scenario : Type := mkScenario { func : Render; numVariants : Z }.

Definition NUM_SCENARIOS : Z := 10.
Definition NUM_STANDARD_COLORS : Z := 7.

(** The array filled by [setupScenarios]. *)
Definition scenarios : list Scenario :=
  [ mkScenario FadeInOut NUM_STANDARD_COLORS;
    mkScenario RunningLight NUM_STANDARD_COLORS;
    mkScenario LoopedSequence 1;
    mkScenario SmoothColorChange 1;
    mkScenario RandomColors 1;
    mkScenario EvensAndOdds 1;
    mkScenario JumpLeftRight NUM_STANDARD_COLORS;
    mkScenario Racing NUM_STANDARD_COLORS;
    mkScenario BlastWave 1;
    mkScenario StackingColors 1 ].

(** ** Scenario configuration *)

Definition NUM_BRIGHTNESS_STEPS : Z := 4.
Definition brightnessMap : list Z := [25; 100; 175; 255].
Definition NUM_SPEED_STEPS : Z := 5.
Definition DEFAULT_SPEED_STEP : Z := 2.
Definition SCENARIO_SWITCH_TIMEOUT : Z := 60000.

(** The global variables of the sketch that hold the settings. *)
Record Globals : Type := mkGlobals {
  currentScenario : Z;
  currentBrightness : Z;
  isSwitchedOn : bool;
  currentVariant : Z;
  currentSpeed : Z;
  isSwitchModeActive : bool;
  lastScenarioSwitchTimestamp : Z
}.

Definition set_currentScenario (v : Z) (c : Globals) : Globals :=
  mkGlobals v (currentBrightness c) (isSwitchedOn c) (currentVariant c)
    (currentSpeed c) (isSwitchModeActive c) (lastScenarioSwitchTimestamp c).

Definition set_currentBrightness (v : Z) (c : Globals) : Globals :=
  mkGlobals (currentScenario c) v (isSwitchedOn c) (currentVariant c)
    (currentSpeed c) (isSwitchModeActive c) (lastScenarioSwitchTimestamp c).

Definition set_isSwitchedOn (v : bool) (c : Globals) : Globals :=
  mkGlobals (currentScenario c) (currentBrightness c) v (currentVariant c)
    (currentSpeed c) (isSwitchModeActive c) (lastScenarioSwitchTimestamp c).

Definition set_currentVariant (v : Z) (c : Globals) : Globals :=
  mkGlobals (currentScenario c) (currentBrightness c) (isSwitchedOn c) v
    (currentSpeed c) (isSwitchModeActive c) (lastScenarioSwitchTimestamp c).

Definition set_currentSpeed (v : Z) (c : Globals) : Globals :=
  mkGlobals (currentScenario c) (currentBrightness c) (isSwitchedOn c)
    (currentVariant c) v (isSwitchModeActive c)
    (lastScenarioSwitchTimestamp c).

Definition set_isSwitchModeActive (v : bool) (c : Globals) : Globals :=
  mkGlobals (currentScenario c) (currentBrightness c) (isSwitchedOn c)
    (currentVariant c) (currentSpeed c) v (lastScenarioSwitchTimestamp c).

Definition set_lastScenarioSwitchTimestamp (v : Z) (c : Globals) : Globals :=
  mkGlobals (currentScenario c) (currentBrightness c) (isSwitchedOn c)
    (currentVariant c) (currentSpeed c) (isSwitchModeActive c) v.

(** ** The machine

    [ctl] holds the settings, [leds] the pixel buffer, [driver] the calls
    made on FastLED so far (newest first).  The remaining fields are the
    inputs: [ir n] is what the receiver has decoded at the [n]-th call of
    [readSignal] ([None]: nothing was received), [clock n] the value of the
    [n]-th call of [millis()], [rnd n] the [n]-th value of FastLED's
    generator.  Each stream has a cursor that a read advances. *)
Record World : Type := mkWorld {
  ctl : Globals;
  leds : list CRGB;
  driver : list FastLEDCall;
  ir : nat -> option Z;
  irPos : nat;
  clock : nat -> Z;
  clockPos : nat;
  rnd : nat -> Z;
  rndPos : nat
}.

Definition with_ctl (c : Globals) (w : World) : World :=
  mkWorld c (leds w) (driver w) (ir w) (irPos w) (clock w) (clockPos w)
    (rnd w) (rndPos w).

Definition with_leds (l : list CRGB) (w : World) : World :=
  mkWorld (ctl w) l (driver w) (ir w) (irPos w) (clock w) (clockPos w)
    (rnd w) (rndPos w).

Definition with_driver (d : list FastLEDCall) (w : World) : World :=
  mkWorld (ctl w) (leds w) d (ir w) (irPos w) (clock w) (clockPos w)
    (rnd w) (rndPos w).

Definition with_irPos (n : nat) (w : World) : World :=
  mkWorld (ctl w) (leds w) (driver w) (ir w) n (clock w) (clockPos w)
    (rnd w) (rndPos w).

Definition with_clockPos (n : nat) (w : World) : World :=
  mkWorld (ctl w) (leds w) (driver w) (ir w) (irPos w) (clock w) n
    (rnd w) (rndPos w).

Definition with_rndPos (n : nat) (w : World) : World :=
  mkWorld (ctl w) (leds w) (driver w) (ir w) (irPos w) (clock w)
    (clockPos w) (rnd w) n.

(** ** Computations

    A call either returns a value and a new machine, or runs out of fuel
    (the model of a loop that has not ended yet), or does something C++
    leaves undefined (an array read out of bounds, a remainder by zero). *)
Inductive Outcome (A : Type) : Type :=
  | Done (a : A) (w : World)
  | OutOfFuel
  | Undefined.

Arguments Done {A} a w.
Arguments OutOfFuel {A}.
Arguments Undefined {A}.

Definition M (A : Type) : Type := World -> Outcome A.

Definition ret {A : Type} (a : A) : M A := fun w => Done a w.

Definition bind {A B : Type} (m : M A) (k : A -> M B) : M B :=
  fun w =>
    match m w with
    | Done a w' => k a w'
    | OutOfFuel => OutOfFuel
    | Undefined => Undefined
    end.

Notation "x <- c1 ;; c2" := (bind c1 (fun x => c2))
  (at level 61, c1 at next level, right associativity).
Notation "c1 ;; c2" := (bind c1 (fun _ => c2))
  (at level 61, right associativity).

Definition gets {A : Type} (f : Globals -> A) : M A :=
  fun w => Done (f (ctl w)) w.

Definition modify (f : Globals -> Globals) : M unit :=
  fun w => Done tt (with_ctl (f (ctl w)) w).

(** A block that may execute [return v;] ([Some v]) or fall through
    ([None]), followed by the rest of the function body. *)
Definition orElse (blk : M (option bool)) (rest : M bool) : M bool :=
  r <- blk ;;
  match r with
  | Some v => ret v
  | None => rest
  end.

(** ** Platform and library calls *)

(** [millis()]: the next reading of the millisecond clock. *)
Definition millis : M Z :=
  fun w => Done (u32 (clock w (clockPos w))) (with_clockPos (S (clockPos w)) w).

(** [random8()]: the next byte of the generator. *)
Definition random8 : M Z :=
  fun w => Done (u8 (rnd w (rndPos w))) (with_rndPos (S (rndPos w)) w).

(** [FastLED.clear()]: zeroes the pixel buffer. *)
Definition FastLED_clear : M unit :=
  fun w => Done tt (with_leds blankStrip w).

(** [FastLED.show()]: pushes the pixel buffer to the strip. *)
Definition FastLED_show : M unit :=
  fun w => Done tt (with_driver (PushFrame (leds w) :: driver w) w).

(** [FastLED.setBrightness(scale)]. *)
Definition FastLED_setBrightness (scale : Z) : M unit :=
  fun w => Done tt (with_driver (SetBrightness scale :: driver w) w).

(** [Receiver::readSignal]: one poll of the receiver. *)
Definition readSignal : M Button :=
  fun w =>
    Done (match ir w (irPos w) with
          | Some rawData => rawDataToButtonCode rawData
          | None => NONE
          end)
         (with_irPos (S (irPos w)) w).

(** [table[index]] on a C array of [length table] entries. *)
Definition arrayAt {A : Type} (table : list A) (index : Z) : M A :=
  fun w =>
    if index <? 0 then Undefined
    else match nth_error table (Z.to_nat index) with
         | Some x => Done x w
         | None => Undefined
         end.

(** [a % b] on [int]. *)
Definition remainder (a b : Z) : M Z :=
  fun w => if b =? 0 then Undefined else Done (wrap16 (Z.rem a b)) w.

(** ** [readReceiverAndProcess] *)

(** The body of [readReceiverAndProcess] after the button has been read. *)
Definition processButton (button : Button) : M bool :=
  (* Case 1: Switch on and off the LED strip. *)
  orElse
    (if isButton button POWER then
       modify (fun c => set_isSwitchedOn (negb (isSwitchedOn c)) c) ;;
       on <- gets isSwitchedOn ;;
       if negb on then
         FastLED_clear ;; FastLED_show ;; ret (Some true)
       else ret None
     else ret None)
  (* If the LED strip is switched off, no commands are accepted. *)
  (orElse
    (on <- gets isSwitchedOn ;;
     if negb on then ret (Some true) else ret None)
  (* Case 2: Select a scenario. *)
  (orElse
    (if (buttonCode NUM_0 <=? buttonCode button)
        && (buttonCode button <=? buttonCode NUM_9) then
       let newScenario := buttonCode button - buttonCode NUM_0 in
       if NUM_SCENARIOS <=? newScenario then ret (Some false)
       else
         cur <- gets currentScenario ;;
         if negb (cur =? newScenario) then
           modify (set_currentScenario newScenario) ;;
           modify (set_currentVariant 0) ;;
           FastLED_clear ;; FastLED_show ;; ret (Some true)
         else ret None
     else ret None)
  (* Case 3: Select a scenario variant. *)
  (cur <- gets currentScenario ;;
   scenario <- arrayAt scenarios cur ;;
   let numVariants := numVariants scenario in
   orElse
     (if isButton button FAST_FORWARD || isButton button FAST_BACK then
        if numVariants =? 1 then ret (Some false)
        else
          v <- gets currentVariant ;;
          (if isButton button FAST_FORWARD then
             v' <- remainder (wrap16 (v + 1)) numVariants ;;
             modify (set_currentVariant v')
           else
             v' <- remainder (wrap16 (wrap16 (numVariants + v) - 1))
                     numVariants ;;
             modify (set_currentVariant v')) ;;
          FastLED_clear ;; FastLED_show ;; ret (Some true)
      else ret None)
  (* Case 4: Brightness value. *)
  ((if isButton button VOL_PLUS then
      br <- gets currentBrightness ;;
      modify (set_currentBrightness
                (Z.min (wrap16 (br + 1)) (NUM_BRIGHTNESS_STEPS - 1))) ;;
      br' <- gets currentBrightness ;;
      scale <- arrayAt brightnessMap br' ;;
      FastLED_setBrightness scale
    else if isButton button VOL_MINUS then
      br <- gets currentBrightness ;;
      modify (set_currentBrightness (Z.max (wrap16 (br - 1)) 0)) ;;
      br' <- gets currentBrightness ;;
      scale <- arrayAt brightnessMap br' ;;
      FastLED_setBrightness scale
    else ret tt) ;;
  (* Case 5: Speed value. *)
   (if isButton button UP then
      sp <- gets currentSpeed ;;
      modify (set_currentSpeed
                (Z.min (wrap16 (sp + 1)) (NUM_SPEED_STEPS - 1)))
    else if isButton button DOWN then
      sp <- gets currentSpeed ;;
      modify (set_currentSpeed (Z.max (wrap16 (sp - 1)) 0))
    else ret tt) ;;
  (* Case 6: Switch mode. *)
   (if isButton button ST_REPT then
      modify (fun c => set_isSwitchModeActive (negb (isSwitchModeActive c)) c) ;;
      now <- millis ;;
      modify (set_lastScenarioSwitchTimestamp now)
    else ret tt) ;;
   ret false)))).

Definition readReceiverAndProcess : M bool :=
  button <- readSignal ;;
  processButton button.

(** ** Switch mode *)

Definition shouldSwitchScenario : M bool :=
  (* Does not work outside the switch mode. *)
  active <- gets isSwitchModeActive ;;
  if negb active then ret false
  else
    (* Check if the timeout has passed. *)
    now <- millis ;;
    last <- gets lastScenarioSwitchTimestamp ;;
    if SCENARIO_SWITCH_TIMEOUT <? u32 (now - last) then
      now' <- millis ;;
      modify (set_lastScenarioSwitchTimestamp now') ;;
      ret true
    else ret false.

(** [selectRandomScenario]: one unit of fuel per turn of [while(true)]. *)
Fixpoint selectRandomScenario (fuel : nat) : M unit :=
  match fuel with
  | O => fun _ => OutOfFuel
  | S fuel' =>
      (* Take a random one. *)
      byte <- random8 ;;
      let scenario := Z.rem byte NUM_SCENARIOS in
      (* Make sure this is not the currently active one. *)
      cur <- gets currentScenario ;;
      if scenario =? cur then selectRandomScenario fuel'
      else
        (* Apply the scenario. *)
        modify (set_currentScenario scenario)
  end.

(** ** Scaled time *)

(** The value [milliseconds()] computes from a reading [time] of [millis()]
    at speed step [speed]. *)
Definition millisecondsAdjusted (speed time : Z) : Z :=
  let adjustedTime := time in
  let adjustedTime :=
    if DEFAULT_SPEED_STEP <? speed then
      u32 (adjustedTime * u32 (wrap16 (wrap16 (speed - DEFAULT_SPEED_STEP) + 1)))
    else adjustedTime in
  let adjustedTime :=
    if speed <? DEFAULT_SPEED_STEP then
      adjustedTime / u32 (wrap16 (wrap16 (DEFAULT_SPEED_STEP - speed) + 1))
    else adjustedTime in
  adjustedTime.

Definition milliseconds : M Z :=
  time <- millis ;;
  speed <- gets currentSpeed ;;
  ret (millisecondsAdjusted speed time).

(** The delay [sleep(milliseconds)] really waits for at speed step
    [speed]. *)
Definition sleepAdjusted (speed milliseconds : Z) : Z :=
  let adjustedTime := milliseconds in
  let adjustedTime :=
    if DEFAULT_SPEED_STEP <? speed then
      adjustedTime / u32 (wrap16 (wrap16 (speed - DEFAULT_SPEED_STEP) + 1))
    else adjustedTime in
  let adjustedTime :=
    if speed <? DEFAULT_SPEED_STEP then
      u32 (adjustedTime * u32 (wrap16 (wrap16 (DEFAULT_SPEED_STEP - speed) + 1)))
    else adjustedTime in
  adjustedTime.

(** The [do ... while] loop of [sleep]: one unit of fuel per turn. *)
Fixpoint sleepLoop (fuel : nat) (startTime adjustedTime : Z) : M bool :=
  match fuel with
  | O => fun _ => OutOfFuel
  | S fuel' =>
      cancel <- readReceiverAndProcess ;;
      if cancel then ret true
      else
        now <- millis ;;
        if u32 (now - startTime) <=? adjustedTime then
          sleepLoop fuel' startTime adjustedTime
        else ret false
  end.

(** The part of [sleep] that follows the switch-mode check. *)
Definition sleepDelay (fuel : nat) (milliseconds : Z) : M bool :=
  speed <- gets currentSpeed ;;
  let adjustedTime := sleepAdjusted speed milliseconds in
  startTime <- millis ;;
  sleepLoop fuel startTime adjustedTime.

Definition sleep (fuel : nat) (milliseconds : Z) : M bool :=
  due <- shouldSwitchScenario ;;
  if due then
    FastLED_clear ;;
    FastLED_show ;;
    selectRandomScenario fuel ;;
    byte <- random8 ;;
    cur <- gets currentScenario ;;
    scenario <- arrayAt scenarios cur ;;
    v <- remainder byte (numVariants scenario) ;;
    modify (set_currentVariant v) ;;
    ret true
  else sleepDelay fuel milliseconds.

(** ** Start-up *)

(** The initial values of the global variables; [lastScenarioSwitchTimestamp]
    is initialised with a call of [millis()]. *)
Definition startup (irIn : nat -> option Z) (clockIn rndIn : nat -> Z) : World :=
  mkWorld
    (mkGlobals 0 (NUM_BRIGHTNESS_STEPS - 1) true 0 DEFAULT_SPEED_STEP false
       (u32 (clockIn O)))
    blankStrip [] irIn O clockIn 1%nat rndIn O.

(** [setup()]: the driver gets the default brightness. *)
Definition setup : M unit :=
  br <- gets currentBrightness ;;
  scale <- arrayAt brightnessMap br ;;
  FastLED_setBrightness scale.

(** ** Vocabulary of the statements *)

(** *** The receiver *)

(** The button the next call of [readSignal] returns. *)
Definition pending (w : World) : Button :=
  match ir w (irPos w) with
  | Some rawData => rawDataToButtonCode rawData
  | None => NONE
  end.

(** The button the [i]-th next call of [readSignal] returns. *)
Definition pendingAt (w : World) (i : nat) : Button :=
  match ir w (irPos w + i)%nat with
  | Some rawData => rawDataToButtonCode rawData
  | None => NONE
  end.

(** The buttons the next [n] calls of [readSignal] return. *)
Definition upcoming (w : World) (n : nat) : list Button :=
  map (pendingAt w) (seq 0 n).

(** The machine after one poll of the receiver: only the cursor moved. *)
Definition polled (w : World) : World := with_irPos (S (irPos w)) w.

(** [button] is one of [NUM_0] .. [NUM_9]. *)
Definition isDigit (button : Button) : bool :=
  (buttonCode NUM_0 <=? buttonCode button)
  && (buttonCode button <=? buttonCode NUM_9).

(** The scenario index a digit button stands for. *)
Definition digitOf (button : Button) : Z :=
  buttonCode button - buttonCode NUM_0.

Definition isVariantButton (button : Button) : Prop :=
  button = FAST_FORWARD \/ button = FAST_BACK.

(** What a button adds to the variant index. *)
Definition variantShift (button : Button) : Z :=
  match button with
  | FAST_FORWARD => 1
  | FAST_BACK => -1
  | _ => 0
  end.

(** Forward presses minus backward presses. *)
Definition netShift (presses : list Button) : Z :=
  fold_right (fun button acc => variantShift button + acc) 0 presses.

(** *** Tables, ranges and the display *)

(** [scenarios[index].numVariants] for an index of the array. *)
Definition numVariantsOf (index : Z) : Z :=
  match nth_error scenarios (Z.to_nat index) with
  | Some scenario => numVariants scenario
  | None => 0
  end.

(** [brightnessMap[index]] for an index of the array. *)
Definition brightnessOf (index : Z) : Z := nth (Z.to_nat index) brightnessMap 0.

(** The scenario index is an index of [scenarios]. *)
Definition validScenario (c : Globals) : Prop :=
  0 <= currentScenario c < NUM_SCENARIOS.

(** The variant index is a variant of the current scenario. *)
Definition validVariant (c : Globals) : Prop :=
  0 <= currentVariant c < numVariantsOf (currentScenario c).

(** Every setting is in the range the sketch keeps it in. *)
Definition validSettings (c : Globals) : Prop :=
  validScenario c /\ validVariant c
  /\ 0 <= currentBrightness c < NUM_BRIGHTNESS_STEPS
  /\ 0 <= currentSpeed c < NUM_SPEED_STEPS.

(** The effect of [FastLED.clear(); FastLED.show();]. *)
Definition blanked (w : World) : World :=
  with_driver (PushFrame blankStrip :: driver w) (with_leds blankStrip w).

(** *** Runs of the button handler *)

(** [n] calls of [readReceiverAndProcess] in a row, with their results. *)
Fixpoint runCommands (n : nat) : M (list bool) :=
  match n with
  | O => ret []
  | S n' =>
      cancel <- readReceiverAndProcess ;;
      cancels <- runCommands n' ;;
      ret (cancel :: cancels)
  end.

(** The number of calls that asked for a cancel. *)
Definition cancellations (cancels : list bool) : nat :=
  length (filter (fun cancel => cancel) cancels).

(** *** Switch mode *)

(** The scenario index the [i]-th next random byte stands for. *)
Definition draw (w : World) (i : nat) : Z :=
  Z.rem (u8 (rnd w (i + rndPos w)%nat)) NUM_SCENARIOS.

(** The machine once [selectRandomScenario] has rejected [n] draws and taken
    the next one. *)
Definition selected (w : World) (n : nat) : World :=
  with_ctl (set_currentScenario (draw w n) (ctl w))
    (with_rndPos (S n + rndPos w)%nat w).

(** The unscaled time since the last switch that [shouldSwitchScenario]
    measures at its next reading of the clock. *)
Definition sinceLastSwitch (w : World) : Z :=
  u32 (u32 (clock w (clockPos w)) - lastScenarioSwitchTimestamp (ctl w)).

(** The machine when [shouldSwitchScenario] has answered [true]: the clock
    was read twice and the second reading is the new timestamp. *)
Definition restamped (w : World) : World :=
  with_ctl
    (set_lastScenarioSwitchTimestamp (u32 (clock w (S (clockPos w)))) (ctl w))
    (with_clockPos (S (S (clockPos w))) w).

(** The machine when [sleep] has switched scenario after [n] rejected
    draws. *)
Definition rotated (w : World) (n : nat) : World :=
  let w3 := selected (blanked (restamped w)) n in
  let byte := u8 (rnd w (S n + rndPos w)%nat) in
  with_ctl
    (set_currentVariant (wrap16 (Z.rem byte (numVariantsOf (draw w n))))
       (ctl w3))
    (with_rndPos (S (S n) + rndPos w)%nat w3).

(** *** Scaled time *)

(** The factor by which speed step [speed] scales time: 1 at the default
    step, one more for every step away from it. *)
Definition speedFactor (speed : Z) : Z := Z.abs (speed - DEFAULT_SPEED_STEP) + 1.

(** *** Relations between the machine before and after a call *)

(** Every run of [m] that returns relates the machine before to the machine
    after by [R]. *)
Definition respects {A : Type} (R : World -> World -> Prop) (m : M A) : Prop :=
  forall w a w', m w = Done a w' -> R w w'.


(** If the settings were in range in [w] they are in [w']. *)
Definition stillValid (w w' : World) : Prop :=
  validSettings (ctl w) -> validSettings (ctl w').

(** The machines the sketch can be in.  After [setup], [loop] calls
    [readReceiverAndProcess] and the routine of the current scenario; the
    routines call [sleep], [milliseconds] and the random generator, write
    pixels and push frames, and assign none of the settings themselves. *)
Inductive reachable : World -> Prop :=
  | reach_setup (irIn : nat -> option Z) (clockIn rndIn : nat -> Z) (w : World) :
      setup (startup irIn clockIn rndIn) = Done tt w -> reachable w
  | reach_poll (w w' : World) (cancel : bool) :
      reachable w -> readReceiverAndProcess w = Done cancel w' -> reachable w'
  | reach_sleep (w w' : World) (fuel : nat) (milliseconds : Z) (cancel : bool) :
      reachable w -> sleep fuel milliseconds w = Done cancel w' -> reachable w'
  | reach_milliseconds (w w' : World) (time : Z) :
      reachable w -> milliseconds w = Done time w' -> reachable w'
  | reach_random (w w' : World) (byte : Z) :
      reachable w -> random8 w = Done byte w' -> reachable w'
  | reach_paint (w : World) (frame : list CRGB) :
      reachable w -> reachable (with_leds frame w)
  | reach_show (w w' : World) :
      reachable w -> FastLED_show w = Done tt w' -> reachable w'.

(** *** Machines to run the sketch on *)

(** A receiver that delivers the raw codes [codes], then nothing. *)
Definition remote (codes : list Z) : nat -> option Z :=
  fun n => nth_error codes n.

(** A clock that advances by one millisecond per reading. *)
Definition ticking : nat -> Z := Z.of_nat.

(** A generator that counts. *)
Definition counting : nat -> Z := Z.of_nat.

(** The machine at start-up with the codes [codes] waiting. *)
Definition bench (codes : list Z) : World := startup (remote codes) ticking counting.

(** The machine at start-up, moved to scenario [scenario] and variant
    [variant], with the codes [codes] waiting. *)
Definition benchAt (scenario variant : Z) (codes : list Z) : World :=
  with_ctl
    (set_currentVariant variant
       (set_currentScenario scenario (ctl (bench codes))))
    (bench codes).

(** The machine [setup] leaves. *)
Definition booted (irIn : nat -> option Z) (clockIn rndIn : nat -> Z) : World :=
  with_driver [SetBrightness 255] (startup irIn clockIn rndIn).

(** The machine after a first [POWER] press switched it off, with a second
    press waiting. *)
Definition switchedOff : World :=
  blanked (with_ctl (set_isSwitchedOn false (ctl (bench [0xBA45FF00; 0xBA45FF00])))
             (polled (bench [0xBA45FF00; 0xBA45FF00]))).

(** A machine in switch mode whose last switch is 61 seconds old. *)
Definition overdue : World :=
  mkWorld (mkGlobals 0 3 true 0 2 true 0) blankStrip [] (remote []) O
    (fun n => 61000 + Z.of_nat n) O counting O.

(** The presses of the end-to-end scenario: 3, FAST_FORWARD, FAST_FORWARD,
    VOL+. *)
Definition scenarioPresses : list Z :=
  [0xA15EFF00; 0xBC43FF00; 0xBC43FF00; 0xB946FF00].

(** The machine at the end of the end-to-end scenario, started in [w0]. *)
Definition scenarioEnd (w0 : World) : World :=
  let w1 :=
    blanked
      (with_ctl (set_currentVariant 0 (set_currentScenario 3 (ctl w0)))
         (polled w0)) in
  let w3 := polled (polled (polled w1)) in
  with_driver (SetBrightness 255 :: driver w3)
    (with_ctl (set_currentBrightness 3 (ctl w3)) w3).





(** *** Sentences of the specification, read on the code

    The sketch does not satisfy them as they are written; each is refuted
    below and followed by the statement that does hold. *)



(** "Every power change, off-to-on as well as on-to-off, cancels the running
    animation, blanks the buffer and pushes the blank frame." *)
Definition power_change_always_cancels : Prop :=
  forall w,
    pending w = POWER ->
    exists w',
      readReceiverAndProcess w = Done true w'
      /\ isSwitchedOn (ctl w') = negb (isSwitchedOn (ctl w))
      /\ leds w' = blankStrip
      /\ driver w' = PushFrame blankStrip :: driver w.

(** "For every duration and every speed step the two scalings are exact
    inverses": the delay [sleep] waits for, measured on the clock of
    [milliseconds], is the delay that was asked for. *)
Definition scaling_exactly_inverse : Prop :=
  forall speed duration,
    0 <= speed < NUM_SPEED_STEPS ->
    0 <= duration < 4294967296 ->
    millisecondsAdjusted speed (sleepAdjusted speed duration) = duration.

(** "3, FAST_FORWARD, FAST_FORWARD, VOL+ from the start-up state end in
    scenario 3, variant 2, with the brightness one step up (clamped) and
    exactly two cancellations." *)
Definition end_to_end_expected : Prop :=
  forall clockIn rndIn,
    exists w0 cancels w',
      setup (startup (remote scenarioPresses) clockIn rndIn) = Done tt w0
      /\ runCommands 4 w0 = Done cancels w'
      /\ currentScenario (ctl w') = 3
      /\ currentVariant (ctl w') = 2
      /\ currentBrightness (ctl w')
         = Z.min (currentBrightness (ctl w0) + 1) (NUM_BRIGHTNESS_STEPS - 1)
      /\ cancellations cancels = 2%nat.

(** ** More of the sketch: what one call of the handler can do *)

(** The brightness the driver was told last. *)
Fixpoint lastBrightness (calls : list FastLEDCall) : option Z :=
  match calls with
  | [] => None
  | SetBrightness scale :: _ => Some scale
  | PushFrame _ :: older => lastBrightness older
  end.

(** The driver's brightness is the one the setting stands for. *)
Definition inSync (w : World) : Prop :=
  lastBrightness (driver w) = Some (brightnessOf (currentBrightness (ctl w))).

(** What [processButton] does to settings in range, by its result.  A call
    that returns [true] leaves the strip off, or has changed the scenario or
    the variant; from a switched-on strip it has blanked the buffer and
    pushed the blank frame, from a switched-off strip it has done nothing.
    A call that returns [false] leaves the strip on, the scenario, the
    variant and the pixel buffer as they were. *)
Definition handled (w : World) (cancel : bool) (w' : World) : Prop :=
  validSettings (ctl w')
  /\ irPos w' = irPos w
  /\ (inSync w -> inSync w')
  /\ (if cancel then
        (isSwitchedOn (ctl w') = false
         \/ currentScenario (ctl w') <> currentScenario (ctl w)
         \/ currentVariant (ctl w') <> currentVariant (ctl w))
        /\ (isSwitchedOn (ctl w) = true ->
            leds w' = blankStrip
            /\ driver w' = PushFrame blankStrip :: driver w)
        /\ (isSwitchedOn (ctl w) = false -> w' = w)
      else
        isSwitchedOn (ctl w') = true
        /\ currentScenario (ctl w') = currentScenario (ctl w)
        /\ currentVariant (ctl w') = currentVariant (ctl w)
        /\ leds w' = leds w).

(** ** More of the sketch: the animation routines *)

(** [getStandardColor]: six colours and, for 6 and every other index,
    white. *)
Definition getStandardColor (index : Z) : CRGB :=
  if index =? 0 then mkCRGB 255 0 0        (* Red *)
  else if index =? 1 then mkCRGB 0 255 0   (* Green *)
  else if index =? 2 then mkCRGB 0 0 255   (* Blue *)
  else if index =? 3 then mkCRGB 255 255 0 (* Yellow *)
  else if index =? 4 then mkCRGB 255 0 255 (* Magenta *)
  else if index =? 5 then mkCRGB 0 255 255 (* Cyan *)
  else mkCRGB 255 255 255.                 (* White *)

(** [l] with its [n]-th entry replaced, if it has one. *)
Fixpoint replaceAt {A : Type} (n : nat) (x : A) (l : list A) : list A :=
  match l, n with
  | [], _ => []
  | _ :: rest, O => x :: rest
  | y :: rest, S n' => y :: replaceAt n' x rest
  end.

(** [leds[index]], read. *)
Definition getLed (index : Z) : M CRGB :=
  fun w => arrayAt (leds w) index w.

(** [leds[index] = color]. *)
Definition setLed (index : Z) (color : CRGB) : M unit :=
  fun w =>
    if (0 <=? index) && (index <? Z.of_nat (length (leds w))) then
      Done tt (with_leds (replaceAt (Z.to_nat index) color (leds w)) w)
    else Undefined.

(** [for (int i = first; ...; i++) body] for [count] turns; the counters of
    the sketch stay below [NUM_LEDS]. *)
Fixpoint forLoop (count : nat) (i : Z) (body : Z -> M unit) : M unit :=
  match count with
  | O => ret tt
  | S count' => body i ;; forLoop count' (i + 1) body
  end.

(** The loop body of scenarios 1 and 2: shift all leds to the left by one,
    the first one to the end. *)
Definition shiftLeds : M unit :=
  firstLED <- getLed 0 ;;
  forLoop (Z.to_nat (NUM_LEDS - 1)) 0
    (fun i => next <- getLed (i + 1) ;; setLed i next) ;;
  setLed (NUM_LEDS - 1) firstLED.

(** The start of scenario 1: light up every 1 out of 5 LEDs. *)
Definition runningLightInit : M unit :=
  forLoop (Z.to_nat NUM_LEDS) 0
    (fun i =>
       if Z.rem i 5 =? 0 then
         variant <- gets currentVariant ;;
         setLed i (getStandardColor variant)
       else ret tt).

(** The start of scenario 2: three groups of RGB colours. *)
Definition loopedSequenceInit : M unit :=
  forLoop (Z.to_nat NUM_LEDS) 0
    (fun i =>
       (if Z.rem i 3 =? 0 then setLed i (mkCRGB 255 0 0) else ret tt) ;;
       (if Z.rem i 3 =? 1 then setLed i (mkCRGB 0 255 0) else ret tt) ;;
       (if Z.rem i 3 =? 2 then setLed i (mkCRGB 0 0 255) else ret tt)).

(** [do { body; FastLED.show(); } while (!sleep(delay));] with a local
    variable [local] that the body updates: the loop of scenarios 1, 2, 4
    and 6.  One unit of [fuel] per turn; [sleepFuel] is the fuel of each
    [sleep]. *)
Fixpoint showUntilCancelled {L : Type} (fuel sleepFuel : nat)
    (body : L -> M L) (delay : Z) (local : L) : M unit :=
  match fuel with
  | O => fun _ => OutOfFuel
  | S fuel' =>
      local' <- body local ;;
      FastLED_show ;;
      cancel <- sleep sleepFuel delay ;;
      if cancel then ret tt
      else showUntilCancelled fuel' sleepFuel body delay local'
  end.

(** Scenario 1: running light. *)
Definition runningLight (fuel sleepFuel : nat) : M unit :=
  runningLightInit ;;
  showUntilCancelled fuel sleepFuel (fun _ : unit => shiftLeds) 60 tt.

(** Scenario 2: looped sequence. *)
Definition loopedSequence (fuel sleepFuel : nat) : M unit :=
  loopedSequenceInit ;;
  showUntilCancelled fuel sleepFuel (fun _ : unit => shiftLeds) 1000 tt.

(** The fill of scenario 4: a random colour except white for every LED the
    loop visits. *)
Definition randomColorsFill : M unit :=
  forLoop (Z.to_nat (NUM_LEDS - 1)) 0
    (fun i =>
       byte <- random8 ;;
       setLed i (getStandardColor (Z.rem byte (NUM_STANDARD_COLORS - 1)))).

(** Scenario 4: random colors. *)
Definition randomColors (fuel sleepFuel : nat) : M unit :=
  showUntilCancelled fuel sleepFuel (fun _ : unit => randomColorsFill) 1000 tt.

(** The fill of scenario 6: either only the odd or only the even LEDs get
    the colour of the variant, the others black. *)
Definition jumpFill (isOdd : bool) : M unit :=
  forLoop (Z.to_nat NUM_LEDS) 0
    (fun i =>
       variant <- gets currentVariant ;;
       if isOdd then
         setLed i (if negb (Z.rem i 2 =? 0) then getStandardColor variant
                   else mkCRGB 0 0 0)
       else
         setLed i (if Z.rem i 2 =? 0 then getStandardColor variant
                   else mkCRGB 0 0 0)).

(** Scenario 6: jump left-right; the local [isOdd] starts [true] and flips
    every turn. *)
Definition jumpLeftRight (fuel sleepFuel : nat) : M unit :=
  showUntilCancelled fuel sleepFuel
    (fun isOdd : bool => jumpFill isOdd ;; ret (negb isOdd)) 700 true.

(** [list] rotated to the left by one. *)
Definition rotateLeft {A : Type} (l : list A) : list A :=
  match l with
  | [] => []
  | x :: rest => rest ++ [x]
  end.

(** The settings of [w'] are those of [w]. *)
Definition sameSettings (w w' : World) : Prop := ctl w' = ctl w.

(** [m], [n] times in a row. *)
Fixpoint times (n : nat) (m : M unit) : M unit :=
  match n with
  | O => ret tt
  | S n' => m ;; times n' m
  end.

(** The strip has the length the sketch declares. *)
Definition fullStrip (w : World) : Prop := length (leds w) = Z.to_nat NUM_LEDS.

(** The colour of LED [index], black outside the strip. *)
Definition ledAt (w : World) (index : Z) : CRGB :=
  nth (Z.to_nat index) (leds w) (mkCRGB 0 0 0).

(** [uint16_t]: arithmetic modulo 2^16. *)
Definition u16 (z : Z) : Z := z mod 65536.

(** [random16()]: the next value of the generator, as 16 bits. *)
Definition random16 : M Z :=
  fun w => Done (u16 (rnd w (rndPos w))) (with_rndPos (S (rndPos w)) w).

(** [memset(leds, 0, sizeof(CRGB) * NUM_LEDS)]. *)
Definition memsetLeds : M unit :=
  fun w => Done tt (with_leds blankStrip w).

(** The two points of scenarios 7 and 8 at step [i] from [startIndex], on
    the strip taken as a loop. *)
Definition leftIndex (startIndex i : Z) : Z :=
  Z.rem (NUM_LEDS + startIndex - i) NUM_LEDS.

Definition rightIndex (startIndex i : Z) : Z :=
  Z.rem (startIndex + i) NUM_LEDS.

(** The [for] loop of scenario 8 from step [i] on, [count] steps to go:
    colour both points, show, sleep; [true] when a [sleep] asked for a cancel
    and the routine returns. *)
Fixpoint blastSpread (count sleepFuel : nat) (color : CRGB)
    (startIndex i : Z) : M bool :=
  match count with
  | O => ret false
  | S count' =>
      setLed (leftIndex startIndex i) color ;;
      setLed (rightIndex startIndex i) color ;;
      FastLED_show ;;
      cancel <- sleep sleepFuel 30 ;;
      if cancel then ret true
      else blastSpread count' sleepFuel color startIndex (i + 1)
  end.

(** Scenario 8: blast wave. *)
Fixpoint blastWave (fuel sleepFuel : nat) : M unit :=
  match fuel with
  | O => fun _ => OutOfFuel
  | S fuel' =>
      byte <- random8 ;;
      let color := getStandardColor (Z.rem byte (NUM_STANDARD_COLORS - 1)) in
      word <- random16 ;;
      let startIndex := Z.rem word NUM_LEDS in
      cancelled <- blastSpread (Z.to_nat (NUM_LEDS / 2 + 1)) sleepFuel color
                     startIndex 0 ;;
      if cancelled then ret tt
      else
        cancel <- sleep sleepFuel 0 ;;
        if cancel then ret tt else blastWave fuel' sleepFuel
  end.

(** One channel of the blend of scenario 7:
    [leds[index].r = min(leds[index].r + color.r, 256)], stored in a
    byte. *)
Definition blendChannel (old added : Z) : Z := u8 (Z.min (old + added) 256).

(** The blend of one point with [color], channel by channel. *)
Definition blendLed (index : Z) (color : CRGB) : M unit :=
  old <- getLed index ;;
  setLed index
    (mkCRGB (blendChannel (red old) (red color))
            (blendChannel (green old) (green color))
            (blendChannel (blue old) (blue color))).

(** One step [i] of a race of scenario 7 from the start points
    [startIndices]: clean up the strip, then blend the left and the right
    point of every start point. *)
Definition raceStep (startIndices : list Z) (i : Z) : M unit :=
  memsetLeds ;;
  forLoop 3 0
    (fun j =>
       start <- arrayAt startIndices j ;;
       variant <- gets currentVariant ;;
       let color :=
         getStandardColor (Z.rem (wrap16 (variant + j))
                             (NUM_STANDARD_COLORS - 1)) in
       blendLed (leftIndex start i) color ;;
       blendLed (rightIndex start i) color).

(** One [while] loop of scenario 7: draw [point] again as long as it is one
    of [taken]; one unit of fuel per test. *)
Fixpoint redrawWhileTaken (fuel : nat) (taken : list Z) (point : Z) : M Z :=
  match fuel with
  | O => fun _ => OutOfFuel
  | S fuel' =>
      if existsb (Z.eqb point) taken then
        word <- random16 ;;
        redrawWhileTaken fuel' taken (Z.rem word NUM_LEDS)
      else ret point
  end.

(** The selection of the three start points of scenario 7. *)
Definition selectStartPoints (fuel : nat) : M (list Z) :=
  word0 <- random16 ;;
  word1 <- random16 ;;
  word2 <- random16 ;;
  let start0 := Z.rem word0 NUM_LEDS in
  start1 <- redrawWhileTaken fuel [start0] (Z.rem word1 NUM_LEDS) ;;
  start2 <- redrawWhileTaken fuel [start0; start1] (Z.rem word2 NUM_LEDS) ;;
  ret [start0; start1; start2].

(** The [for] loop of scenario 7 from step [i] on, [count] steps to go;
    [true] when a [sleep] asked for a cancel and the routine returns. *)
Fixpoint raceLoop (count sleepFuel : nat) (startIndices : list Z) (i : Z)
    : M bool :=
  match count with
  | O => ret false
  | S count' =>
      raceStep startIndices i ;;
      FastLED_show ;;
      cancel <- sleep sleepFuel 30 ;;
      if cancel then ret true
      else raceLoop count' sleepFuel startIndices (i + 1)
  end.

(** Scenario 7: racing lights. *)
Fixpoint racingLights (fuel drawFuel sleepFuel : nat) : M unit :=
  match fuel with
  | O => fun _ => OutOfFuel
  | S fuel' =>
      startIndices <- selectStartPoints drawFuel ;;
      cancelled <- raceLoop (Z.to_nat (NUM_LEDS / 2 + 1)) sleepFuel
                     startIndices 0 ;;
      if cancelled then ret tt
      else
        cancel <- sleep sleepFuel 0 ;;
        if cancel then ret tt else racingLights fuel' drawFuel sleepFuel
  end.

(** The inner [for] loop of scenario 9 from position [j] down, [count]
    positions to go: clean the previous position, light this one, show,
    sleep; [true] when a [sleep] asked for a cancel and the routine
    returns. *)
Fixpoint stackMove (count sleepFuel : nat) (color : CRGB) (j : Z) : M bool :=
  match count with
  | O => ret false
  | S count' =>
      (if negb (j =? NUM_LEDS - 1) then setLed (j + 1) (mkCRGB 0 0 0)
       else ret tt) ;;
      setLed j color ;;
      FastLED_show ;;
      cancel <- sleep sleepFuel 10 ;;
      if cancel then ret true
      else stackMove count' sleepFuel color (j - 1)
  end.

(** The outer [for] loop of scenario 9 from block [i] on, [count] blocks to
    go. *)
Fixpoint stackBlocks (count sleepFuel : nat) (i : Z) : M bool :=
  match count with
  | O => ret false
  | S count' =>
      let color := getStandardColor (Z.rem i (NUM_STANDARD_COLORS - 1)) in
      cancelled <- stackMove (Z.to_nat (NUM_LEDS - i)) sleepFuel color
                     (NUM_LEDS - 1) ;;
      if cancelled then ret true
      else stackBlocks count' sleepFuel (i + 1)
  end.

(** Scenario 9: stacking colours. *)
Fixpoint stackingColors (fuel sleepFuel : nat) : M unit :=
  match fuel with
  | O => fun _ => OutOfFuel
  | S fuel' =>
      memsetLeds ;;
      cancelled <- stackBlocks (Z.to_nat NUM_LEDS) sleepFuel 0 ;;
      if cancelled then ret tt
      else
        cancel <- sleep sleepFuel 0 ;;
        if cancel then ret tt else stackingColors fuel' sleepFuel
  end.

(** The point the [n]-th draw of [random16] from [w] on gives. *)
Definition nextPoint (w : World) (n : nat) : Z :=
  Z.rem (u16 (rnd w (rndPos w + n)%nat)) NUM_LEDS.

(** The strip is blank and a blank frame was the last thing shown. *)
Definition wentDark (w : World) : Prop :=
  leds w = blankStrip /\ exists older, driver w = PushFrame blankStrip :: older.

(** A loop of a light routine that tells its routine whether a [sleep] asked
    for a cancel: run on a machine that is switched on, it leaves the
    settings in range, and it answers [true] only with the strip gone dark,
    [false] only with the machine still switched on. *)
Definition cancellable (m : M bool) : Prop :=
  forall (w w' : World) (cancelled : bool),
    validSettings (ctl w) ->
    isSwitchedOn (ctl w) = true ->
    m w = Done cancelled w' ->
    validSettings (ctl w')
    /\ if cancelled then wentDark w' else isSwitchedOn (ctl w') = true.

(** [TRANSITION_PERIOD] of scenario 3. *)
Definition TRANSITION_PERIOD : Z := 1000.

(** One channel of the linear transition of scenario 3, [dt] after its
    start:
    [fromColor[c] * (TRANSITION_PERIOD - dt) / TRANSITION_PERIOD
     + toColor[c] * dt / TRANSITION_PERIOD],
    computed in [unsigned long] and stored in a byte. *)
Definition transitionChannel (fromChannel toChannel dt : Z) : Z :=
  u8 (u32 (u32 (fromChannel * u32 (TRANSITION_PERIOD - dt)) / TRANSITION_PERIOD
           + u32 (toChannel * dt) / TRANSITION_PERIOD)).

(** The colour of the transition [dt] after its start. *)
Definition transitionColor (fromColor toColor : CRGB) (dt : Z) : CRGB :=
  mkCRGB (transitionChannel (red fromColor) (red toColor) dt)
         (transitionChannel (green fromColor) (green toColor) dt)
         (transitionChannel (blue fromColor) (blue toColor) dt).

(** ** Facts about the tables *)

Local Arguments wrap16 : simpl never.
Local Arguments u32 : simpl never.
Local Arguments u8 : simpl never.
Local Arguments Z.rem : simpl never.
Local Arguments Z.min : simpl never.
Local Arguments Z.max : simpl never.
Local Arguments Z.add : simpl never.
Local Arguments Z.sub : simpl never.
Local Arguments Z.mul : simpl never.
Local Arguments Z.div : simpl never.
Local Arguments Z.eqb : simpl never.
Local Arguments Z.leb : simpl never.
Local Arguments Z.ltb : simpl never.
Local Arguments blankStrip : simpl never.
Local Arguments numVariantsOf : simpl never.
Local Arguments brightnessOf : simpl never.

Lemma readReceiverAndProcess_pending (w : World) :
  readReceiverAndProcess w = processButton (pending w) (polled w).
Proof. reflexivity. Qed.

Lemma numVariantsOf_cases (i : Z) :
  0 <= i < NUM_SCENARIOS -> numVariantsOf i = 1 \/ numVariantsOf i = 7.
Proof.
  unfold NUM_SCENARIOS. intros Hi.
  assert (Hc : i = 0 \/ i = 1 \/ i = 2 \/ i = 3 \/ i = 4 \/ i = 5 \/ i = 6
               \/ i = 7 \/ i = 8 \/ i = 9) by lia.
  repeat (destruct Hc as [-> | Hc]; [vm_compute; auto |]).
  subst i. vm_compute. auto.
Qed.

Lemma arrayAt_scenarios (i : Z) :
  0 <= i < NUM_SCENARIOS ->
  exists scenario,
    (forall w, arrayAt scenarios i w = Done scenario w)
    /\ numVariants scenario = numVariantsOf i.
Proof.
  unfold NUM_SCENARIOS. intros Hi.
  unfold arrayAt, numVariantsOf.
  destruct (Z.ltb_spec i 0) as [Hneg | _]; [lia |].
  destruct (nth_error scenarios (Z.to_nat i)) as [s |] eqn:Hn.
  - exists s. split; reflexivity.
  - apply nth_error_None in Hn. simpl in Hn. lia.
Qed.

Lemma arrayAt_brightnessMap (i : Z) (w : World) :
  0 <= i < NUM_BRIGHTNESS_STEPS ->
  arrayAt brightnessMap i w = Done (brightnessOf i) w.
Proof.
  unfold NUM_BRIGHTNESS_STEPS. intros Hi.
  assert (Hc : i = 0 \/ i = 1 \/ i = 2 \/ i = 3) by lia.
  destruct Hc as [-> | [-> | [-> | ->]]]; reflexivity.
Qed.

Ltac buttons :=
  repeat match goal with
    | |- context [isButton ?x ?y] =>
        let v := eval vm_compute in (isButton x y) in
        change (isButton x y) with v
    | |- context [buttonCode ?x <=? buttonCode ?y] =>
        let v := eval vm_compute in (buttonCode x <=? buttonCode y) in
        change (buttonCode x <=? buttonCode y) with v
    | |- context [buttonCode ?x - buttonCode ?y] =>
        let v := eval vm_compute in (buttonCode x - buttonCode y) in
        change (buttonCode x - buttonCode y) with v
    end.

Ltac run :=
  unfold orElse, bind, gets, modify, ret, FastLED_clear, FastLED_show,
    FastLED_setBrightness, millis, random8, remainder; cbn.

Section ProcessButton.

Variable w : World.

Lemma processButton_POWER_on :
  isSwitchedOn (ctl w) = true ->
  processButton POWER w
  = Done true (blanked (with_ctl (set_isSwitchedOn false (ctl w)) w)).
Proof.
  intros Hon. unfold processButton. buttons. run. rewrite Hon. cbn.
  reflexivity.
Qed.

Lemma processButton_POWER_off :
  isSwitchedOn (ctl w) = false ->
  validScenario (ctl w) ->
  processButton POWER w
  = Done false (with_ctl (set_isSwitchedOn true (ctl w)) w).
Proof.
  intros Hoff Hsc.
  destruct (arrayAt_scenarios _ Hsc) as (s & Hs & _).
  unfold processButton. buttons. run. rewrite Hoff. cbn. rewrite Hs.
  reflexivity.
Qed.

Lemma processButton_off (button : Button) :
  isSwitchedOn (ctl w) = false ->
  button <> POWER ->
  processButton button w = Done true w.
Proof.
  intros Hoff Hb. unfold processButton.
  destruct button; try congruence; buttons; run; rewrite Hoff; reflexivity.
Qed.

Hypothesis Hon : isSwitchedOn (ctl w) = true.
Hypothesis Hsc : validScenario (ctl w).

Lemma processButton_idle (button : Button) :
  button = NONE \/ button = FUNC_STOP \/ button = PAUSE \/ button = EQ ->
  processButton button w = Done false w.
Proof.
  destruct (arrayAt_scenarios _ Hsc) as (s & Hs & _).
  intros [-> | [-> | [-> | ->]]];
    unfold processButton; buttons; run; rewrite Hon; cbn; rewrite Hs;
    reflexivity.
Qed.

Lemma processButton_digit_same (button : Button) :
  isDigit button = true ->
  currentScenario (ctl w) = digitOf button ->
  processButton button w = Done false w.
Proof.
  destruct (arrayAt_scenarios _ Hsc) as (s & Hs & _).
  intros Hd Hcur.
  destruct button; try discriminate Hd;
    unfold digitOf in Hcur; unfold processButton; buttons; run;
    rewrite Hon; cbn;
    match goal with
    | |- context [NUM_SCENARIOS <=? ?n] =>
        change (NUM_SCENARIOS <=? n) with false
    end;
    cbn; rewrite Hcur; buttons; rewrite Z.eqb_refl; cbn; rewrite Hs;
    reflexivity.
Qed.

Lemma processButton_digit_other (button : Button) :
  isDigit button = true ->
  currentScenario (ctl w) <> digitOf button ->
  processButton button w
  = Done true
      (blanked
         (with_ctl
            (set_currentVariant 0
               (set_currentScenario (digitOf button) (ctl w))) w)).
Proof.
  intros Hd Hcur.
  destruct button; try discriminate Hd;
    unfold digitOf in *; unfold processButton; buttons; run;
    rewrite Hon; cbn;
    match goal with
    | |- context [NUM_SCENARIOS <=? ?n] =>
        change (NUM_SCENARIOS <=? n) with false
    end;
    cbn;
    match goal with
    | |- context [?a =? ?b] => destruct (Z.eqb_spec a b) as [He | _]
    end;
    solve [ exfalso; apply Hcur; rewrite He; reflexivity
          | reflexivity ].
Qed.

Lemma processButton_variant_single (button : Button) :
  button = FAST_FORWARD \/ button = FAST_BACK ->
  numVariantsOf (currentScenario (ctl w)) = 1 ->
  processButton button w = Done false w.
Proof.
  destruct (arrayAt_scenarios _ Hsc) as (s & Hs & Hnv).
  intros [-> | ->] H1; unfold processButton; buttons; run; rewrite Hon;
    cbn; rewrite Hs, Hnv, H1; reflexivity.
Qed.

Lemma processButton_FAST_FORWARD :
  numVariantsOf (currentScenario (ctl w)) <> 1 ->
  processButton FAST_FORWARD w
  = Done true
      (blanked
         (with_ctl
            (set_currentVariant
               (wrap16 (Z.rem (wrap16 (currentVariant (ctl w) + 1))
                              (numVariantsOf (currentScenario (ctl w)))))
               (ctl w)) w)).
Proof.
  destruct (arrayAt_scenarios _ Hsc) as (s & Hs & Hnv).
  intros H1.
  destruct (numVariantsOf_cases _ Hsc) as [H | H7]; [contradiction |].
  unfold processButton; buttons; run; rewrite Hon; cbn.
  rewrite Hs, Hnv, H7. reflexivity.
Qed.

Lemma processButton_FAST_BACK :
  numVariantsOf (currentScenario (ctl w)) <> 1 ->
  processButton FAST_BACK w
  = Done true
      (blanked
         (with_ctl
            (set_currentVariant
               (wrap16
                  (Z.rem
                     (wrap16
                        (wrap16 (numVariantsOf (currentScenario (ctl w))
                                 + currentVariant (ctl w)) - 1))
                     (numVariantsOf (currentScenario (ctl w)))))
               (ctl w)) w)).
Proof.
  destruct (arrayAt_scenarios _ Hsc) as (s & Hs & Hnv).
  intros H1.
  destruct (numVariantsOf_cases _ Hsc) as [H | H7]; [contradiction |].
  unfold processButton; buttons; run; rewrite Hon; cbn.
  rewrite Hs, Hnv, H7. reflexivity.
Qed.

Lemma processButton_VOL_PLUS :
  0 <= currentBrightness (ctl w) < NUM_BRIGHTNESS_STEPS ->
  let level := Z.min (currentBrightness (ctl w) + 1) (NUM_BRIGHTNESS_STEPS - 1) in
  processButton VOL_PLUS w
  = Done false
      (with_driver (SetBrightness (brightnessOf level) :: driver w)
         (with_ctl (set_currentBrightness level (ctl w)) w)).
Proof.
  destruct (arrayAt_scenarios _ Hsc) as (s & Hs & _).
  intros Hbr level.
  assert (Hw : wrap16 (currentBrightness (ctl w) + 1)
               = currentBrightness (ctl w) + 1).
  { unfold wrap16, NUM_BRIGHTNESS_STEPS in *.
    rewrite Z.mod_small by lia. lia. }
  unfold processButton; buttons; run; rewrite Hon; cbn. rewrite Hs.
  rewrite Hw. fold level.
  rewrite arrayAt_brightnessMap
    by (subst level; unfold NUM_BRIGHTNESS_STEPS in *; lia).
  reflexivity.
Qed.

Lemma processButton_VOL_MINUS :
  0 <= currentBrightness (ctl w) < NUM_BRIGHTNESS_STEPS ->
  let level := Z.max (currentBrightness (ctl w) - 1) 0 in
  processButton VOL_MINUS w
  = Done false
      (with_driver (SetBrightness (brightnessOf level) :: driver w)
         (with_ctl (set_currentBrightness level (ctl w)) w)).
Proof.
  destruct (arrayAt_scenarios _ Hsc) as (s & Hs & _).
  intros Hbr level.
  assert (Hw : wrap16 (currentBrightness (ctl w) - 1)
               = currentBrightness (ctl w) - 1).
  { unfold wrap16, NUM_BRIGHTNESS_STEPS in *.
    rewrite Z.mod_small by lia. lia. }
  unfold processButton; buttons; run; rewrite Hon; cbn. rewrite Hs.
  rewrite Hw. fold level.
  rewrite arrayAt_brightnessMap
    by (subst level; unfold NUM_BRIGHTNESS_STEPS in *; lia).
  reflexivity.
Qed.

Lemma processButton_UP :
  0 <= currentSpeed (ctl w) < NUM_SPEED_STEPS ->
  processButton UP w
  = Done false
      (with_ctl
         (set_currentSpeed
            (Z.min (currentSpeed (ctl w) + 1) (NUM_SPEED_STEPS - 1))
            (ctl w)) w).
Proof.
  destruct (arrayAt_scenarios _ Hsc) as (s & Hs & _).
  intros Hsp.
  assert (Hw : wrap16 (currentSpeed (ctl w) + 1) = currentSpeed (ctl w) + 1).
  { unfold wrap16, NUM_SPEED_STEPS in *. rewrite Z.mod_small by lia. lia. }
  unfold processButton; buttons; run; rewrite Hon; cbn. rewrite Hs.
  rewrite Hw. reflexivity.
Qed.

Lemma processButton_DOWN :
  0 <= currentSpeed (ctl w) < NUM_SPEED_STEPS ->
  processButton DOWN w
  = Done false
      (with_ctl
         (set_currentSpeed (Z.max (currentSpeed (ctl w) - 1) 0) (ctl w)) w).
Proof.
  destruct (arrayAt_scenarios _ Hsc) as (s & Hs & _).
  intros Hsp.
  assert (Hw : wrap16 (currentSpeed (ctl w) - 1) = currentSpeed (ctl w) - 1).
  { unfold wrap16, NUM_SPEED_STEPS in *. rewrite Z.mod_small by lia. lia. }
  unfold processButton; buttons; run; rewrite Hon; cbn. rewrite Hs.
  rewrite Hw. reflexivity.
Qed.

Lemma processButton_ST_REPT :
  processButton ST_REPT w
  = Done false
      (with_clockPos (S (clockPos w))
         (with_ctl
            (set_lastScenarioSwitchTimestamp (u32 (clock w (clockPos w)))
               (set_isSwitchModeActive (negb (isSwitchModeActive (ctl w)))
                  (ctl w))) w)).
Proof.
  destruct (arrayAt_scenarios _ Hsc) as (s & Hs & _).
  unfold processButton; buttons; run; rewrite Hon; cbn. rewrite Hs.
  reflexivity.
Qed.

End ProcessButton.

(** ** The button handler, claim by claim *)

(** C10. In a powered-on state, a poll that yields [NONE] (no signal, or a
    code the table does not know) returns [false] and changes nothing but
    the receiver's cursor: all seven settings, the pixel buffer and the calls
    made on the driver are what they were. *)
Theorem none_is_noop (w : World) :
  isSwitchedOn (ctl w) = true ->
  validScenario (ctl w) ->
  pending w = NONE ->
  readReceiverAndProcess w = Done false (polled w)
  /\ ctl (polled w) = ctl w
  /\ leds (polled w) = leds w
  /\ driver (polled w) = driver w.
Proof.
  intros Hon Hsc Hp. rewrite readReceiverAndProcess_pending, Hp.
  rewrite processButton_idle by auto. repeat split.
Qed.

Lemma none_is_noop_witness :
  readReceiverAndProcess (bench [0xFFFFFFFF])
  = Done false (polled (bench [0xFFFFFFFF]))
  /\ readReceiverAndProcess (bench []) = Done false (polled (bench [])).
Proof.
  split.
  - apply (none_is_noop (bench [0xFFFFFFFF]));
      [reflexivity | unfold validScenario, NUM_SCENARIOS; simpl; lia
      | reflexivity].
  - apply (none_is_noop (bench []));
      [reflexivity | unfold validScenario, NUM_SCENARIOS; simpl; lia
      | reflexivity].
Defined.

(** C1 (as amended). [POWER] toggles [isSwitchedOn].  When the toggle leaves
    the strip off the buffer is blanked, the blank frame is pushed and the
    call returns [true]; when it turns the strip on the call returns [false]
    and neither the buffer nor the driver is touched. *)
Theorem power_toggles (w : World) :
  pending w = POWER ->
  (isSwitchedOn (ctl w) = false -> validScenario (ctl w)) ->
  readReceiverAndProcess w
  = if isSwitchedOn (ctl w) then
      Done true (blanked (with_ctl (set_isSwitchedOn false (ctl w)) (polled w)))
    else
      Done false (with_ctl (set_isSwitchedOn true (ctl w)) (polled w)).
Proof.
  intros Hp Hsc. rewrite readReceiverAndProcess_pending, Hp.
  destruct (isSwitchedOn (ctl w)) eqn:Hon.
  - exact (processButton_POWER_on (polled w) Hon).
  - exact (processButton_POWER_off (polled w) Hon (Hsc eq_refl)).
Qed.

Lemma power_toggles_witness :
  readReceiverAndProcess (bench [0xBA45FF00; 0xBA45FF00]) = Done true switchedOff
  /\ readReceiverAndProcess switchedOff
     = Done false (with_ctl (set_isSwitchedOn true (ctl switchedOff))
                     (polled switchedOff)).
Proof.
  split.
  - apply (power_toggles (bench [0xBA45FF00; 0xBA45FF00]));
      [reflexivity | discriminate].
  - apply (power_toggles switchedOff);
      [reflexivity | intros _; unfold validScenario, NUM_SCENARIOS; simpl; lia].
Defined.

(** C1, the claim as written fails: the press that switches the strip on
    returns [false] and pushes no frame. *)
Lemma power_on_does_not_cancel : ~ power_change_always_cancels.
Proof.
  intros H. destruct (H switchedOff eq_refl) as (w' & Hrun & _).
  rewrite readReceiverAndProcess_pending in Hrun.
  change (pending switchedOff) with POWER in Hrun.
  rewrite processButton_POWER_off in Hrun.
  - discriminate Hrun.
  - reflexivity.
  - unfold validScenario, NUM_SCENARIOS. simpl. lia.
Qed.

Lemma digitOf_range (button : Button) :
  isDigit button = true -> 0 <= digitOf button < NUM_SCENARIOS.
Proof.
  destruct button; intros H; try discriminate H; vm_compute; split; congruence.
Qed.

(** What a digit press does, read on the fields of the machine: the same
    digit changes nothing; another digit selects its scenario, zeroes the
    variant, keeps every other setting, blanks the buffer and pushes the
    blank frame. *)
Lemma digit_press_fields (w : World) (button : Button) :
  isSwitchedOn (ctl w) = true ->
  validScenario (ctl w) ->
  pending w = button ->
  isDigit button = true ->
  exists cancel w1,
    readReceiverAndProcess w = Done cancel w1
    /\ irPos w1 = S (irPos w)
    /\ if currentScenario (ctl w) =? digitOf button then
         cancel = false
         /\ currentScenario (ctl w1) = currentScenario (ctl w)
         /\ currentVariant (ctl w1) = currentVariant (ctl w)
         /\ ctl w1 = ctl w
         /\ leds w1 = leds w
         /\ driver w1 = driver w
       else
         cancel = true
         /\ currentScenario (ctl w1) = digitOf button
         /\ currentVariant (ctl w1) = 0
         /\ currentBrightness (ctl w1) = currentBrightness (ctl w)
         /\ isSwitchedOn (ctl w1) = true
         /\ currentSpeed (ctl w1) = currentSpeed (ctl w)
         /\ isSwitchModeActive (ctl w1) = isSwitchModeActive (ctl w)
         /\ lastScenarioSwitchTimestamp (ctl w1)
            = lastScenarioSwitchTimestamp (ctl w)
         /\ leds w1 = blankStrip
         /\ driver w1 = PushFrame blankStrip :: driver w.
Proof.
  intros Hon Hsc Hp Hd.
  rewrite readReceiverAndProcess_pending, Hp.
  destruct (Z.eqb_spec (currentScenario (ctl w)) (digitOf button)) as [He | Hne].
  - exists false, (polled w).
    split; [exact (processButton_digit_same (polled w) Hon Hsc button Hd He) |].
    repeat split.
  - eexists true, _.
    split; [exact (processButton_digit_other (polled w) Hon button Hd Hne) |].
    cbn [irPos ctl leds driver blanked with_ctl with_driver with_leds polled
         with_irPos set_currentVariant set_currentScenario currentScenario
         currentVariant currentBrightness isSwitchedOn currentSpeed
         isSwitchModeActive lastScenarioSwitchTimestamp].
    repeat split. exact Hon.
Qed.

(** C6. In a powered-on state a digit that names the current scenario
    returns [false] and changes nothing, the variant included; a digit that
    names another scenario selects it, leaves the variant at 0 whatever it
    was, keeps the other settings, blanks the buffer, pushes the blank frame
    and returns [true].  Pressing the same digit again after either is the
    first case: selecting a scenario twice is selecting it once. *)
Theorem digit_selects_scenario (w : World) (button : Button) :
  isSwitchedOn (ctl w) = true ->
  validScenario (ctl w) ->
  pending w = button ->
  isDigit button = true ->
  readReceiverAndProcess w
  = (if currentScenario (ctl w) =? digitOf button then Done false (polled w)
     else
       Done true
         (blanked
            (with_ctl
               (set_currentVariant 0
                  (set_currentScenario (digitOf button) (ctl w)))
               (polled w))))
  /\ (exists cancel w1,
        readReceiverAndProcess w = Done cancel w1
        /\ irPos w1 = S (irPos w)
        /\ if currentScenario (ctl w) =? digitOf button then
             cancel = false
             /\ currentScenario (ctl w1) = currentScenario (ctl w)
             /\ currentVariant (ctl w1) = currentVariant (ctl w)
             /\ ctl w1 = ctl w
             /\ leds w1 = leds w
             /\ driver w1 = driver w
           else
             cancel = true
             /\ currentScenario (ctl w1) = digitOf button
             /\ currentVariant (ctl w1) = 0
             /\ currentBrightness (ctl w1) = currentBrightness (ctl w)
             /\ isSwitchedOn (ctl w1) = true
             /\ currentSpeed (ctl w1) = currentSpeed (ctl w)
             /\ isSwitchModeActive (ctl w1) = isSwitchModeActive (ctl w)
             /\ lastScenarioSwitchTimestamp (ctl w1)
                = lastScenarioSwitchTimestamp (ctl w)
             /\ leds w1 = blankStrip
             /\ driver w1 = PushFrame blankStrip :: driver w)
  /\ (forall cancel w1,
        readReceiverAndProcess w = Done cancel w1 ->
        pending w1 = button ->
        readReceiverAndProcess w1 = Done false (polled w1)
        /\ ctl (polled w1) = ctl w1
        /\ leds (polled w1) = leds w1
        /\ driver (polled w1) = driver w1
        /\ exists w2,
             readReceiverAndProcess w1 = Done false w2
             /\ currentScenario (ctl w2) = digitOf button
             /\ currentVariant (ctl w2) = currentVariant (ctl w1)
             /\ ctl w2 = ctl w1
             /\ leds w2 = leds w1
             /\ driver w2 = driver w1).
Proof.
  intros Hon Hsc Hp Hd.
  assert (Hfirst :
    readReceiverAndProcess w
    = (if currentScenario (ctl w) =? digitOf button then Done false (polled w)
       else
         Done true
           (blanked
              (with_ctl
                 (set_currentVariant 0
                    (set_currentScenario (digitOf button) (ctl w)))
                 (polled w))))).
  { rewrite readReceiverAndProcess_pending, Hp.
    destruct (Z.eqb_spec (currentScenario (ctl w)) (digitOf button)) as [He | Hne].
    - exact (processButton_digit_same (polled w) Hon Hsc button Hd He).
    - exact (processButton_digit_other (polled w) Hon button Hd Hne). }
  split; [exact Hfirst |].
  split; [exact (digit_press_fields w button Hon Hsc Hp Hd) |].
  intros cancel w1 Hrun Hp1.
  destruct (digit_press_fields w button Hon Hsc Hp Hd)
    as (cancel' & w1' & Hrun' & _ & Hfields).
  rewrite Hrun in Hrun'. inversion Hrun'; subst cancel' w1'. clear Hrun'.
  assert (Hw1 : isSwitchedOn (ctl w1) = true
                /\ currentScenario (ctl w1) = digitOf button).
  { revert Hfields.
    destruct (Z.eqb_spec (currentScenario (ctl w)) (digitOf button))
      as [He | Hne]; intros Hfields.
    - destruct Hfields as (_ & Hs & _ & Hctl & _).
      split; [rewrite Hctl; exact Hon | rewrite Hs; exact He].
    - destruct Hfields as (_ & Hs & _ & _ & Hon1 & _).
      split; [exact Hon1 | exact Hs]. }
  destruct Hw1 as [Hon1 Hcur1].
  assert (Hsc1 : validScenario (ctl w1)).
  { unfold validScenario. rewrite Hcur1. apply digitOf_range. exact Hd. }
  destruct (digit_press_fields w1 button Hon1 Hsc1 Hp1 Hd)
    as (cancel2 & w2 & Hrun2 & _ & Hfields2).
  rewrite Hcur1, Z.eqb_refl in Hfields2.
  destruct Hfields2 as (-> & Hs2 & Hv2 & Hctl2 & Hleds2 & Hdrv2).
  assert (Hsame : readReceiverAndProcess w1 = Done false (polled w1)).
  { rewrite readReceiverAndProcess_pending, Hp1.
    exact (processButton_digit_same (polled w1) Hon1 Hsc1 button Hd Hcur1). }
  split; [exact Hsame |].
  split; [reflexivity |]. split; [reflexivity |]. split; [reflexivity |].
  exists w2. split; [exact Hrun2 |].
  split; [exact Hs2 |]. auto.
Qed.

Lemma digit_selects_scenario_witness :
  currentScenario (ctl (benchAt 0 4 [0xA15EFF00])) = 0
  /\ currentVariant (ctl (benchAt 0 4 [0xA15EFF00])) = 4
  /\ exists cancel w1,
       readReceiverAndProcess (benchAt 0 4 [0xA15EFF00]) = Done cancel w1
       /\ cancel = true
       /\ currentScenario (ctl w1) = 3
       /\ currentVariant (ctl w1) = 0
       /\ leds w1 = blankStrip.
Proof.
  split; [reflexivity |]. split; [reflexivity |].
  destruct (digit_selects_scenario (benchAt 0 4 [0xA15EFF00]) NUM_3)
    as (_ & (cancel & w1 & Hrun & _ & Hfields) & _);
    [reflexivity | unfold validScenario, NUM_SCENARIOS; simpl; lia
    | reflexivity | reflexivity |].
  change (currentScenario (ctl (benchAt 0 4 [0xA15EFF00])) =? digitOf NUM_3)
    with false in Hfields.
  destruct Hfields as (Hc & Hs & Hv & _ & _ & _ & _ & _ & Hleds & _).
  exists cancel, w1. split; [exact Hrun |].
  split; [exact Hc |]. split; [exact Hs |]. split; [exact Hv | exact Hleds].
Defined.

(** C7. In a powered-on state [VOL+]/[VOL-] move [currentBrightness] and
    [UP]/[DOWN] move [currentSpeed] by one step, clamped to the range of the
    setting; the call returns [false]; the scenario, the variant, the power
    flag, the switch mode and its timestamp are unchanged, and so is the pixel
    buffer.  A brightness change is sent to the driver at once. *)
Theorem levels_do_not_cancel (w : World) (button : Button) :
  isSwitchedOn (ctl w) = true ->
  validSettings (ctl w) ->
  pending w = button ->
  button = VOL_PLUS \/ button = VOL_MINUS \/ button = UP \/ button = DOWN ->
  exists w',
    readReceiverAndProcess w = Done false w'
    /\ currentBrightness (ctl w')
       = match button with
         | VOL_PLUS =>
             Z.min (currentBrightness (ctl w) + 1) (NUM_BRIGHTNESS_STEPS - 1)
         | VOL_MINUS => Z.max (currentBrightness (ctl w) - 1) 0
         | _ => currentBrightness (ctl w)
         end
    /\ currentSpeed (ctl w')
       = match button with
         | UP => Z.min (currentSpeed (ctl w) + 1) (NUM_SPEED_STEPS - 1)
         | DOWN => Z.max (currentSpeed (ctl w) - 1) 0
         | _ => currentSpeed (ctl w)
         end
    /\ 0 <= currentBrightness (ctl w') < NUM_BRIGHTNESS_STEPS
    /\ 0 <= currentSpeed (ctl w') < NUM_SPEED_STEPS
    /\ currentScenario (ctl w') = currentScenario (ctl w)
    /\ currentVariant (ctl w') = currentVariant (ctl w)
    /\ isSwitchedOn (ctl w') = isSwitchedOn (ctl w)
    /\ isSwitchModeActive (ctl w') = isSwitchModeActive (ctl w)
    /\ lastScenarioSwitchTimestamp (ctl w') = lastScenarioSwitchTimestamp (ctl w)
    /\ leds w' = leds w
    /\ driver w'
       = match button with
         | VOL_PLUS | VOL_MINUS =>
             SetBrightness (brightnessOf (currentBrightness (ctl w'))) :: driver w
         | _ => driver w
         end.
Proof.
  intros Hon (Hsc & _ & Hbr & Hsp) Hp Hb.
  rewrite readReceiverAndProcess_pending, Hp.
  destruct Hb as [-> | [-> | [-> | ->]]].
  - rewrite (processButton_VOL_PLUS (polled w) Hon Hsc Hbr).
    eexists. split; [reflexivity |]. cbn.
    unfold NUM_BRIGHTNESS_STEPS, NUM_SPEED_STEPS in *. repeat split; lia.
  - rewrite (processButton_VOL_MINUS (polled w) Hon Hsc Hbr).
    eexists. split; [reflexivity |]. cbn.
    unfold NUM_BRIGHTNESS_STEPS, NUM_SPEED_STEPS in *. repeat split; lia.
  - rewrite (processButton_UP (polled w) Hon Hsc Hsp).
    eexists. split; [reflexivity |]. cbn.
    unfold NUM_BRIGHTNESS_STEPS, NUM_SPEED_STEPS in *. repeat split; lia.
  - rewrite (processButton_DOWN (polled w) Hon Hsc Hsp).
    eexists. split; [reflexivity |]. cbn.
    unfold NUM_BRIGHTNESS_STEPS, NUM_SPEED_STEPS in *. repeat split; lia.
Qed.

Lemma levels_do_not_cancel_witness :
  (exists w', readReceiverAndProcess (bench [0xEA15FF00]) = Done false w'
              /\ currentBrightness (ctl w') = 2)
  /\ (exists w', readReceiverAndProcess (bench [0xF609FF00]) = Done false w'
                 /\ currentSpeed (ctl w') = 3).
Proof.
  split.
  - destruct (levels_do_not_cancel (bench [0xEA15FF00]) VOL_MINUS)
      as (w' & Hrun & Hbr & _);
      [reflexivity | vm_compute; intuition congruence | reflexivity | auto |].
    exists w'. split; [exact Hrun | exact Hbr].
  - destruct (levels_do_not_cancel (bench [0xF609FF00]) UP)
      as (w' & Hrun & _ & Hsp & _);
      [reflexivity | vm_compute; intuition congruence | reflexivity | auto |].
    exists w'. split; [exact Hrun | exact Hsp].
Defined.

(** ** Variant selection *)

Lemma upcoming_S (w w1 : World) (n : nat) :
  ir w1 = ir w ->
  irPos w1 = S (irPos w) ->
  upcoming w (S n) = pending w :: upcoming w1 n.
Proof.
  intros Hir Hpos. unfold upcoming. simpl seq. simpl map.
  rewrite <- seq_shift, map_map. f_equal.
  - unfold pendingAt, pending. rewrite Nat.add_0_r. reflexivity.
  - apply map_ext. intros i. unfold pendingAt. rewrite Hir, Hpos.
    rewrite Nat.add_succ_r. reflexivity.
Qed.

Lemma forward_wraps (v count : Z) :
  0 <= v < count -> count <= 7 ->
  wrap16 (Z.rem (wrap16 (v + 1)) count) = (v + 1) mod count.
Proof.
  intros Hv Hc.
  assert (H1 : wrap16 (v + 1) = v + 1).
  { unfold wrap16. rewrite Z.mod_small by lia. lia. }
  rewrite H1, Z.rem_mod_nonneg by lia.
  pose proof (Z.mod_pos_bound (v + 1) count ltac:(lia)).
  unfold wrap16. rewrite Z.mod_small by lia. lia.
Qed.

Lemma backward_wraps (v count : Z) :
  0 <= v < count -> count <= 7 ->
  wrap16 (Z.rem (wrap16 (wrap16 (count + v) - 1)) count) = (v - 1) mod count.
Proof.
  intros Hv Hc.
  assert (H1 : wrap16 (count + v) = count + v).
  { unfold wrap16. rewrite Z.mod_small by lia. lia. }
  assert (H2 : wrap16 (count + v - 1) = count + v - 1).
  { unfold wrap16. rewrite Z.mod_small by lia. lia. }
  rewrite H1, H2, Z.rem_mod_nonneg by lia.
  replace (count + v - 1) with (v - 1 + 1 * count) by lia.
  rewrite Z.mod_add by lia.
  pose proof (Z.mod_pos_bound (v - 1) count ltac:(lia)).
  unfold wrap16. rewrite Z.mod_small by lia. lia.
Qed.

(** One [FAST_FORWARD] or [FAST_BACK] on a scenario with several variants. *)
Lemma variant_step (w : World) (button : Button) :
  isSwitchedOn (ctl w) = true ->
  validScenario (ctl w) ->
  validVariant (ctl w) ->
  isVariantButton button ->
  1 < numVariantsOf (currentScenario (ctl w)) ->
  processButton button w
  = Done true
      (blanked
         (with_ctl
            (set_currentVariant
               ((currentVariant (ctl w) + variantShift button)
                mod numVariantsOf (currentScenario (ctl w)))
               (ctl w)) w)).
Proof.
  intros Hon Hsc Hv Hb Hc. unfold validVariant in Hv.
  assert (H7 : numVariantsOf (currentScenario (ctl w)) <= 7)
    by (destruct (numVariantsOf_cases _ Hsc); lia).
  destruct Hb as [-> | ->].
  - rewrite processButton_FAST_FORWARD by (auto; lia).
    rewrite forward_wraps by assumption. reflexivity.
  - rewrite processButton_FAST_BACK by (auto; lia).
    rewrite backward_wraps by assumption. reflexivity.
Qed.

(** On a scenario with seven variants, back from the first variant is the
    last one and forward from the last one is the first. *)
Lemma back_from_first_variant (w : World) :
  isSwitchedOn (ctl w) = true ->
  validScenario (ctl w) ->
  numVariantsOf (currentScenario (ctl w)) = 7 ->
  currentVariant (ctl w) = 0 ->
  pending w = FAST_BACK ->
  exists w',
    readReceiverAndProcess w = Done true w' /\ currentVariant (ctl w') = 6.
Proof.
  intros Hon Hsc H7 H0 Hp. rewrite readReceiverAndProcess_pending, Hp.
  rewrite (variant_step (polled w) FAST_BACK Hon Hsc)
    by (unfold validVariant, isVariantButton; cbn; auto; lia).
  eexists. split; [reflexivity |]. cbn. rewrite H7, H0. reflexivity.
Qed.

Lemma forward_from_last_variant (w : World) :
  isSwitchedOn (ctl w) = true ->
  validScenario (ctl w) ->
  numVariantsOf (currentScenario (ctl w)) = 7 ->
  currentVariant (ctl w) = 6 ->
  pending w = FAST_FORWARD ->
  exists w',
    readReceiverAndProcess w = Done true w' /\ currentVariant (ctl w') = 0.
Proof.
  intros Hon Hsc H7 H6 Hp. rewrite readReceiverAndProcess_pending, Hp.
  rewrite (variant_step (polled w) FAST_FORWARD Hon Hsc)
    by (unfold validVariant, isVariantButton; cbn; auto; lia).
  eexists. split; [reflexivity |]. cbn. rewrite H7, H6. reflexivity.
Qed.

Lemma runCommands_S (n : nat) (w : World) :
  runCommands (S n) w
  = match processButton (pending w) (polled w) with
    | Done cancel w1 =>
        match runCommands n w1 with
        | Done cancels w2 => Done (cancel :: cancels) w2
        | OutOfFuel => OutOfFuel
        | Undefined => Undefined
        end
    | OutOfFuel => OutOfFuel
    | Undefined => Undefined
    end.
Proof. reflexivity. Qed.

Lemma runCommands_variants (n : nat) :
  forall w,
    isSwitchedOn (ctl w) = true ->
    validScenario (ctl w) ->
    validVariant (ctl w) ->
    Forall isVariantButton (upcoming w n) ->
    1 < numVariantsOf (currentScenario (ctl w)) ->
    exists w',
      runCommands n w = Done (repeat true n) w'
      /\ ctl w'
         = set_currentVariant
             ((currentVariant (ctl w) + netShift (upcoming w n))
              mod numVariantsOf (currentScenario (ctl w)))
             (ctl w)
      /\ leds w' = (if (0 <? n)%nat then blankStrip else leds w)
      /\ driver w' = repeat (PushFrame blankStrip) n ++ driver w.
Proof.
  induction n as [| n IH]; intros w Hon Hsc Hv Hall Hc.
  - exists w. cbn. repeat split.
    unfold validVariant in Hv. rewrite Z.add_0_r, Z.mod_small by lia.
    destruct w as [c ? ? ? ? ? ? ? ?]; destruct c; reflexivity.
  - set (count := numVariantsOf (currentScenario (ctl w))) in *.
    set (w1 := blanked
                 (with_ctl
                    (set_currentVariant
                       ((currentVariant (ctl w) + variantShift (pending w))
                        mod count) (ctl w)) (polled w))).
    rewrite (upcoming_S w w1 n eq_refl eq_refl) in Hall |- *.
    inversion Hall as [| ? ? Hb Hrest]; subst.
    rewrite runCommands_S.
    rewrite (variant_step (polled w) (pending w) Hon Hsc Hv Hb Hc).
    fold count. fold w1.
    assert (Hrange : 0 <= (currentVariant (ctl w) + variantShift (pending w))
                          mod count < count)
      by (apply Z.mod_pos_bound; lia).
    destruct (IH w1) as (w' & Hrun & Hctl & Hleds & Hdrv);
      [exact Hon | exact Hsc | exact Hrange | exact Hrest | exact Hc |].
    match goal with
    | |- context [runCommands n ?x] => change x with w1
    end.
    exists w'. rewrite Hrun. split; [reflexivity |].
    split; [| split].
    + rewrite Hctl. unfold set_currentVariant. cbn. fold count. f_equal.
      rewrite Zplus_mod_idemp_l. f_equal. unfold netShift. cbn [fold_right].
      lia.
    + rewrite Hleds. destruct n; reflexivity.
    + rewrite Hdrv.
      change (repeat (PushFrame blankStrip) (S n))
        with (PushFrame blankStrip :: repeat (PushFrame blankStrip) n).
      rewrite repeat_cons, <- app_assoc. reflexivity.
Qed.

Lemma runCommands_single_variant (n : nat) :
  forall w,
    isSwitchedOn (ctl w) = true ->
    validScenario (ctl w) ->
    Forall isVariantButton (upcoming w n) ->
    numVariantsOf (currentScenario (ctl w)) = 1 ->
    exists w',
      runCommands n w = Done (repeat false n) w'
      /\ ctl w' = ctl w /\ leds w' = leds w /\ driver w' = driver w.
Proof.
  induction n as [| n IH]; intros w Hon Hsc Hall H1.
  - exists w. repeat split.
  - rewrite (upcoming_S w (polled w) n eq_refl eq_refl) in Hall.
    inversion Hall as [| ? ? Hb Hrest]; subst.
    rewrite runCommands_S.
    rewrite (processButton_variant_single (polled w) Hon Hsc (pending w) Hb H1).
    destruct (IH (polled w)) as (w' & Hrun & Hctl & Hleds & Hdrv);
      [exact Hon | exact Hsc | exact Hrest | exact H1 |].
    exists w'. rewrite Hrun. repeat split; assumption.
Qed.

(** C5. In a powered-on state, [n] presses of [FAST_FORWARD]/[FAST_BACK] in
    a row: if the current scenario has more than one variant every call
    returns [true], the variant index ends at the start index plus the
    forward presses minus the backward presses, modulo the variant count
    (hence inside [0, count-1], wrapping both ways), the scenario is the
    same, the buffer is blank and one blank frame was pushed per press; if
    the scenario has exactly one variant every call returns [false] and
    nothing changes. *)
Theorem variant_commands (w : World) (n : nat) :
  isSwitchedOn (ctl w) = true ->
  validScenario (ctl w) ->
  validVariant (ctl w) ->
  Forall isVariantButton (upcoming w n) ->
  (1 < numVariantsOf (currentScenario (ctl w)) ->
   exists w',
     runCommands n w = Done (repeat true n) w'
     /\ currentScenario (ctl w') = currentScenario (ctl w)
     /\ currentVariant (ctl w')
        = (currentVariant (ctl w) + netShift (upcoming w n))
          mod numVariantsOf (currentScenario (ctl w))
     /\ 0 <= currentVariant (ctl w') < numVariantsOf (currentScenario (ctl w))
     /\ leds w' = (if (0 <? n)%nat then blankStrip else leds w)
     /\ driver w' = repeat (PushFrame blankStrip) n ++ driver w)
  /\ (numVariantsOf (currentScenario (ctl w)) = 1 ->
      exists w',
        runCommands n w = Done (repeat false n) w'
        /\ ctl w' = ctl w /\ leds w' = leds w /\ driver w' = driver w).
Proof.
  intros Hon Hsc Hv Hall. split.
  - intros Hc.
    destruct (runCommands_variants n w Hon Hsc Hv Hall Hc)
      as (w' & Hrun & Hctl & Hleds & Hdrv).
    exists w'. split; [exact Hrun |]. rewrite Hctl. cbn.
    repeat split; try assumption; apply Z.mod_pos_bound; lia.
  - intros H1. exact (runCommands_single_variant n w Hon Hsc Hall H1).
Qed.

Lemma variant_commands_witness :
  (exists w',
     runCommands 1 (benchAt 0 0 [0xBB44FF00]) = Done [true] w'
     /\ currentVariant (ctl w') = 6)
  /\ (exists w',
        runCommands 1 (benchAt 0 6 [0xBC43FF00]) = Done [true] w'
        /\ currentVariant (ctl w') = 0)
  /\ (exists w',
        runCommands 2 (benchAt 2 0 [0xBC43FF00; 0xBB44FF00])
        = Done [false; false] w'
        /\ ctl w' = ctl (benchAt 2 0 [0xBC43FF00; 0xBB44FF00])).
Proof.
  split; [| split].
  - destruct (variant_commands (benchAt 0 0 [0xBB44FF00]) 1) as [Hmany _];
      [ reflexivity
      | unfold validScenario, NUM_SCENARIOS; simpl; lia
      | split; [discriminate | reflexivity]
      | apply Forall_cons; [right; reflexivity | apply Forall_nil] | ].
    destruct (Hmany eq_refl) as (w' & Hrun & _ & Hv & _).
    exists w'. split; [exact Hrun | exact Hv].
  - destruct (variant_commands (benchAt 0 6 [0xBC43FF00]) 1) as [Hmany _];
      [ reflexivity
      | unfold validScenario, NUM_SCENARIOS; simpl; lia
      | split; [discriminate | reflexivity]
      | apply Forall_cons; [left; reflexivity | apply Forall_nil] | ].
    destruct (Hmany eq_refl) as (w' & Hrun & _ & Hv & _).
    exists w'. split; [exact Hrun | exact Hv].
  - destruct (variant_commands (benchAt 2 0 [0xBC43FF00; 0xBB44FF00]) 2)
      as [_ Hone];
      [ reflexivity
      | unfold validScenario, NUM_SCENARIOS; simpl; lia
      | split; [discriminate | reflexivity]
      | apply Forall_cons;
        [ left; reflexivity
        | apply Forall_cons; [right; reflexivity | apply Forall_nil] ] | ].
    destruct (Hone eq_refl) as (w' & Hrun & Hctl & _).
    exists w'. split; [exact Hrun | exact Hctl].
Defined.

(** ** Random scenario selection *)

Lemma selectRandomScenario_S (fuel : nat) (w : World) :
  selectRandomScenario (S fuel) w
  = if draw w 0 =? currentScenario (ctl w) then
      selectRandomScenario fuel (with_rndPos (S (rndPos w)) w)
    else Done tt (selected w 0).
Proof.
  change (selectRandomScenario (S fuel) w)
    with ((if draw w 0 =? currentScenario (ctl w)
           then selectRandomScenario fuel
           else modify (set_currentScenario (draw w 0)))
            (with_rndPos (S (rndPos w)) w)).
  destruct (draw w 0 =? currentScenario (ctl w)); reflexivity.
Qed.

Lemma draw_shift (w : World) (i : nat) :
  draw (with_rndPos (S (rndPos w)) w) i = draw w (S i).
Proof. unfold draw. cbn. rewrite Nat.add_succ_r. reflexivity. Qed.

Lemma selected_shift (w : World) (n : nat) :
  selected (with_rndPos (S (rndPos w)) w) n = selected w (S n).
Proof.
  unfold selected. rewrite draw_shift. cbn.
  unfold with_ctl, with_rndPos. cbn. rewrite Nat.add_succ_r. reflexivity.
Qed.

Lemma draw_range (w : World) (i : nat) : 0 <= draw w i < NUM_SCENARIOS.
Proof.
  unfold draw, NUM_SCENARIOS, u8.
  pose proof (Z.mod_pos_bound (rnd w (i + rndPos w)%nat) 256 ltac:(lia)).
  rewrite Z.rem_mod_nonneg by lia. apply Z.mod_pos_bound. lia.
Qed.

(** The loop ends at the first draw that is not the current scenario. *)
Lemma selectRandomScenario_first (n : nat) :
  forall (w : World) (fuel : nat),
    (forall i, (i < n)%nat -> draw w i = currentScenario (ctl w)) ->
    draw w n <> currentScenario (ctl w) ->
    (n < fuel)%nat ->
    selectRandomScenario fuel w = Done tt (selected w n).
Proof.
  induction n as [| n IH]; intros w fuel Hrej Hacc Hfuel.
  - destruct fuel as [| fuel]; [lia |].
    rewrite selectRandomScenario_S.
    destruct (Z.eqb_spec (draw w 0) (currentScenario (ctl w))); [contradiction |].
    reflexivity.
  - destruct fuel as [| fuel]; [lia |].
    rewrite selectRandomScenario_S.
    rewrite (Hrej O) by lia. rewrite Z.eqb_refl.
    rewrite <- selected_shift. apply IH.
    + intros i Hi. rewrite draw_shift. apply Hrej. lia.
    + rewrite draw_shift. exact Hacc.
    + lia.
Qed.

(** Whatever the fuel, a run that returns has taken the first draw that is
    not the current scenario. *)
Lemma selectRandomScenario_returns (fuel : nat) :
  forall (w w' : World),
    selectRandomScenario fuel w = Done tt w' ->
    exists n,
      w' = selected w n
      /\ (forall i, (i < n)%nat -> draw w i = currentScenario (ctl w))
      /\ draw w n <> currentScenario (ctl w).
Proof.
  induction fuel as [| fuel IH]; intros w w' Hrun; [discriminate Hrun |].
  rewrite selectRandomScenario_S in Hrun.
  destruct (Z.eqb_spec (draw w 0) (currentScenario (ctl w))) as [He | Hne].
  - destruct (IH _ _ Hrun) as (n & Hw' & Hrej & Hacc).
    exists (S n). rewrite <- selected_shift. split; [exact Hw' |]. split.
    + intros [| i] Hi; [exact He |].
      rewrite <- draw_shift. apply Hrej. lia.
    + rewrite <- draw_shift. exact Hacc.
  - inversion Hrun; subst. exists O. split; [reflexivity |]. split.
    + intros i Hi. lia.
    + exact Hne.
Qed.


(** A generator that only ever gives the current scenario keeps the loop
    turning: no amount of fuel makes it return. *)
Lemma selectRandomScenario_starves (fuel : nat) :
  forall w,
    (forall i, draw w i = currentScenario (ctl w)) ->
    selectRandomScenario fuel w = OutOfFuel.
Proof.
  induction fuel as [| fuel IH]; intros w Hsame; [reflexivity |].
  rewrite selectRandomScenario_S, Hsame, Z.eqb_refl. apply IH.
  intros i. rewrite draw_shift. apply Hsame.
Qed.








(** ** Switch mode and [sleep] *)

Lemma shouldSwitchScenario_inactive (w : World) :
  isSwitchModeActive (ctl w) = false ->
  shouldSwitchScenario w = Done false w.
Proof.
  intros Hoff. unfold shouldSwitchScenario. run. rewrite Hoff. reflexivity.
Qed.

Lemma shouldSwitchScenario_waiting (w : World) :
  isSwitchModeActive (ctl w) = true ->
  sinceLastSwitch w <= SCENARIO_SWITCH_TIMEOUT ->
  shouldSwitchScenario w = Done false (with_clockPos (S (clockPos w)) w).
Proof.
  intros Hact Hwait. unfold shouldSwitchScenario. run. rewrite Hact. cbn.
  fold (sinceLastSwitch w).
  destruct (Z.ltb_spec SCENARIO_SWITCH_TIMEOUT (sinceLastSwitch w)); [lia |].
  reflexivity.
Qed.

Lemma shouldSwitchScenario_due (w : World) :
  isSwitchModeActive (ctl w) = true ->
  SCENARIO_SWITCH_TIMEOUT < sinceLastSwitch w ->
  shouldSwitchScenario w = Done true (restamped w).
Proof.
  intros Hact Hdue. unfold shouldSwitchScenario. run. rewrite Hact. cbn.
  fold (sinceLastSwitch w).
  destruct (Z.ltb_spec SCENARIO_SWITCH_TIMEOUT (sinceLastSwitch w)); [| lia].
  reflexivity.
Qed.

Lemma byte_remainder (x count : Z) :
  count = 1 \/ count = 7 ->
  wrap16 (Z.rem (u8 x) count) = u8 x mod count
  /\ 0 <= u8 x mod count < count.
Proof.
  intros Hc. unfold u8.
  pose proof (Z.mod_pos_bound x 256 ltac:(lia)).
  rewrite Z.rem_mod_nonneg by lia.
  pose proof (Z.mod_pos_bound (x mod 256) count ltac:(lia)).
  unfold wrap16. rewrite Z.mod_small by lia. lia.
Qed.

(** The switch branch of [sleep], once the timer has answered [true] and the
    rejection loop has returned. *)
Lemma sleep_selected (w : World) (n fuel : nat) (milliseconds : Z) :
  shouldSwitchScenario w = Done true (restamped w) ->
  selectRandomScenario fuel (blanked (restamped w))
  = Done tt (selected (blanked (restamped w)) n) ->
  sleep fuel milliseconds w = Done true (rotated w n).
Proof.
  intros Hdue Hsel.
  destruct (arrayAt_scenarios (draw w n) (draw_range w n)) as (sc & Hsc & Hnv).
  pose proof (numVariantsOf_cases _ (draw_range w n)) as Hcases.
  unfold sleep, bind. rewrite Hdue. cbn.
  match goal with
  | |- context [selectRandomScenario fuel ?x] =>
      change x with (blanked (restamped w))
  end.
  rewrite Hsel.
  run. change (draw (blanked (restamped w)) n) with (draw w n).
  rewrite Hsc, Hnv.
  destruct (Z.eqb_spec (numVariantsOf (draw w n)) 0) as [H0 | _]; [lia |].
  reflexivity.
Qed.

Lemma sleep_switches (w : World) (n fuel : nat) (milliseconds : Z) :
  shouldSwitchScenario w = Done true (restamped w) ->
  (forall i, (i < n)%nat -> draw w i = currentScenario (ctl w)) ->
  draw w n <> currentScenario (ctl w) ->
  (n < fuel)%nat ->
  sleep fuel milliseconds w = Done true (rotated w n).
Proof.
  intros Hdue Hrej Hacc Hfuel. apply sleep_selected; [exact Hdue |].
  exact (selectRandomScenario_first n (blanked (restamped w)) fuel Hrej Hacc Hfuel).
Qed.

Lemma rotated_ctl (w : World) (n : nat) :
  ctl (rotated w n)
  = mkGlobals (draw w n) (currentBrightness (ctl w)) (isSwitchedOn (ctl w))
      (wrap16 (Z.rem (u8 (rnd w (S n + rndPos w)%nat))
                 (numVariantsOf (draw w n))))
      (currentSpeed (ctl w)) (isSwitchModeActive (ctl w))
      (u32 (clock w (S (clockPos w)))).
Proof. reflexivity. Qed.

Lemma rotated_leds (w : World) (n : nat) : leds (rotated w n) = blankStrip.
Proof. reflexivity. Qed.

Lemma rotated_driver (w : World) (n : nat) :
  driver (rotated w n) = PushFrame blankStrip :: driver w.
Proof. reflexivity. Qed.


(** *** What polling leaves alone

    The delay loop of [sleep] is built from [readReceiverAndProcess],
    [millis] and reads of the settings.  A relation between the machine
    before and after that is reflexive, transitive, blind to the display and
    to the cursors of receiver and clock, and respected by
    [readReceiverAndProcess], is respected by the whole loop. *)

Section Respects.

Variable R : World -> World -> Prop.
Hypothesis R_refl : forall w, R w w.
Hypothesis R_trans : forall w1 w2 w3, R w1 w2 -> R w2 w3 -> R w1 w3.
Hypothesis R_env :
  forall w w', ctl w' = ctl w -> rndPos w' = rndPos w -> R w w'.

Lemma respects_ret {A : Type} (a : A) : respects R (ret a).
Proof. intros w x w' H. inversion H. apply R_refl. Qed.

Lemma respects_bind {A B : Type} (m : M A) (k : A -> M B) :
  respects R m -> (forall a, respects R (k a)) -> respects R (bind m k).
Proof.
  intros Hm Hk w y w' H. unfold bind in H.
  destruct (m w) as [a w1 | |] eqn:Hmw; try discriminate H.
  exact (R_trans _ _ _ (Hm w a w1 Hmw) (Hk a w1 y w' H)).
Qed.

Lemma respects_gets {A : Type} (f : Globals -> A) : respects R (gets f).
Proof. intros w x w' H. inversion H. apply R_refl. Qed.

Lemma respects_millis : respects R millis.
Proof. intros w x w' H. inversion H. apply R_env; reflexivity. Qed.





Lemma respects_arrayAt {A : Type} (table : list A) (index : Z) :
  respects R (arrayAt table index).
Proof.
  intros w x w' H. unfold arrayAt in H.
  destruct (index <? 0); [discriminate H |].
  destruct (nth_error table (Z.to_nat index)); inversion H. apply R_refl.
Qed.



Hypothesis R_poll : respects R readReceiverAndProcess.

Lemma respects_sleepLoop (fuel : nat) (startTime adjustedTime : Z) :
  respects R (sleepLoop fuel startTime adjustedTime).
Proof.
  induction fuel as [| fuel IH].
  - intros w x w' H. discriminate H.
  - cbn [sleepLoop]. apply respects_bind; [exact R_poll |].
    intros [|]; [apply respects_ret |].
    apply respects_bind; [apply respects_millis |]. intros now.
    destruct (u32 (now - startTime) <=? adjustedTime);
      [exact IH | apply respects_ret].
Qed.

Lemma respects_sleepDelay (fuel : nat) (milliseconds : Z) :
  respects R (sleepDelay fuel milliseconds).
Proof.
  unfold sleepDelay. apply respects_bind; [apply respects_gets |].
  intros speed. apply respects_bind; [apply respects_millis |].
  intros startTime. apply respects_sleepLoop.
Qed.

End Respects.

(** *** Polling draws no random number *)









(** [sleep] when the timer answers [false]. *)
Lemma sleep_delays (w w1 : World) (fuel : nat) (milliseconds : Z) :
  shouldSwitchScenario w = Done false w1 ->
  sleep fuel milliseconds w = sleepDelay fuel milliseconds w1.
Proof. intros Hno. unfold sleep, bind. rewrite Hno. reflexivity. Qed.








(** ** The settings stay in range *)

Lemma stillValid_refl (w : World) : stillValid w w.
Proof. intros H. exact H. Qed.

Lemma stillValid_trans (w1 w2 w3 : World) :
  stillValid w1 w2 -> stillValid w2 w3 -> stillValid w1 w3.
Proof. unfold stillValid. auto. Qed.

Lemma stillValid_env (w w' : World) :
  ctl w' = ctl w -> rndPos w' = rndPos w -> stillValid w w'.
Proof. intros Hctl _ Hv. rewrite Hctl. exact Hv. Qed.

Ltac settle Hrun :=
  inversion Hrun; subst; clear Hrun;
  unfold validSettings, validScenario, validVariant in *;
  cbn [ctl with_ctl with_leds with_driver with_irPos with_clockPos with_rndPos
       blanked polled
       set_currentScenario set_currentBrightness set_isSwitchedOn
       set_currentVariant set_currentSpeed set_isSwitchModeActive
       set_lastScenarioSwitchTimestamp
       currentScenario currentBrightness isSwitchedOn currentVariant
       currentSpeed isSwitchModeActive lastScenarioSwitchTimestamp] in *;
  unfold NUM_BRIGHTNESS_STEPS, NUM_SPEED_STEPS in *.

(** One button on settings in range: they stay in range, and the only
    press that changes the scenario is a digit, which resets the variant. *)
Lemma processButton_settles (button : Button) (w w' : World) (cancel : bool) :
  processButton button w = Done cancel w' ->
  validSettings (ctl w) ->
  validSettings (ctl w')
  /\ (currentScenario (ctl w') <> currentScenario (ctl w) ->
      isDigit button = true
      /\ currentScenario (ctl w') = digitOf button
      /\ currentVariant (ctl w') = 0
      /\ cancel = true).
Proof.
  intros Hrun Hv.
  pose proof Hv as (Hsc & Hvar & Hbr & Hsp).
  destruct (isSwitchedOn (ctl w)) eqn:Hon.
  - destruct (isDigit button) eqn:Hd.
    { destruct (Z.eq_dec (currentScenario (ctl w)) (digitOf button)) as [He | Hne].
      - rewrite (processButton_digit_same w Hon Hsc button Hd He) in Hrun.
        settle Hrun. intuition (lia || congruence).
      - rewrite (processButton_digit_other w Hon button Hd Hne) in Hrun.
        pose proof (digitOf_range button Hd) as Hrange.
        pose proof (numVariantsOf_cases _ Hrange).
        settle Hrun. intuition (lia || congruence). }
    destruct button; try discriminate Hd.
    + rewrite (processButton_POWER_on w Hon) in Hrun. settle Hrun. intuition (lia || congruence).
    + rewrite (processButton_idle w Hon Hsc FUNC_STOP) in Hrun by auto.
      settle Hrun. intuition (lia || congruence).
    + rewrite (processButton_VOL_PLUS w Hon Hsc Hbr) in Hrun.
      settle Hrun. intuition (lia || congruence).
    + pose proof Hvar as Hvar'. unfold validVariant in Hvar'.
      destruct (numVariantsOf_cases _ Hsc) as [H1 | H7].
      * rewrite (processButton_variant_single w Hon Hsc FAST_BACK) in Hrun
          by auto.
        settle Hrun. intuition (lia || congruence).
      * rewrite (variant_step w FAST_BACK Hon Hsc Hvar) in Hrun
          by (unfold isVariantButton; auto || lia).
        pose proof (Z.mod_pos_bound
                      (currentVariant (ctl w) + variantShift FAST_BACK)
                      (numVariantsOf (currentScenario (ctl w))) ltac:(lia)).
        settle Hrun. intuition (lia || congruence).
    + rewrite (processButton_idle w Hon Hsc PAUSE) in Hrun by auto.
      settle Hrun. intuition (lia || congruence).
    + pose proof Hvar as Hvar'. unfold validVariant in Hvar'.
      destruct (numVariantsOf_cases _ Hsc) as [H1 | H7].
      * rewrite (processButton_variant_single w Hon Hsc FAST_FORWARD) in Hrun
          by auto.
        settle Hrun. intuition (lia || congruence).
      * rewrite (variant_step w FAST_FORWARD Hon Hsc Hvar) in Hrun
          by (unfold isVariantButton; auto || lia).
        pose proof (Z.mod_pos_bound
                      (currentVariant (ctl w) + variantShift FAST_FORWARD)
                      (numVariantsOf (currentScenario (ctl w))) ltac:(lia)).
        settle Hrun. intuition (lia || congruence).
    + rewrite (processButton_DOWN w Hon Hsc Hsp) in Hrun.
      settle Hrun. intuition (lia || congruence).
    + rewrite (processButton_VOL_MINUS w Hon Hsc Hbr) in Hrun.
      settle Hrun. intuition (lia || congruence).
    + rewrite (processButton_UP w Hon Hsc Hsp) in Hrun.
      settle Hrun. intuition (lia || congruence).
    + rewrite (processButton_idle w Hon Hsc EQ) in Hrun by auto.
      settle Hrun. intuition (lia || congruence).
    + rewrite (processButton_ST_REPT w Hon Hsc) in Hrun.
      settle Hrun. intuition (lia || congruence).
    + rewrite (processButton_idle w Hon Hsc NONE) in Hrun by auto.
      settle Hrun. intuition (lia || congruence).
  - assert (Hb : button = POWER \/ button <> POWER)
      by (destruct button; auto; right; discriminate).
    destruct Hb as [-> | Hb].
    + rewrite (processButton_POWER_off w Hon Hsc) in Hrun.
      settle Hrun. intuition (lia || congruence).
    + rewrite (processButton_off w button Hon Hb) in Hrun.
      settle Hrun. intuition (lia || congruence).
Qed.

Lemma valid_processButton (button : Button) :
  respects stillValid (processButton button).
Proof.
  intros w cancel w' Hrun Hv.
  exact (proj1 (processButton_settles button w w' cancel Hrun Hv)).
Qed.

Lemma valid_readReceiverAndProcess : respects stillValid readReceiverAndProcess.
Proof.
  intros w cancel w' Hrun Hv. rewrite readReceiverAndProcess_pending in Hrun.
  exact (valid_processButton (pending w) (polled w) cancel w' Hrun Hv).
Qed.

Lemma valid_sleepDelay (fuel : nat) (milliseconds : Z) :
  respects stillValid (sleepDelay fuel milliseconds).
Proof.
  apply (respects_sleepDelay stillValid stillValid_refl stillValid_trans
           stillValid_env valid_readReceiverAndProcess).
Qed.

(** What [shouldSwitchScenario] can answer. *)
Lemma shouldSwitchScenario_cases (w : World) :
  (exists w1, shouldSwitchScenario w = Done false w1
              /\ ctl w1 = ctl w /\ leds w1 = leds w /\ driver w1 = driver w
              /\ rndPos w1 = rndPos w)
  \/ (shouldSwitchScenario w = Done true (restamped w)
      /\ isSwitchModeActive (ctl w) = true
      /\ SCENARIO_SWITCH_TIMEOUT < sinceLastSwitch w).
Proof.
  destruct (isSwitchModeActive (ctl w)) eqn:Hact.
  - destruct (Z.lt_ge_cases SCENARIO_SWITCH_TIMEOUT (sinceLastSwitch w)) as [Hdue | Hwait].
    + right. split; [apply shouldSwitchScenario_due; assumption | auto].
    + left. exists (with_clockPos (S (clockPos w)) w).
      split; [apply shouldSwitchScenario_waiting; assumption |].
      repeat split.
  - left. exists w. split; [apply shouldSwitchScenario_inactive; assumption |].
    repeat split.
Qed.

(** A call of [sleep] that returns either took the delay loop, or switched
    to [rotated w n] for the first draw [n] that is not the current
    scenario. *)
Lemma sleep_cases (w w' : World) (fuel : nat) (milliseconds : Z) (cancel : bool) :
  sleep fuel milliseconds w = Done cancel w' ->
  (exists w1, shouldSwitchScenario w = Done false w1
              /\ ctl w1 = ctl w
              /\ sleepDelay fuel milliseconds w1 = Done cancel w')
  \/ (exists n, cancel = true /\ w' = rotated w n
                /\ shouldSwitchScenario w = Done true (restamped w)
                /\ (forall i, (i < n)%nat -> draw w i = currentScenario (ctl w))
                /\ draw w n <> currentScenario (ctl w)).
Proof.
  intros Hrun.
  destruct (shouldSwitchScenario_cases w)
    as [(w1 & Hsw & Hctl & _) | (Hsw & _ & _)].
  - left. exists w1. rewrite (sleep_delays w w1 fuel milliseconds Hsw) in Hrun.
    auto.
  - right.
    destruct (selectRandomScenario fuel (blanked (restamped w)))
      as [[] w3 | |] eqn:Hsel.
    + destruct (selectRandomScenario_returns _ _ _ Hsel) as (n & -> & Hrej & Hacc).
      rewrite (sleep_selected w n fuel milliseconds Hsw Hsel) in Hrun.
      inversion Hrun; subst. exists n. auto.
    + exfalso. unfold sleep, bind in Hrun. rewrite Hsw in Hrun. cbn in Hrun.
      match type of Hrun with
      | context [selectRandomScenario fuel ?x] =>
          change x with (blanked (restamped w)) in Hrun
      end.
      rewrite Hsel in Hrun. discriminate Hrun.
    + exfalso. unfold sleep, bind in Hrun. rewrite Hsw in Hrun. cbn in Hrun.
      match type of Hrun with
      | context [selectRandomScenario fuel ?x] =>
          change x with (blanked (restamped w)) in Hrun
      end.
      rewrite Hsel in Hrun. discriminate Hrun.
Qed.

Lemma valid_rotated (w : World) (n : nat) :
  validSettings (ctl w) -> validSettings (ctl (rotated w n)).
Proof.
  intros (Hsc & Hvar & Hbr & Hsp).
  pose proof (draw_range w n) as Hrange.
  destruct (byte_remainder (rnd w (S n + rndPos w)%nat) _
              (numVariantsOf_cases _ Hrange)) as [Hrem Hmod].
  rewrite rotated_ctl. unfold validSettings, validScenario, validVariant.
  cbn [currentScenario currentBrightness currentVariant currentSpeed].
  rewrite Hrem. auto.
Qed.

Lemma valid_sleep (fuel : nat) (milliseconds : Z) :
  respects stillValid (sleep fuel milliseconds).
Proof.
  intros w cancel w' Hrun Hv.
  destruct (sleep_cases w w' fuel milliseconds cancel Hrun)
    as [(w1 & _ & Hctl & Hdelay) | (n & _ & -> & _)].
  - apply (valid_sleepDelay fuel milliseconds w1 cancel w' Hdelay).
    rewrite Hctl. exact Hv.
  - apply valid_rotated. exact Hv.
Qed.

Lemma startup_valid (irIn : nat -> option Z) (clockIn rndIn : nat -> Z) :
  validSettings (ctl (startup irIn clockIn rndIn)).
Proof.
  unfold validSettings, validScenario, validVariant, NUM_SCENARIOS,
    NUM_BRIGHTNESS_STEPS, NUM_SPEED_STEPS, DEFAULT_SPEED_STEP.
  cbn. change (numVariantsOf 0) with 7.
  unfold NUM_BRIGHTNESS_STEPS, DEFAULT_SPEED_STEP. lia.
Qed.

Lemma reachable_valid (w : World) : reachable w -> validSettings (ctl w).
Proof.
  induction 1 as [irIn clockIn rndIn w Hsetup
                 | w w' cancel _ IH Hrun
                 | w w' fuel ms cancel _ IH Hrun
                 | w w' time _ IH Hrun
                 | w w' byte _ IH Hrun
                 | w frame _ IH
                 | w w' _ IH Hrun].
  - inversion Hsetup; subst. apply startup_valid.
  - exact (valid_readReceiverAndProcess w cancel w' Hrun IH).
  - exact (valid_sleep fuel ms w cancel w' Hrun IH).
  - inversion Hrun; subst. exact IH.
  - inversion Hrun; subst. exact IH.
  - exact IH.
  - inversion Hrun; subst. exact IH.
Qed.

(** C4. In every machine the sketch can reach the variant index is a
    variant of the current scenario.  The operations keep it so: a call of
    [readReceiverAndProcess] that changes the scenario was a digit press and
    leaves the variant at 0; a call of [sleep] whose timer is due leaves
    another scenario and, as variant, a random byte reduced modulo the
    variant count of that scenario. *)
Theorem variant_always_valid (w : World) :
  reachable w ->
  validVariant (ctl w)
  /\ (forall cancel w',
        readReceiverAndProcess w = Done cancel w' ->
        validVariant (ctl w')
        /\ (currentScenario (ctl w') <> currentScenario (ctl w) ->
            isDigit (pending w) = true
            /\ currentScenario (ctl w') = digitOf (pending w)
            /\ currentVariant (ctl w') = 0))
  /\ (forall fuel milliseconds cancel w',
        sleep fuel milliseconds w = Done cancel w' ->
        validVariant (ctl w')
        /\ (isSwitchModeActive (ctl w) = true ->
            SCENARIO_SWITCH_TIMEOUT < sinceLastSwitch w ->
            exists n,
              currentScenario (ctl w') = draw w n
              /\ draw w n <> currentScenario (ctl w)
              /\ currentVariant (ctl w')
                 = u8 (rnd w (S n + rndPos w)%nat)
                   mod numVariantsOf (currentScenario (ctl w')))).
Proof.
  intros Hreach. pose proof (reachable_valid w Hreach) as Hv.
  split; [apply Hv |]. split.
  - intros cancel w' Hrun.
    rewrite readReceiverAndProcess_pending in Hrun.
    destruct (processButton_settles (pending w) (polled w) w' cancel Hrun Hv)
      as [Hv' Hchange].
    split; [apply Hv' |]. intros Hne.
    destruct (Hchange Hne) as (Hd & Hsc & Hvar & _). auto.
  - intros fuel milliseconds cancel w' Hrun.
    split; [apply (valid_sleep fuel milliseconds w cancel w' Hrun Hv) |].
    intros Hact Hdue.
    destruct (sleep_cases w w' fuel milliseconds cancel Hrun)
      as [(w1 & Hsw & _) | (n & _ & -> & _ & _ & Hacc)].
    + rewrite (shouldSwitchScenario_due w Hact Hdue) in Hsw. discriminate Hsw.
    + exists n.
      destruct (byte_remainder (rnd w (S n + rndPos w)%nat) _
                  (numVariantsOf_cases _ (draw_range w n))) as [Hrem _].
      rewrite rotated_ctl.
      cbn [currentScenario currentVariant]. rewrite Hrem. auto.
Qed.

Lemma variant_always_valid_witness :
  validVariant (ctl (with_driver [SetBrightness 255] (bench [0xA15EFF00]))).
Proof.
  apply (variant_always_valid (with_driver [SetBrightness 255] (bench [0xA15EFF00]))).
  apply (reach_setup (remote [0xA15EFF00]) ticking counting). reflexivity.
Defined.

(** ** Scaled time *)

Lemma wrap16_small (z : Z) : -32768 <= z < 32768 -> wrap16 z = z.
Proof. intros H. unfold wrap16. rewrite Z.mod_small by lia. lia. Qed.

Lemma u32_small (z : Z) : 0 <= z < 4294967296 -> u32 z = z.
Proof. intros H. unfold u32. apply Z.mod_small. exact H. Qed.

(** Above the default step both functions use the factor [speed - 1]. *)
Lemma adjusted_fast (speed time : Z) :
  DEFAULT_SPEED_STEP < speed < NUM_SPEED_STEPS ->
  millisecondsAdjusted speed time = u32 (time * speedFactor speed)
  /\ sleepAdjusted speed time = time / speedFactor speed.
Proof.
  unfold DEFAULT_SPEED_STEP, NUM_SPEED_STEPS, speedFactor,
    millisecondsAdjusted, sleepAdjusted, DEFAULT_SPEED_STEP.
  intros H.
  destruct (Z.ltb_spec 2 speed); [| lia].
  destruct (Z.ltb_spec speed 2); [lia |].
  rewrite (wrap16_small (speed - 2)), (wrap16_small (speed - 2 + 1)),
    (u32_small (speed - 2 + 1)) by lia.
  replace (Z.abs (speed - 2) + 1) with (speed - 2 + 1) by lia.
  split; reflexivity.
Qed.

(** Below the default step both functions use the factor [3 - speed]. *)
Lemma adjusted_slow (speed time : Z) :
  0 <= speed < DEFAULT_SPEED_STEP ->
  millisecondsAdjusted speed time = time / speedFactor speed
  /\ sleepAdjusted speed time = u32 (time * speedFactor speed).
Proof.
  unfold DEFAULT_SPEED_STEP, speedFactor, millisecondsAdjusted, sleepAdjusted,
    DEFAULT_SPEED_STEP.
  intros H.
  destruct (Z.ltb_spec 2 speed); [lia |].
  destruct (Z.ltb_spec speed 2); [| lia].
  rewrite (wrap16_small (2 - speed)), (wrap16_small (2 - speed + 1)),
    (u32_small (2 - speed + 1)) by lia.
  replace (Z.abs (speed - 2) + 1) with (2 - speed + 1) by lia.
  split; reflexivity.
Qed.

Lemma adjusted_default (time : Z) :
  millisecondsAdjusted DEFAULT_SPEED_STEP time = time
  /\ sleepAdjusted DEFAULT_SPEED_STEP time = time.
Proof. split; reflexivity. Qed.

Lemma sleepLoop_S (fuel : nat) (startTime adjustedTime : Z) (w : World) :
  sleepLoop (S fuel) startTime adjustedTime w
  = match readReceiverAndProcess w with
    | Done true w1 => Done true w1
    | Done false w1 =>
        if u32 (u32 (clock w1 (clockPos w1)) - startTime) <=? adjustedTime
        then sleepLoop fuel startTime adjustedTime
               (with_clockPos (S (clockPos w1)) w1)
        else Done false (with_clockPos (S (clockPos w1)) w1)
    | OutOfFuel => OutOfFuel
    | Undefined => Undefined
    end.
Proof.
  cbn [sleepLoop]. unfold bind at 1.
  destruct (readReceiverAndProcess w) as [[|] w1 | |]; try reflexivity.
  unfold bind, millis.
  destruct (u32 (u32 (clock w1 (clockPos w1)) - startTime) <=? adjustedTime);
    reflexivity.
Qed.

Lemma pendingAt_polled (w w1 : World) (k : nat) :
  ir w1 = ir w -> irPos w1 = S (irPos w) ->
  pendingAt w1 k = pendingAt w (S k).
Proof.
  intros Hir Hpos. unfold pendingAt. rewrite Hir, Hpos, Nat.add_succ_r.
  reflexivity.
Qed.

Lemma idle_world_shift (w : World) (m : nat) :
  with_clockPos (S m + S (clockPos w))
    (with_irPos (S m + S (irPos w)) (with_clockPos (S (clockPos w)) (polled w)))
  = with_clockPos (S (S m) + clockPos w) (with_irPos (S (S m) + irPos w) w).
Proof.
  unfold with_clockPos, with_irPos, polled. cbn.
  rewrite !Nat.add_succ_r. reflexivity.
Qed.

(** The delay loop with nothing to poll: it turns until the clock has passed
    the delay. *)
Lemma sleepLoop_idle (startTime adjustedTime : Z) (m : nat) :
  forall (w : World) (fuel : nat),
    isSwitchedOn (ctl w) = true ->
    validScenario (ctl w) ->
    (forall k, (k <= m)%nat -> pendingAt w k = NONE) ->
    (forall k, (k < m)%nat ->
       u32 (u32 (clock w (k + clockPos w)%nat) - startTime) <= adjustedTime) ->
    adjustedTime < u32 (u32 (clock w (m + clockPos w)%nat) - startTime) ->
    (m < fuel)%nat ->
    sleepLoop fuel startTime adjustedTime w
    = Done false
        (with_clockPos (S m + clockPos w) (with_irPos (S m + irPos w) w)).
Proof.
  induction m as [| m IH]; intros w fuel Hon Hsc Hidle Hwait Hpast Hfuel;
    (destruct fuel as [| fuel]; [lia |]);
    rewrite sleepLoop_S, readReceiverAndProcess_pending;
    (assert (Hp : pending w = NONE)
       by (specialize (Hidle O ltac:(lia)); unfold pendingAt in Hidle;
           rewrite Nat.add_0_r in Hidle; exact Hidle));
    rewrite Hp, (processButton_idle (polled w) Hon Hsc NONE) by auto;
    change (clock (polled w) (clockPos (polled w))) with (clock w (clockPos w)).
  - cbn [Nat.add] in Hpast.
    destruct (Z.leb_spec (u32 (u32 (clock w (clockPos w)) - startTime))
                adjustedTime); [lia |].
    reflexivity.
  - specialize (Hwait O ltac:(lia)) as Hfirst. cbn [Nat.add] in Hfirst.
    destruct (Z.leb_spec (u32 (u32 (clock w (clockPos w)) - startTime))
                adjustedTime); [| lia].
    rewrite (IH (with_clockPos (S (clockPos (polled w))) (polled w)) fuel).
    + f_equal. rewrite <- (idle_world_shift w m). reflexivity.
    + exact Hon.
    + exact Hsc.
    + intros k Hk.
      rewrite (pendingAt_polled w
                 (with_clockPos (S (clockPos (polled w))) (polled w)) k
                 eq_refl eq_refl).
      apply Hidle. lia.
    + intros k Hk. cbn [clock clockPos with_clockPos polled with_irPos].
      rewrite Nat.add_succ_r. apply (Hwait (S k)). lia.
    + cbn [clock clockPos with_clockPos polled with_irPos].
      rewrite Nat.add_succ_r. exact Hpast.
    + lia.
Qed.

(** [sleep] outside switch mode, with a switched-on strip and nothing coming
    from the receiver, leaves its loop at the first reading of the clock
    for which the test of the loop fails. *)
Lemma sleep_idle_run (w : World) (m fuel : nat) (milliseconds : Z) :
  isSwitchedOn (ctl w) = true ->
  validScenario (ctl w) ->
  isSwitchModeActive (ctl w) = false ->
  (forall k, (k <= m)%nat -> pendingAt w k = NONE) ->
  (forall k, (k < m)%nat ->
     (u32 (u32 (clock w (S k + clockPos w)%nat) - u32 (clock w (clockPos w)))
      <=? sleepAdjusted (currentSpeed (ctl w)) milliseconds) = true) ->
  (u32 (u32 (clock w (S m + clockPos w)%nat) - u32 (clock w (clockPos w)))
   <=? sleepAdjusted (currentSpeed (ctl w)) milliseconds) = false ->
  (m < fuel)%nat ->
  sleep fuel milliseconds w
  = Done false
      (with_clockPos (S (S m) + clockPos w) (with_irPos (S m + irPos w) w)).
Proof.
  intros Hon Hsc Hmode Hidle Hwait Hpast Hfuel.
  rewrite (sleep_delays w w fuel milliseconds
             (shouldSwitchScenario_inactive w Hmode)).
  unfold sleepDelay, bind, gets, millis.
  rewrite (sleepLoop_idle _ _ m (with_clockPos (S (clockPos w)) w) fuel).
  - unfold with_clockPos, with_irPos. cbn. rewrite !Nat.add_succ_r.
    reflexivity.
  - exact Hon.
  - exact Hsc.
  - exact Hidle.
  - intros k Hk. cbn [clock clockPos with_clockPos].
    rewrite Nat.add_succ_r. apply Z.leb_le. apply Hwait. exact Hk.
  - cbn [clock clockPos with_clockPos]. rewrite Nat.add_succ_r.
    apply Z.leb_gt. exact Hpast.
  - exact Hfuel.
Qed.

(** From the default step upwards, a reading of the clock at which the test
    of the loop of [sleep] fails is more than the requested delay later on
    the clock of [milliseconds]. *)
Lemma wait_outlasts_fast (speed duration start stop : Z) :
  DEFAULT_SPEED_STEP <= speed < NUM_SPEED_STEPS ->
  0 <= duration ->
  0 <= start <= stop ->
  stop * speedFactor speed < 4294967296 ->
  (u32 (stop - start) <=? sleepAdjusted speed duration) = false ->
  duration < millisecondsAdjusted speed stop - millisecondsAdjusted speed start.
Proof.
  intros Hspeed Hd Hs Hfit Htest. apply Z.leb_gt in Htest.
  assert (Hk : 1 <= speedFactor speed <= 3)
    by (unfold speedFactor, DEFAULT_SPEED_STEP, NUM_SPEED_STEPS in *; lia).
  assert (Hscale : forall t,
            0 <= t < 4294967296 ->
            millisecondsAdjusted speed t = u32 (t * speedFactor speed)
            /\ sleepAdjusted speed t = t / speedFactor speed).
  { intros t Ht. unfold DEFAULT_SPEED_STEP in Hspeed.
    destruct (Z.eq_dec speed 2) as [-> | Hne].
    - change (speedFactor 2) with 1. rewrite Z.mul_1_r, Z.div_1_r.
      rewrite u32_small by lia. split; reflexivity.
    - apply adjusted_fast. unfold DEFAULT_SPEED_STEP. lia. }
  assert (Hdelay : sleepAdjusted speed duration = duration / speedFactor speed).
  { unfold DEFAULT_SPEED_STEP in Hspeed.
    destruct (Z.eq_dec speed 2) as [-> | Hne].
    - change (speedFactor 2) with 1. rewrite Z.div_1_r. reflexivity.
    - apply adjusted_fast. unfold DEFAULT_SPEED_STEP. lia. }
  revert Htest.
  destruct (Hscale stop ltac:(nia)) as [-> _].
  destruct (Hscale start ltac:(nia)) as [-> _].
  rewrite Hdelay.
  rewrite (u32_small (stop - start)) by nia.
  rewrite (u32_small (stop * speedFactor speed)) by nia.
  rewrite (u32_small (start * speedFactor speed)) by nia.
  intros Htest.
  pose proof (Z.div_mod duration (speedFactor speed) ltac:(lia)) as Hdm.
  pose proof (Z.mod_pos_bound duration (speedFactor speed) ltac:(lia)) as Hb.
  nia.
Qed.

(** From the default step downwards it is at least the requested delay
    later. *)
Lemma wait_outlasts_slow (speed duration start stop : Z) :
  0 <= speed <= DEFAULT_SPEED_STEP ->
  0 <= duration ->
  0 <= start <= stop ->
  stop < 4294967296 ->
  duration * speedFactor speed < 4294967296 ->
  (u32 (stop - start) <=? sleepAdjusted speed duration) = false ->
  duration <= millisecondsAdjusted speed stop - millisecondsAdjusted speed start.
Proof.
  intros Hspeed Hd Hs Hstop Hfit Htest. apply Z.leb_gt in Htest.
  assert (Hk : 1 <= speedFactor speed <= 3)
    by (unfold speedFactor, DEFAULT_SPEED_STEP in *; lia).
  assert (Hscale : forall t,
            millisecondsAdjusted speed t = t / speedFactor speed).
  { intros t. unfold DEFAULT_SPEED_STEP in Hspeed.
    destruct (Z.eq_dec speed 2) as [-> | Hne].
    - change (speedFactor 2) with 1. rewrite Z.div_1_r. reflexivity.
    - apply adjusted_slow. unfold DEFAULT_SPEED_STEP. lia. }
  assert (Hdelay : sleepAdjusted speed duration = duration * speedFactor speed).
  { unfold DEFAULT_SPEED_STEP in Hspeed.
    destruct (Z.eq_dec speed 2) as [-> | Hne].
    - change (speedFactor 2) with 1. rewrite Z.mul_1_r. reflexivity.
    - destruct (adjusted_slow speed duration) as [_ ->];
        [unfold DEFAULT_SPEED_STEP; lia |].
      apply u32_small. nia. }
  revert Htest.
  rewrite (Hscale stop), (Hscale start), Hdelay.
  rewrite (u32_small (stop - start)) by lia.
  intros Htest.
  assert (Hle : (start + duration * speedFactor speed) / speedFactor speed
                <= stop / speedFactor speed)
    by (apply Z.div_le_mono; lia).
  rewrite Z.div_add in Hle by lia. lia.
Qed.

(** C2 (as amended). At every speed step 0..4 [milliseconds] and [sleep]
    scale by the same integer factor [k] (1 at the default step, one more
    per step away from it), in opposite directions: from the default step
    upwards the clock is multiplied by [k] (modulo 2^32) and the delay is
    divided by [k] (integer division); from the default step downwards the
    clock is divided by [k] and the delay multiplied by [k] (modulo 2^32).
    The scaled delay, scaled back as [milliseconds] scales the clock, is the
    requested delay rounded down to a multiple of [k] in the first case, and
    the requested delay itself in the second case as long as
    [duration * k] fits in 32 bits.  [milliseconds] returns the next reading
    of the clock scaled in this way.  [sleep], outside switch mode with the
    strip on and nothing received, compares the 32-bit distance of each
    reading of the clock from its start reading with the scaled delay and
    returns [false] at the first reading for which the distance is more.
    At such a reading, without wrap-around, the clock of [milliseconds] has
    advanced by more than the requested delay from the default step
    upwards, and by at least the requested delay from the default step
    downwards. *)
Theorem scaling_shares_factor (speed time duration : Z) :
  0 <= speed < NUM_SPEED_STEPS ->
  0 <= time < 4294967296 ->
  0 <= duration < 4294967296 ->
  1 <= speedFactor speed <= 3
  /\ (DEFAULT_SPEED_STEP <= speed ->
      millisecondsAdjusted speed time = u32 (time * speedFactor speed)
      /\ sleepAdjusted speed duration = duration / speedFactor speed
      /\ millisecondsAdjusted speed (sleepAdjusted speed duration)
         = duration - duration mod speedFactor speed)
  /\ (speed <= DEFAULT_SPEED_STEP ->
      millisecondsAdjusted speed time = time / speedFactor speed
      /\ sleepAdjusted speed duration = u32 (duration * speedFactor speed)
      /\ (duration * speedFactor speed < 4294967296 ->
          millisecondsAdjusted speed (sleepAdjusted speed duration) = duration))
  /\ (forall w : World,
        currentSpeed (ctl w) = speed ->
        milliseconds w
        = Done (millisecondsAdjusted speed (u32 (clock w (clockPos w))))
            (with_clockPos (S (clockPos w)) w))
  /\ (forall (w : World) (m fuel : nat),
        currentSpeed (ctl w) = speed ->
        isSwitchedOn (ctl w) = true ->
        validScenario (ctl w) ->
        isSwitchModeActive (ctl w) = false ->
        (forall k, (k <= m)%nat -> pendingAt w k = NONE) ->
        (forall k, (k < m)%nat ->
           (u32 (u32 (clock w (S k + clockPos w)%nat)
                 - u32 (clock w (clockPos w)))
            <=? sleepAdjusted speed duration) = true) ->
        (u32 (u32 (clock w (S m + clockPos w)%nat)
              - u32 (clock w (clockPos w)))
         <=? sleepAdjusted speed duration) = false ->
        (m < fuel)%nat ->
        sleep fuel duration w
        = Done false
            (with_clockPos (S (S m) + clockPos w)
               (with_irPos (S m + irPos w) w)))
  /\ (forall start stop : Z,
        0 <= start <= stop ->
        stop < 4294967296 ->
        (u32 (stop - start) <=? sleepAdjusted speed duration) = false ->
        (DEFAULT_SPEED_STEP <= speed ->
         stop * speedFactor speed < 4294967296 ->
         duration
         < millisecondsAdjusted speed stop - millisecondsAdjusted speed start)
        /\ (speed <= DEFAULT_SPEED_STEP ->
            duration * speedFactor speed < 4294967296 ->
            duration
            <= millisecondsAdjusted speed stop
               - millisecondsAdjusted speed start)).
Proof.
  intros Hspeed Htime Hduration.
  assert (Hk : 1 <= speedFactor speed <= 3)
    by (unfold speedFactor, DEFAULT_SPEED_STEP, NUM_SPEED_STEPS in *; lia).
  split; [exact Hk |].
  assert (Hscaling :
    (DEFAULT_SPEED_STEP <= speed ->
      millisecondsAdjusted speed time = u32 (time * speedFactor speed)
      /\ sleepAdjusted speed duration = duration / speedFactor speed
      /\ millisecondsAdjusted speed (sleepAdjusted speed duration)
         = duration - duration mod speedFactor speed)
    /\ (speed <= DEFAULT_SPEED_STEP ->
      millisecondsAdjusted speed time = time / speedFactor speed
      /\ sleepAdjusted speed duration = u32 (duration * speedFactor speed)
      /\ (duration * speedFactor speed < 4294967296 ->
          millisecondsAdjusted speed (sleepAdjusted speed duration) = duration))).
  { destruct (Z.lt_trichotomy speed DEFAULT_SPEED_STEP)
      as [Hslow | [Hdef | Hfast]].
    - split; [unfold DEFAULT_SPEED_STEP in *; lia |]. intros _.
      destruct (adjusted_slow speed time ltac:(lia)) as [Hm _].
      destruct (adjusted_slow speed duration ltac:(lia)) as [_ Hs].
      split; [exact Hm |]. split; [exact Hs |]. intros Hfit.
      destruct (adjusted_slow speed (sleepAdjusted speed duration) ltac:(lia))
        as [Hm' _].
      rewrite Hm', Hs, u32_small by lia.
      apply Z.div_mul. lia.
    - subst speed.
      assert (H1 : speedFactor DEFAULT_SPEED_STEP = 1) by reflexivity.
      rewrite H1, !Z.mul_1_r, !Z.div_1_r, Z.mod_1_r, Z.sub_0_r.
      rewrite !u32_small by lia.
      destruct (adjusted_default time) as [Hm _].
      destruct (adjusted_default duration) as [_ Hs].
      destruct (adjusted_default (sleepAdjusted DEFAULT_SPEED_STEP duration))
        as [Hm' _].
      rewrite Hm', Hs. auto.
    - split; [| unfold DEFAULT_SPEED_STEP in *; lia]. intros _.
      destruct (adjusted_fast speed time ltac:(lia)) as [Hm _].
      destruct (adjusted_fast speed duration ltac:(lia)) as [_ Hs].
      split; [exact Hm |]. split; [exact Hs |].
      destruct (adjusted_fast speed (sleepAdjusted speed duration) ltac:(lia))
        as [Hm' _].
      rewrite Hm', Hs.
      pose proof (Z.div_mod duration (speedFactor speed) ltac:(lia)) as Hdm.
      pose proof (Z.mod_pos_bound duration (speedFactor speed) ltac:(lia)) as Hb.
      pose proof (Z.div_pos duration (speedFactor speed) ltac:(lia) ltac:(lia)) as Hq.
      pose proof (Z.mul_div_le duration (speedFactor speed) ltac:(lia)) as Hle.
      rewrite (Z.mul_comm (duration / speedFactor speed)).
      rewrite u32_small by nia. lia. }
  destruct Hscaling as [Hfast Hslow].
  split; [exact Hfast |]. split; [exact Hslow |].
  split; [| split].
  - intros w Hw. unfold milliseconds, bind, millis, gets, ret.
    cbn [ctl with_clockPos]. rewrite Hw. reflexivity.
  - intros w m fuel Hw Hon Hsc Hmode Hidle Hwait Hpast Hfuel.
    apply sleep_idle_run; try assumption; rewrite Hw; assumption.
  - intros start stop Hs Hstop Htest. split.
    + intros Hge Hfit.
      apply (wait_outlasts_fast speed duration start stop); try assumption; lia.
    + intros Hle Hfit.
      apply (wait_outlasts_slow speed duration start stop); try assumption; lia.
Qed.

Lemma scaling_shares_factor_witness :
  millisecondsAdjusted 3 1000 = u32 (1000 * speedFactor 3)
  /\ sleepAdjusted 3 7 = 7 / speedFactor 3
  /\ millisecondsAdjusted 3 (sleepAdjusted 3 7) = 7 - 7 mod speedFactor 3
  /\ 7 < millisecondsAdjusted 3 4 - millisecondsAdjusted 3 0
  /\ sleep 3 2 (bench [])
     = Done false (with_clockPos 5 (with_irPos 3 (bench []))).
Proof.
  destruct (scaling_shares_factor 3 1000 7) as (_ & Hfast & _ & _ & _ & Hlast);
    [unfold NUM_SPEED_STEPS; lia | lia | lia |].
  destruct Hfast as (Hm & Hs & Hback); [unfold DEFAULT_SPEED_STEP; lia |].
  split; [exact Hm |]. split; [exact Hs |]. split; [exact Hback |].
  split.
  - destruct (Hlast 0 4) as [Hmore _]; [lia | lia | reflexivity |].
    apply Hmore; [unfold DEFAULT_SPEED_STEP; lia | vm_compute; reflexivity].
  - destruct (scaling_shares_factor 2 0 2) as (_ & _ & _ & _ & Hrun & _);
      [unfold NUM_SPEED_STEPS; lia | lia | lia |].
    apply (Hrun (bench []) 2%nat 3%nat).
    + reflexivity.
    + reflexivity.
    + unfold validScenario, NUM_SCENARIOS. simpl. lia.
    + reflexivity.
    + intros k Hk. unfold pendingAt, bench, startup, remote. cbn.
      destruct k; reflexivity.
    + intros k Hk.
      assert (Hc : k = 0%nat \/ k = 1%nat) by lia.
      destruct Hc as [-> | ->]; vm_compute; reflexivity.
    + vm_compute. reflexivity.
    + lia.
Defined.

(** C2, the claim as written fails: at speed step 3 a delay of one
    millisecond is scaled to zero. *)
Lemma scaling_rounds_down : ~ scaling_exactly_inverse.
Proof.
  intros H.
  specialize (H 3 1 ltac:(unfold NUM_SPEED_STEPS; lia) ltac:(lia)).
  vm_compute in H. discriminate H.
Qed.

(** ** The end-to-end scenario *)

Lemma scenario_run (clockIn rndIn : nat -> Z) :
  runCommands 4 (booted (remote scenarioPresses) clockIn rndIn)
  = Done [true; false; false; false]
      (scenarioEnd (booted (remote scenarioPresses) clockIn rndIn)).
Proof.
  set (w0 := booted (remote scenarioPresses) clockIn rndIn).
  assert (Hsc : forall index, 0 <= index < 10 ->
                  0 <= index < NUM_SCENARIOS) by (unfold NUM_SCENARIOS; auto).
  (* the digit 3 *)
  rewrite runCommands_S. change (pending w0) with NUM_3.
  rewrite (processButton_digit_other (polled w0) eq_refl NUM_3 eq_refl)
    by (cbn; discriminate).
  set (w1 := blanked _).
  (* FAST_FORWARD, twice, on a scenario with one variant *)
  rewrite runCommands_S. change (pending w1) with FAST_FORWARD.
  rewrite (processButton_variant_single (polled w1) eq_refl
             (Hsc 3 ltac:(lia)) FAST_FORWARD (or_introl eq_refl) eq_refl).
  rewrite runCommands_S. change (pending (polled w1)) with FAST_FORWARD.
  rewrite (processButton_variant_single (polled (polled w1)) eq_refl
             (Hsc 3 ltac:(lia)) FAST_FORWARD (or_introl eq_refl) eq_refl).
  (* VOL+ at full brightness *)
  rewrite runCommands_S. change (pending (polled (polled w1))) with VOL_PLUS.
  rewrite (processButton_VOL_PLUS (polled (polled (polled w1))) eq_refl
             (Hsc 3 ltac:(lia)))
    by (cbn; unfold NUM_BRIGHTNESS_STEPS; lia).
  reflexivity.
Qed.

(** C9 (as amended). From the start-up state (scenario 0, variant 0,
    default speed, full brightness, switched on) the presses 3,
    FAST_FORWARD, FAST_FORWARD, VOL+ end in scenario 3 and variant 0:
    scenario 3 has a single variant, so both FAST_FORWARD presses do
    nothing.  The brightness stays at its maximum and exactly one of the four
    calls, the digit, asks for a cancel. *)
Theorem end_to_end_scenario (clockIn rndIn : nat -> Z) :
  exists w0 w',
    setup (startup (remote scenarioPresses) clockIn rndIn) = Done tt w0
    /\ currentScenario (ctl w0) = 0
    /\ currentVariant (ctl w0) = 0
    /\ currentSpeed (ctl w0) = DEFAULT_SPEED_STEP
    /\ currentBrightness (ctl w0) = NUM_BRIGHTNESS_STEPS - 1
    /\ isSwitchedOn (ctl w0) = true
    /\ runCommands 4 w0 = Done [true; false; false; false] w'
    /\ currentScenario (ctl w') = 3
    /\ numVariantsOf 3 = 1
    /\ currentVariant (ctl w') = 0
    /\ currentBrightness (ctl w')
       = Z.min (currentBrightness (ctl w0) + 1) (NUM_BRIGHTNESS_STEPS - 1)
    /\ cancellations [true; false; false; false] = 1%nat.
Proof.
  exists (booted (remote scenarioPresses) clockIn rndIn).
  exists (scenarioEnd (booted (remote scenarioPresses) clockIn rndIn)).
  split; [reflexivity |].
  do 5 (split; [reflexivity |]).
  split; [apply scenario_run |].
  repeat split.
Qed.

(** C9, the claim as written fails: the variant ends at 0, not 2, and one
    call asks for a cancel, not two. *)
Lemma end_to_end_differs : ~ end_to_end_expected.
Proof.
  intros H.
  destruct (H ticking counting)
    as (w0 & cancels & w' & Hsetup & Hrun & _ & Hvar & _).
  assert (Hw0 : w0 = booted (remote scenarioPresses) ticking counting).
  { change (setup (startup (remote scenarioPresses) ticking counting))
      with (Done tt (booted (remote scenarioPresses) ticking counting) : Outcome unit)
      in Hsetup.
    inversion Hsetup. reflexivity. }
  subst w0. rewrite scenario_run in Hrun. inversion Hrun; subst.
  discriminate Hvar.
Qed.

(** * More of the sketch *)

(** ** One call of the handler, whatever the button *)

Lemma variant_moves (v count : Z) (button : Button) :
  0 <= v < count -> 1 < count -> isVariantButton button ->
  (v + variantShift button) mod count <> v.
Proof.
  intros Hv Hc [-> | ->]; cbn [variantShift].
  - destruct (Z.eq_dec (v + 1) count) as [He | Hne].
    + rewrite He, Z.mod_same by lia. lia.
    + rewrite Z.mod_small by lia. lia.
  - destruct (Z.eq_dec v 0) as [-> | Hne].
    + replace (0 + -1) with (count - 1 + -1 * count) by lia.
      rewrite Z.mod_add, Z.mod_small by lia. lia.
    + rewrite Z.mod_small by lia. lia.
Qed.

Ltac describe :=
  unfold handled, inSync, validSettings, validScenario, validVariant in *;
  cbn [ctl leds driver irPos lastBrightness
       with_ctl with_leds with_driver with_irPos with_clockPos with_rndPos
       blanked polled
       set_currentScenario set_currentBrightness set_isSwitchedOn
       set_currentVariant set_currentSpeed set_isSwitchModeActive
       set_lastScenarioSwitchTimestamp
       currentScenario currentBrightness isSwitchedOn currentVariant
       currentSpeed isSwitchModeActive lastScenarioSwitchTimestamp] in *;
  unfold NUM_BRIGHTNESS_STEPS, NUM_SPEED_STEPS in *;
  intuition (lia || congruence || auto).

Ltac answer equation :=
  eexists; eexists; split; [apply equation |]; try describe.

Lemma processButton_behaviour (button : Button) (w : World) :
  validSettings (ctl w) ->
  exists cancel w', processButton button w = Done cancel w' /\ handled w cancel w'.
Proof.
  intros Hv.
  pose proof Hv as (Hsc & Hvar & Hbr & Hsp).
  destruct (isSwitchedOn (ctl w)) eqn:Hon.
  - destruct (isDigit button) eqn:Hd.
    { destruct (Z.eq_dec (currentScenario (ctl w)) (digitOf button)) as [He | Hne].
      - answer (processButton_digit_same w Hon Hsc button Hd He).
      - pose proof (digitOf_range button Hd) as Hrange.
        pose proof (numVariantsOf_cases _ Hrange).
        answer (processButton_digit_other w Hon button Hd Hne). }
    assert (Hstep : forall b, isVariantButton b ->
              exists cancel w',
                processButton b w = Done cancel w' /\ handled w cancel w').
    { intros b Hb. pose proof Hvar as Hvar'. unfold validVariant in Hvar'.
      destruct (numVariantsOf_cases _ Hsc) as [H1 | H7].
      - answer (processButton_variant_single w Hon Hsc b Hb H1).
      - pose proof (Z.mod_pos_bound
                      (currentVariant (ctl w) + variantShift b)
                      (numVariantsOf (currentScenario (ctl w))) ltac:(lia)).
        pose proof (variant_moves (currentVariant (ctl w))
                      (numVariantsOf (currentScenario (ctl w))) b
                      Hvar' ltac:(lia) Hb).
        answer (variant_step w b Hon Hsc Hvar Hb ltac:(lia)). }
    destruct button; try discriminate Hd.
    + answer (processButton_POWER_on w Hon).
    + answer (processButton_idle w Hon Hsc FUNC_STOP ltac:(auto)).
    + answer (processButton_VOL_PLUS w Hon Hsc Hbr).
    + apply Hstep. right. reflexivity.
    + answer (processButton_idle w Hon Hsc PAUSE ltac:(auto)).
    + apply Hstep. left. reflexivity.
    + answer (processButton_DOWN w Hon Hsc Hsp).
    + answer (processButton_VOL_MINUS w Hon Hsc Hbr).
    + answer (processButton_UP w Hon Hsc Hsp).
    + answer (processButton_idle w Hon Hsc EQ ltac:(auto)).
    + answer (processButton_ST_REPT w Hon Hsc).
    + answer (processButton_idle w Hon Hsc NONE ltac:(auto)).
  - assert (Hb : button = POWER \/ button <> POWER)
      by (destruct button; auto; right; discriminate).
    destruct Hb as [-> | Hb].
    + answer (processButton_POWER_off w Hon Hsc).
    + answer (processButton_off w button Hon Hb).
Qed.

Lemma readReceiverAndProcess_behaviour (w : World) :
  validSettings (ctl w) ->
  exists cancel w',
    readReceiverAndProcess w = Done cancel w' /\ handled (polled w) cancel w'.
Proof.
  intros Hv. rewrite readReceiverAndProcess_pending.
  exact (processButton_behaviour (pending w) (polled w) Hv).
Qed.

(** X1. While the strip is switched off every button but [POWER] is
    ignored: the call returns [true] (nothing may be rendered) and the
    settings, the pixel buffer and the driver are left as they were. *)
Theorem switched_off_ignores (w : World) :
  isSwitchedOn (ctl w) = false ->
  pending w <> POWER ->
  readReceiverAndProcess w = Done true (polled w)
  /\ ctl (polled w) = ctl w
  /\ leds (polled w) = leds w
  /\ driver (polled w) = driver w.
Proof.
  intros Hoff Hp. rewrite readReceiverAndProcess_pending.
  rewrite (processButton_off (polled w) (pending w) Hoff Hp). repeat split.
Qed.

Lemma switched_off_ignores_witness :
  readReceiverAndProcess
    (with_ctl (set_isSwitchedOn false (ctl (bench [0xA15EFF00])))
       (bench [0xA15EFF00]))
  = Done true
      (polled (with_ctl (set_isSwitchedOn false (ctl (bench [0xA15EFF00])))
                 (bench [0xA15EFF00]))).
Proof.
  apply (switched_off_ignores
           (with_ctl (set_isSwitchedOn false (ctl (bench [0xA15EFF00])))
              (bench [0xA15EFF00])));
    [reflexivity | discriminate].
Defined.

(** X2. In a switched-on state [ST/REPT] flips the switch mode, takes the
    clock's reading as the time of the last switch and returns [false]; the
    other settings, the pixel buffer and the driver are untouched.  A second
    press flips the mode back and takes the next reading. *)
Theorem switch_mode_toggles (w : World) :
  isSwitchedOn (ctl w) = true ->
  validScenario (ctl w) ->
  pending w = ST_REPT ->
  exists w1,
    readReceiverAndProcess w = Done false w1
    /\ isSwitchModeActive (ctl w1) = negb (isSwitchModeActive (ctl w))
    /\ lastScenarioSwitchTimestamp (ctl w1) = u32 (clock w (clockPos w))
    /\ currentScenario (ctl w1) = currentScenario (ctl w)
    /\ currentVariant (ctl w1) = currentVariant (ctl w)
    /\ currentBrightness (ctl w1) = currentBrightness (ctl w)
    /\ currentSpeed (ctl w1) = currentSpeed (ctl w)
    /\ isSwitchedOn (ctl w1) = true
    /\ leds w1 = leds w
    /\ driver w1 = driver w
    /\ (pending w1 = ST_REPT ->
        exists w2,
          readReceiverAndProcess w1 = Done false w2
          /\ isSwitchModeActive (ctl w2) = isSwitchModeActive (ctl w)
          /\ lastScenarioSwitchTimestamp (ctl w2)
             = u32 (clock w (S (clockPos w)))).
Proof.
  intros Hon Hsc Hp.
  rewrite readReceiverAndProcess_pending, Hp.
  rewrite (processButton_ST_REPT (polled w) Hon Hsc).
  match goal with
  | |- exists w1, Done false ?x = Done false w1 /\ _ => set (w1 := x)
  end.
  exists w1. split; [reflexivity |].
  do 9 (split; [solve [reflexivity | exact Hon] |]).
  intros Hp1. rewrite readReceiverAndProcess_pending, Hp1.
  rewrite (processButton_ST_REPT (polled w1) Hon Hsc).
  eexists. split; [reflexivity |]. split.
  - cbn [ctl with_ctl with_clockPos polled with_irPos isSwitchModeActive
         set_lastScenarioSwitchTimestamp set_isSwitchModeActive w1].
    apply negb_involutive.
  - reflexivity.
Qed.

Lemma switch_mode_toggles_witness :
  exists w1,
    readReceiverAndProcess (bench [0xF20DFF00]) = Done false w1
    /\ isSwitchModeActive (ctl w1) = true.
Proof.
  destruct (switch_mode_toggles (bench [0xF20DFF00]))
    as (w1 & Hrun & Hmode & _);
    [reflexivity | unfold validScenario, NUM_SCENARIOS; simpl; lia
    | reflexivity |].
  exists w1. split; [exact Hrun | exact Hmode].
Defined.

(** X3. On settings in range the handler asks for a cancel exactly when,
    after the call, the strip is off or the scenario or the variant is not
    what it was. *)
Theorem cancel_iff_changed (w w' : World) (cancel : bool) :
  validSettings (ctl w) ->
  readReceiverAndProcess w = Done cancel w' ->
  cancel = true
  <-> (isSwitchedOn (ctl w') = false
       \/ currentScenario (ctl w') <> currentScenario (ctl w)
       \/ currentVariant (ctl w') <> currentVariant (ctl w)).
Proof.
  intros Hv Hrun.
  destruct (readReceiverAndProcess_behaviour w Hv) as (c & w1 & Hrun1 & Hh).
  rewrite Hrun1 in Hrun. inversion Hrun; subst. clear Hrun.
  destruct Hh as (_ & _ & _ & Hh). destruct cancel.
  - destruct Hh as (Hchg & _). split; [intros _; exact Hchg | reflexivity].
  - destruct Hh as (Hon & Hsc & Hvar & _). cbn in Hsc, Hvar.
    split; [discriminate |].
    intros [Hoff | [Hne | Hne]]; congruence.
Qed.

Lemma cancel_iff_changed_witness :
  true = true
  <-> (isSwitchedOn
         (ctl (blanked
                 (with_ctl
                    (set_currentVariant 0
                       (set_currentScenario 3 (ctl (bench [0xA15EFF00]))))
                    (polled (bench [0xA15EFF00]))))) = false
       \/ 3 <> 0
       \/ 0 <> 0).
Proof.
  apply (cancel_iff_changed (bench [0xA15EFF00])
           (blanked
              (with_ctl
                 (set_currentVariant 0
                    (set_currentScenario 3 (ctl (bench [0xA15EFF00]))))
                 (polled (bench [0xA15EFF00]))))
           true).
  - vm_compute. intuition congruence.
  - reflexivity.
Defined.

(** X4. Whenever the handler asks for a cancel from a switched-on strip, it
    has blanked the pixel buffer and its last call on the driver pushed the
    blank frame. *)
Theorem cancel_blanks_display (w w' : World) :
  validSettings (ctl w) ->
  isSwitchedOn (ctl w) = true ->
  readReceiverAndProcess w = Done true w' ->
  leds w' = blankStrip /\ driver w' = PushFrame blankStrip :: driver w.
Proof.
  intros Hv Hon Hrun.
  destruct (readReceiverAndProcess_behaviour w Hv) as (c & w1 & Hrun1 & Hh).
  rewrite Hrun1 in Hrun. inversion Hrun; subst. clear Hrun.
  destruct Hh as (_ & _ & _ & _ & Hblank & _). exact (Hblank Hon).
Qed.

Lemma cancel_blanks_display_witness :
  leds (blanked
          (with_ctl (set_currentVariant 1 (ctl (bench [0xBC43FF00])))
             (polled (bench [0xBC43FF00]))))
  = blankStrip
  /\ driver (blanked
               (with_ctl (set_currentVariant 1 (ctl (bench [0xBC43FF00])))
                  (polled (bench [0xBC43FF00]))))
     = PushFrame blankStrip :: driver (bench [0xBC43FF00]).
Proof.
  apply (cancel_blanks_display (bench [0xBC43FF00])
           (blanked
              (with_ctl (set_currentVariant 1 (ctl (bench [0xBC43FF00])))
                 (polled (bench [0xBC43FF00]))))).
  - vm_compute. intuition congruence.
  - reflexivity.
  - reflexivity.
Defined.

(** X5. On settings in range a call of the handler always returns: no array
    is read out of bounds and no remainder is taken by zero; the settings it
    leaves are in range again. *)
Theorem poll_is_defined (w : World) :
  validSettings (ctl w) ->
  exists cancel w',
    readReceiverAndProcess w = Done cancel w' /\ validSettings (ctl w').
Proof.
  intros Hv.
  destruct (readReceiverAndProcess_behaviour w Hv) as (c & w1 & Hrun & Hv1 & _).
  exists c, w1. split; assumption.
Qed.

Lemma poll_is_defined_witness :
  exists cancel w',
    readReceiverAndProcess (benchAt 1 6 [0xBC43FF00]) = Done cancel w'
    /\ validSettings (ctl w').
Proof.
  apply (poll_is_defined (benchAt 1 6 [0xBC43FF00])).
  vm_compute. intuition congruence.
Defined.

(** X6. Switching the strip off and on again with two [POWER] presses
    returns [true], then [false], and restores every setting; the pixel
    buffer is left blank. *)
Theorem power_off_and_on (w : World) :
  isSwitchedOn (ctl w) = true ->
  validScenario (ctl w) ->
  pendingAt w 0 = POWER ->
  pendingAt w 1 = POWER ->
  exists w2,
    runCommands 2 w = Done [true; false] w2
    /\ ctl w2 = ctl w
    /\ leds w2 = blankStrip
    /\ driver w2 = PushFrame blankStrip :: driver w.
Proof.
  intros Hon Hsc Hp0 Hp1.
  assert (Hp : pending w = POWER).
  { unfold pendingAt in Hp0. rewrite Nat.add_0_r in Hp0. exact Hp0. }
  rewrite runCommands_S, Hp, (processButton_POWER_on (polled w) Hon).
  rewrite runCommands_S.
  match goal with
  | |- context [processButton (pending ?x) _] =>
      replace (pending x) with POWER
        by (unfold pendingAt in Hp1; unfold pending; cbn;
            rewrite Nat.add_1_r in Hp1; symmetry; exact Hp1)
  end.
  rewrite processButton_POWER_off by (cbn; auto).
  eexists. split; [reflexivity |]. cbn. split; [| split; reflexivity].
  unfold set_isSwitchedOn. cbn.
  destruct w as [c ? ? ? ? ? ? ? ?]. destruct c. cbn in *. subst.
  reflexivity.
Qed.

Lemma power_off_and_on_witness :
  exists w2,
    runCommands 2 (bench [0xBA45FF00; 0xBA45FF00]) = Done [true; false] w2
    /\ ctl w2 = ctl (bench [0xBA45FF00; 0xBA45FF00]).
Proof.
  destruct (power_off_and_on (bench [0xBA45FF00; 0xBA45FF00]))
    as (w2 & Hrun & Hctl & _);
    [reflexivity | unfold validScenario, NUM_SCENARIOS; simpl; lia
    | reflexivity | reflexivity |].
  exists w2. split; [exact Hrun | exact Hctl].
Defined.

(** ** What [sleep] leaves to the render routine *)

Lemma sleepLoop_outcome (fuel : nat) (startTime adjustedTime : Z) :
  forall (w w' : World) (cancel : bool),
    validSettings (ctl w) ->
    sleepLoop fuel startTime adjustedTime w = Done cancel w' ->
    validSettings (ctl w')
    /\ (irPos w < irPos w')%nat
    /\ (inSync w -> inSync w')
    /\ (cancel = false ->
        isSwitchedOn (ctl w') = true
        /\ currentScenario (ctl w') = currentScenario (ctl w)
        /\ currentVariant (ctl w') = currentVariant (ctl w)
        /\ leds w' = leds w).
Proof.
  induction fuel as [| fuel IH]; intros w w' cancel Hv Hrun;
    [discriminate Hrun |].
  rewrite sleepLoop_S in Hrun.
  destruct (readReceiverAndProcess_behaviour w Hv)
    as (c & w1 & Hpoll & Hv1 & Hpos & Hsync & Hh).
  rewrite Hpoll in Hrun. cbn [polled irPos with_irPos] in Hpos.
  destruct c.
  - inversion Hrun; subst. clear Hrun.
    split; [exact Hv1 |]. split; [lia |]. split; [exact Hsync |].
    discriminate.
  - destruct Hh as (Hon & Hsc & Hvar & Hleds). cbn in Hsc, Hvar, Hleds.
    destruct (u32 (u32 (clock w1 (clockPos w1)) - startTime) <=? adjustedTime).
    + destruct (IH (with_clockPos (S (clockPos w1)) w1) w' cancel Hv1 Hrun)
        as (Hv' & Hpos' & Hsync' & Hquiet).
      cbn [irPos with_clockPos] in Hpos'.
      split; [exact Hv' |]. split; [lia |].
      split; [intros Hs; apply Hsync'; exact (Hsync Hs) |].
      intros Hc. destruct (Hquiet Hc) as (Hon' & Hsc' & Hvar' & Hleds').
      cbn in Hsc', Hvar', Hleds'. repeat split; congruence.
    + inversion Hrun; subst. clear Hrun.
      split; [exact Hv1 |]. split; [cbn; lia |].
      split; [exact Hsync |]. intros _. cbn. auto.
Qed.

Lemma sleep_false_outcome (w w' : World) (fuel : nat) (milliseconds : Z) :
  validSettings (ctl w) ->
  sleep fuel milliseconds w = Done false w' ->
  isSwitchedOn (ctl w') = true
  /\ currentScenario (ctl w') = currentScenario (ctl w)
  /\ currentVariant (ctl w') = currentVariant (ctl w)
  /\ leds w' = leds w
  /\ validSettings (ctl w')
  /\ (irPos w < irPos w')%nat.
Proof.
  intros Hv Hrun.
  destruct (sleep_cases w w' fuel milliseconds false Hrun)
    as [(w1 & Hsw & Hctl & Hdelay) | (n & Hc & _)]; [| discriminate Hc].
  assert (Hsame : leds w1 = leds w /\ irPos w1 = irPos w).
  { destruct (shouldSwitchScenario_cases w)
      as [(w1' & Hsw' & _ & Hleds & _) | (Hsw' & _)];
      rewrite Hsw' in Hsw; [| discriminate Hsw].
    inversion Hsw; subst. split; [exact Hleds |].
    destruct (isSwitchModeActive (ctl w)) eqn:Hact.
    - destruct (Z.lt_ge_cases SCENARIO_SWITCH_TIMEOUT (sinceLastSwitch w)) as [Hd | Hd].
      + rewrite (shouldSwitchScenario_due w Hact Hd) in Hsw'. discriminate Hsw'.
      + rewrite (shouldSwitchScenario_waiting w Hact Hd) in Hsw'.
        inversion Hsw'. reflexivity.
    - rewrite (shouldSwitchScenario_inactive w Hact) in Hsw'.
      inversion Hsw'. reflexivity. }
  destruct Hsame as [Hleds1 Hpos1].
  unfold sleepDelay, bind, gets, millis in Hdelay.
  apply sleepLoop_outcome in Hdelay; [| cbn; rewrite Hctl; exact Hv].
  destruct Hdelay as (Hv' & Hpos & _ & Hquiet).
  destruct (Hquiet eq_refl) as (Hon & Hsc & Hvar & Hleds).
  cbn in Hsc, Hvar, Hleds, Hpos. rewrite Hctl in Hsc, Hvar.
  repeat split; try assumption; try congruence; try apply Hv'; lia.
Qed.

(** X7. A call of [sleep] that returns [false] has left the strip on, the
    scenario, the variant and the pixel buffer as they were, and has polled
    the receiver at least once: the routine that called it is still the
    selected one and its frame is intact. *)
Theorem sleep_false_keeps_frame (w w' : World) (fuel : nat) (milliseconds : Z) :
  validSettings (ctl w) ->
  sleep fuel milliseconds w = Done false w' ->
  isSwitchedOn (ctl w') = true
  /\ currentScenario (ctl w') = currentScenario (ctl w)
  /\ currentVariant (ctl w') = currentVariant (ctl w)
  /\ leds w' = leds w
  /\ validSettings (ctl w')
  /\ (irPos w < irPos w')%nat.
Proof. exact (sleep_false_outcome w w' fuel milliseconds). Qed.

Lemma sleep_false_keeps_frame_witness :
  leds (with_clockPos 3 (polled (bench []))) = leds (bench [])
  /\ currentScenario (ctl (with_clockPos 3 (polled (bench [])))) = 0.
Proof.
  destruct (sleep_false_keeps_frame (bench [])
              (with_clockPos 3 (polled (bench []))) 1 0)
    as (_ & Hsc & _ & Hleds & _).
  - vm_compute. intuition congruence.
  - reflexivity.
  - split; [exact Hleds | exact Hsc].
Defined.

(** X8. [sleep] outside switch mode, with a switched-on strip and nothing
    coming from the receiver: it reads the clock once for the start time,
    then polls and reads the clock again until the time since the start
    exceeds the delay scaled by the speed.  With the [m]-th of these readings
    the first to exceed it, the call returns [false] after [m+1] polls and
    [m+2] readings and has changed nothing else, for every fuel above [m]. *)
Theorem sleep_waits (w : World) (m fuel : nat) (milliseconds : Z) :
  isSwitchedOn (ctl w) = true ->
  validScenario (ctl w) ->
  isSwitchModeActive (ctl w) = false ->
  (forall k, (k <= m)%nat -> pendingAt w k = NONE) ->
  (forall k, (k < m)%nat ->
     u32 (u32 (clock w (S k + clockPos w)%nat) - u32 (clock w (clockPos w)))
     <= sleepAdjusted (currentSpeed (ctl w)) milliseconds) ->
  sleepAdjusted (currentSpeed (ctl w)) milliseconds
  < u32 (u32 (clock w (S m + clockPos w)%nat) - u32 (clock w (clockPos w))) ->
  (m < fuel)%nat ->
  sleep fuel milliseconds w
  = Done false
      (with_clockPos (S (S m) + clockPos w) (with_irPos (S m + irPos w) w)).
Proof.
  intros Hon Hsc Hmode Hidle Hwait Hpast Hfuel.
  rewrite (sleep_delays w w fuel milliseconds
             (shouldSwitchScenario_inactive w Hmode)).
  unfold sleepDelay, bind, gets, millis.
  rewrite (sleepLoop_idle _ _ m (with_clockPos (S (clockPos w)) w) fuel).
  - unfold with_clockPos, with_irPos. cbn. rewrite !Nat.add_succ_r.
    reflexivity.
  - exact Hon.
  - exact Hsc.
  - exact Hidle.
  - intros k Hk. cbn [clock clockPos with_clockPos].
    rewrite Nat.add_succ_r. apply Hwait. exact Hk.
  - cbn [clock clockPos with_clockPos]. rewrite Nat.add_succ_r. exact Hpast.
  - exact Hfuel.
Qed.

Lemma sleep_waits_witness :
  sleep 3 2 (bench [])
  = Done false (with_clockPos 5 (with_irPos 3 (bench []))).
Proof.
  apply (sleep_waits (bench []) 2 3 2).
  - reflexivity.
  - unfold validScenario, NUM_SCENARIOS. simpl. lia.
  - reflexivity.
  - intros k Hk. unfold pendingAt, bench, startup, remote. cbn.
    destruct k; reflexivity.
  - intros k Hk.
    assert (Hc : k = 0%nat \/ k = 1%nat) by lia.
    destruct Hc as [-> | ->]; vm_compute; discriminate.
  - vm_compute. reflexivity.
  - lia.
Defined.

(** ** The switch-mode timer *)

Lemma u32_difference (last elapsed : Z) :
  0 <= elapsed < 4294967296 ->
  u32 (u32 (last + elapsed) - last) = elapsed.
Proof.
  intros He. unfold u32. rewrite Zminus_mod_idemp_l.
  replace (last + elapsed - last) with elapsed by lia.
  apply Z.mod_small. exact He.
Qed.

(** X9. The timer measures time modulo 2^32, so it is right across the
    rollover of [millis()]: if the clock reads [elapsed] milliseconds (less
    than 2^32) past the last switch, wrapped to 32 bits, the timer in switch
    mode answers [true] exactly when [elapsed] is more than 60000, and only
    then takes a new timestamp. *)
Theorem timer_survives_rollover (w : World) (elapsed : Z) :
  isSwitchModeActive (ctl w) = true ->
  0 <= elapsed < 4294967296 ->
  u32 (clock w (clockPos w))
  = u32 (lastScenarioSwitchTimestamp (ctl w) + elapsed) ->
  sinceLastSwitch w = elapsed
  /\ shouldSwitchScenario w
     = if SCENARIO_SWITCH_TIMEOUT <? elapsed
       then Done true (restamped w)
       else Done false (with_clockPos (S (clockPos w)) w).
Proof.
  intros Hact He Hclock.
  assert (Hs : sinceLastSwitch w = elapsed).
  { unfold sinceLastSwitch. rewrite Hclock. apply u32_difference. exact He. }
  split; [exact Hs |].
  destruct (Z.ltb_spec SCENARIO_SWITCH_TIMEOUT elapsed).
  - apply shouldSwitchScenario_due; [exact Hact | lia].
  - apply shouldSwitchScenario_waiting; [exact Hact | lia].
Qed.

Lemma timer_survives_rollover_witness :
  shouldSwitchScenario
    (mkWorld (mkGlobals 0 3 true 0 2 true 4294960000) blankStrip []
       (remote []) O (fun _ => 60000) O counting O)
  = Done true
      (restamped
         (mkWorld (mkGlobals 0 3 true 0 2 true 4294960000) blankStrip []
            (remote []) O (fun _ => 60000) O counting O)).
Proof.
  destruct (timer_survives_rollover
              (mkWorld (mkGlobals 0 3 true 0 2 true 4294960000) blankStrip []
                 (remote []) O (fun _ => 60000) O counting O) 67296)
    as [_ Hsw]; [reflexivity | lia | reflexivity |].
  exact Hsw.
Defined.

(** X10. Once the timer has answered [true] it has restarted: the next call
    answers [false] unless the clock has advanced by more than 60000
    milliseconds since the reading it took as the new timestamp. *)
Theorem timer_restarts (w : World) :
  isSwitchModeActive (ctl w) = true ->
  SCENARIO_SWITCH_TIMEOUT < sinceLastSwitch w ->
  u32 (u32 (clock w (S (S (clockPos w)))) - u32 (clock w (S (clockPos w))))
  <= SCENARIO_SWITCH_TIMEOUT ->
  shouldSwitchScenario w = Done true (restamped w)
  /\ shouldSwitchScenario (restamped w)
     = Done false (with_clockPos (S (S (S (clockPos w)))) (restamped w)).
Proof.
  intros Hact Hdue Hgap. split.
  - apply shouldSwitchScenario_due; assumption.
  - apply (shouldSwitchScenario_waiting (restamped w)); assumption.
Qed.

Lemma timer_restarts_witness :
  shouldSwitchScenario (restamped overdue)
  = Done false (with_clockPos 3 (restamped overdue)).
Proof.
  destruct (timer_restarts overdue) as [_ Hsecond].
  - reflexivity.
  - reflexivity.
  - vm_compute. discriminate.
  - exact Hsecond.
Defined.

(** X11. When the timer is due and the generator keeps giving the current
    scenario, [sleep] does not return: whatever the fuel, the rejection loop
    of [selectRandomScenario] is still turning. *)
Theorem sleep_hangs_on_starved_generator (w : World) (fuel : nat) (milliseconds : Z) :
  isSwitchModeActive (ctl w) = true ->
  SCENARIO_SWITCH_TIMEOUT < sinceLastSwitch w ->
  (forall i, draw w i = currentScenario (ctl w)) ->
  sleep fuel milliseconds w = OutOfFuel.
Proof.
  intros Hact Hdue Hsame.
  unfold sleep, bind. rewrite (shouldSwitchScenario_due w Hact Hdue). cbn.
  match goal with
  | |- context [selectRandomScenario fuel ?x] =>
      change x with (blanked (restamped w))
  end.
  rewrite (selectRandomScenario_starves fuel (blanked (restamped w)) Hsame).
  reflexivity.
Qed.

Lemma sleep_hangs_on_starved_generator_witness :
  sleep 5 0
    (mkWorld (mkGlobals 0 3 true 0 2 true 0) blankStrip [] (remote []) O
       (fun n => 61000 + Z.of_nat n) O (fun _ => 250) O)
  = OutOfFuel.
Proof.
  apply (sleep_hangs_on_starved_generator
           (mkWorld (mkGlobals 0 3 true 0 2 true 0) blankStrip [] (remote []) O
              (fun n => 61000 + Z.of_nat n) O (fun _ => 250) O) 5 0).
  - reflexivity.
  - reflexivity.
  - intros i. reflexivity.
Defined.

(** ** Invariants of the running sketch *)

Lemma sleep_sync (w w' : World) (fuel : nat) (milliseconds : Z) (cancel : bool) :
  validSettings (ctl w) ->
  sleep fuel milliseconds w = Done cancel w' ->
  inSync w -> inSync w'.
Proof.
  intros Hv Hrun Hs.
  destruct (sleep_cases w w' fuel milliseconds cancel Hrun)
    as [(w1 & Hsw & Hctl & Hdelay) | (n & _ & -> & _)].
  - assert (Hdrv : driver w1 = driver w).
    { destruct (shouldSwitchScenario_cases w)
        as [(w1' & Hsw' & _ & _ & Hdrv & _) | (Hsw' & _)];
        rewrite Hsw' in Hsw; [| discriminate Hsw].
      inversion Hsw; subst. exact Hdrv. }
    unfold sleepDelay, bind, gets, millis in Hdelay.
    apply sleepLoop_outcome in Hdelay; [| cbn; rewrite Hctl; exact Hv].
    destruct Hdelay as (_ & _ & Hsync & _). apply Hsync.
    unfold inSync in *. cbn. rewrite Hdrv, Hctl. exact Hs.
  - unfold inSync in *. rewrite rotated_ctl, rotated_driver. cbn. exact Hs.
Qed.

Lemma reachable_sync (w : World) : reachable w -> inSync w.
Proof.
  induction 1 as [irIn clockIn rndIn w Hsetup
                 | w w' cancel Hr IH Hrun
                 | w w' fuel ms cancel Hr IH Hrun
                 | w w' time _ IH Hrun
                 | w w' byte _ IH Hrun
                 | w frame _ IH
                 | w w' _ IH Hrun].
  - inversion Hsetup; subst. reflexivity.
  - destruct (readReceiverAndProcess_behaviour w (reachable_valid w Hr))
      as (c & w1 & Hrun1 & _ & _ & Hsync & _).
    rewrite Hrun1 in Hrun. inversion Hrun; subst. apply Hsync. exact IH.
  - exact (sleep_sync w w' fuel ms cancel (reachable_valid w Hr) Hrun IH).
  - inversion Hrun; subst. exact IH.
  - inversion Hrun; subst. exact IH.
  - exact IH.
  - inversion Hrun; subst. exact IH.
Qed.

(** X12. In every machine the sketch can reach, the scenario index, the
    brightness step and the speed step are inside their arrays and ranges,
    and the brightness the driver was told last is [brightnessMap] at the
    current brightness step. *)
Theorem reachable_settings_in_range (w : World) :
  reachable w ->
  0 <= currentScenario (ctl w) < NUM_SCENARIOS
  /\ 0 <= currentBrightness (ctl w) < NUM_BRIGHTNESS_STEPS
  /\ 0 <= currentSpeed (ctl w) < NUM_SPEED_STEPS
  /\ lastBrightness (driver w)
     = nth_error brightnessMap (Z.to_nat (currentBrightness (ctl w))).
Proof.
  intros Hr.
  destruct (reachable_valid w Hr) as (Hsc & _ & Hbr & Hsp).
  pose proof (reachable_sync w Hr) as Hs.
  repeat split; try apply Hsc; try apply Hbr; try apply Hsp.
  rewrite Hs. unfold NUM_BRIGHTNESS_STEPS in Hbr.
  assert (Hc : currentBrightness (ctl w) = 0 \/ currentBrightness (ctl w) = 1
               \/ currentBrightness (ctl w) = 2 \/ currentBrightness (ctl w) = 3)
    by lia.
  destruct Hc as [-> | [-> | [-> | ->]]]; reflexivity.
Qed.

Lemma reachable_settings_in_range_witness :
  lastBrightness (driver (booted (remote []) ticking counting))
  = nth_error brightnessMap
      (Z.to_nat (currentBrightness (ctl (booted (remote []) ticking counting)))).
Proof.
  apply (reachable_settings_in_range (booted (remote []) ticking counting)).
  apply (reach_setup (remote []) ticking counting). reflexivity.
Defined.

(** ** The speed steps *)

Lemma millisecondsAdjusted_table (time : Z) :
  0 <= time -> 3 * time < 4294967296 ->
  millisecondsAdjusted 0 time = time / 3
  /\ millisecondsAdjusted 1 time = time / 2
  /\ millisecondsAdjusted 2 time = time
  /\ millisecondsAdjusted 3 time = time * 2
  /\ millisecondsAdjusted 4 time = time * 3.
Proof.
  intros H0 H3.
  destruct (adjusted_slow 0 time) as [Ha _]; [unfold DEFAULT_SPEED_STEP; lia |].
  destruct (adjusted_slow 1 time) as [Hb _]; [unfold DEFAULT_SPEED_STEP; lia |].
  destruct (adjusted_fast 3 time) as [Hc _];
    [unfold DEFAULT_SPEED_STEP, NUM_SPEED_STEPS; lia |].
  destruct (adjusted_fast 4 time) as [Hd _];
    [unfold DEFAULT_SPEED_STEP, NUM_SPEED_STEPS; lia |].
  rewrite Ha, Hb, Hc, Hd.
  change (speedFactor 0) with 3. change (speedFactor 1) with 2.
  change (speedFactor 3) with 2. change (speedFactor 4) with 3.
  rewrite !u32_small by lia. repeat split; reflexivity.
Qed.

Lemma sleepAdjusted_table (duration : Z) :
  0 <= duration -> 3 * duration < 4294967296 ->
  sleepAdjusted 0 duration = duration * 3
  /\ sleepAdjusted 1 duration = duration * 2
  /\ sleepAdjusted 2 duration = duration
  /\ sleepAdjusted 3 duration = duration / 2
  /\ sleepAdjusted 4 duration = duration / 3.
Proof.
  intros H0 H3.
  destruct (adjusted_slow 0 duration) as [_ Ha]; [unfold DEFAULT_SPEED_STEP; lia |].
  destruct (adjusted_slow 1 duration) as [_ Hb]; [unfold DEFAULT_SPEED_STEP; lia |].
  destruct (adjusted_fast 3 duration) as [_ Hc];
    [unfold DEFAULT_SPEED_STEP, NUM_SPEED_STEPS; lia |].
  destruct (adjusted_fast 4 duration) as [_ Hd];
    [unfold DEFAULT_SPEED_STEP, NUM_SPEED_STEPS; lia |].
  rewrite Ha, Hb, Hc, Hd.
  change (speedFactor 0) with 3. change (speedFactor 1) with 2.
  change (speedFactor 3) with 2. change (speedFactor 4) with 3.
  rewrite !u32_small by lia. repeat split; reflexivity.
Qed.

(** X13. As long as three times the value fits in 32 bits, a higher speed
    step never makes the scenario clock read less and never makes a delay
    last longer: [milliseconds()] is monotone and the delay of [sleep]
    antitone in the speed step. *)
Theorem faster_speed_faster_time (slow fast value : Z) :
  0 <= slow -> slow <= fast -> fast < NUM_SPEED_STEPS ->
  0 <= value -> 3 * value < 4294967296 ->
  millisecondsAdjusted slow value <= millisecondsAdjusted fast value
  /\ sleepAdjusted fast value <= sleepAdjusted slow value.
Proof.
  unfold NUM_SPEED_STEPS. intros Hs Hsf Hf H0 H3.
  destruct (millisecondsAdjusted_table value H0 H3) as (Ma & Mb & Mc & Md & Me).
  destruct (sleepAdjusted_table value H0 H3) as (Sa & Sb & Sc & Sd & Se).
  pose proof (Z.div_mod value 2 ltac:(lia)) as D2.
  pose proof (Z.mod_pos_bound value 2 ltac:(lia)) as B2.
  pose proof (Z.div_mod value 3 ltac:(lia)) as D3.
  pose proof (Z.mod_pos_bound value 3 ltac:(lia)) as B3.
  assert (Hslow : slow = 0 \/ slow = 1 \/ slow = 2 \/ slow = 3 \/ slow = 4) by lia.
  assert (Hfast : fast = 0 \/ fast = 1 \/ fast = 2 \/ fast = 3 \/ fast = 4) by lia.
  destruct Hslow as [-> | [-> | [-> | [-> | ->]]]];
    destruct Hfast as [-> | [-> | [-> | [-> | ->]]]];
    try lia;
    rewrite ?Ma, ?Mb, ?Mc, ?Md, ?Me, ?Sa, ?Sb, ?Sc, ?Sd, ?Se; lia.
Qed.

Lemma faster_speed_faster_time_witness :
  millisecondsAdjusted 1 1001 <= millisecondsAdjusted 4 1001
  /\ sleepAdjusted 4 1001 <= sleepAdjusted 1 1001.
Proof.
  apply (faster_speed_faster_time 1 4 1001);
    unfold NUM_SPEED_STEPS; lia.
Defined.

(** ** The table of raw codes *)

Lemma rawDataToButtonCode_code (rawData : Z) (button : Button) :
  rawDataToButtonCode rawData = button ->
  button <> NONE ->
  rawData
  = match button with
    | POWER => 0xBA45FF00 | FUNC_STOP => 0xB847FF00 | VOL_PLUS => 0xB946FF00
    | FAST_BACK => 0xBB44FF00 | PAUSE => 0xBF40FF00
    | FAST_FORWARD => 0xBC43FF00 | DOWN => 0xF807FF00
    | VOL_MINUS => 0xEA15FF00 | UP => 0xF609FF00 | EQ => 0xE619FF00
    | ST_REPT => 0xF20DFF00
    | NUM_0 => 0xE916FF00 | NUM_1 => 0xF30CFF00 | NUM_2 => 0xE718FF00
    | NUM_3 => 0xA15EFF00 | NUM_4 => 0xF708FF00 | NUM_5 => 0xE31CFF00
    | NUM_6 => 0xA55AFF00 | NUM_7 => 0xBD42FF00 | NUM_8 => 0xAD52FF00
    | NUM_9 => 0xB54AFF00
    | NONE => rawData
    end.
Proof.
  unfold rawDataToButtonCode. intros Hd Hn.
  repeat match type of Hd with
         | (if ?x =? ?c then _ else _) = _ =>
             destruct (Z.eqb_spec x c) as [He | _];
             [rewrite <- Hd; exact He |]
         end.
  congruence.
Qed.

(** X14. The decoder never maps two raw codes to the same button: raw codes
    that decode to the same button other than [NONE] are equal. *)
Theorem decoder_is_injective (raw1 raw2 : Z) :
  rawDataToButtonCode raw1 = rawDataToButtonCode raw2 ->
  rawDataToButtonCode raw1 <> NONE ->
  raw1 = raw2.
Proof.
  intros Heq Hn.
  pose proof (rawDataToButtonCode_code raw1 _ eq_refl Hn) as H1.
  pose proof (rawDataToButtonCode_code raw2 _ (eq_sym Heq) Hn) as H2.
  destruct (rawDataToButtonCode raw1); congruence.
Qed.

Lemma decoder_is_injective_witness : 0xBA45FF00 = 0xBA45FF00.
Proof.
  apply (decoder_is_injective 0xBA45FF00 0xBA45FF00);
    [reflexivity | discriminate].
Defined.

(** ** The pixel buffer and the loops over it *)

Lemma length_replaceAt {A : Type} (n : nat) (x : A) (l : list A) :
  length (replaceAt n x l) = length l.
Proof.
  revert n. induction l as [| y l IH]; intros [| n]; cbn; auto.
Qed.

Lemma nth_replaceAt {A : Type} (n k : nat) (x d : A) (l : list A) :
  (n < length l)%nat ->
  nth k (replaceAt n x l) d = if (k =? n)%nat then x else nth k l d.
Proof.
  revert n k. induction l as [| y l IH]; intros n k Hn; cbn in Hn; [lia |].
  destruct n as [| n]; destruct k as [| k]; cbn; auto.
  apply IH. lia.
Qed.

Lemma getLed_at (w : World) (index : Z) :
  0 <= index < Z.of_nat (length (leds w)) ->
  getLed index w = Done (ledAt w index) w.
Proof.
  intros Hi. unfold getLed, arrayAt, ledAt.
  destruct (Z.ltb_spec index 0); [lia |].
  destruct (nth_error (leds w) (Z.to_nat index)) as [c |] eqn:Hn.
  - rewrite (nth_error_nth _ _ _ Hn). reflexivity.
  - apply nth_error_None in Hn. lia.
Qed.

Lemma setLed_at (w : World) (index : Z) (color : CRGB) :
  0 <= index < Z.of_nat (length (leds w)) ->
  setLed index color w
  = Done tt (with_leds (replaceAt (Z.to_nat index) color (leds w)) w).
Proof.
  intros Hi. unfold setLed.
  destruct (Z.leb_spec 0 index); [| lia].
  destruct (Z.ltb_spec index (Z.of_nat (length (leds w)))); [| lia].
  reflexivity.
Qed.

(** A [for] loop whose every turn re-establishes [I]. *)
Lemma forLoop_invariant (I : Z -> World -> Prop) (body : Z -> M unit)
    (count : nat) :
  forall (i : Z) (w : World),
    I i w ->
    (forall j v, i <= j < i + Z.of_nat count -> I j v ->
       exists v', body j v = Done tt v' /\ I (j + 1) v') ->
    exists w', forLoop count i body w = Done tt w' /\ I (i + Z.of_nat count) w'.
Proof.
  induction count as [| count IH]; intros i w Hi Hbody.
  - exists w. split; [reflexivity |].
    replace (i + Z.of_nat 0) with i by lia. exact Hi.
  - destruct (Hbody i w ltac:(lia) Hi) as (v & Hrun & Hv).
    destruct (IH (i + 1) v Hv) as (w' & Hrest & Hw').
    { intros j u Hj Hu. apply Hbody; [lia | exact Hu]. }
    exists w'. split.
    + cbn [forLoop]. unfold bind. rewrite Hrun. exact Hrest.
    + replace (i + Z.of_nat (S count)) with (i + 1 + Z.of_nat count) by lia.
      exact Hw'.
Qed.

Lemma nth_rotateLeft {A : Type} (l : list A) (k : nat) (d : A) :
  (k < length l)%nat ->
  nth k (rotateLeft l) d
  = if (S k <? length l)%nat then nth (S k) l d else nth 0 l d.
Proof.
  destruct l as [| x l]; cbn [length rotateLeft]; intros Hk; [lia |].
  destruct (Nat.ltb_spec (S k) (S (length l))).
  - rewrite app_nth1 by lia. reflexivity.
  - rewrite app_nth2 by lia.
    replace (k - length l)%nat with 0%nat by lia. reflexivity.
Qed.

Lemma length_rotateLeft {A : Type} (l : list A) :
  length (rotateLeft l) = length l.
Proof.
  destruct l as [| x l]; [reflexivity |].
  cbn [rotateLeft]. rewrite length_app. cbn. lia.
Qed.

Lemma bind_done {A B : Type} (m : M A) (k : A -> M B) (w : World) (a : A)
    (w' : World) :
  m w = Done a w' -> bind m k w = k a w'.
Proof. intros H. unfold bind. rewrite H. reflexivity. Qed.

(** Two machines that differ at most in the pixel buffer. *)
Lemma with_leds_same (l : list CRGB) (v w : World) :
  with_leds [] v = with_leds [] w -> with_leds l v = with_leds l w.
Proof.
  destruct v, w. unfold with_leds. cbn. intros H. inversion H. reflexivity.
Qed.

Lemma shiftLeds_rotates (w : World) :
  fullStrip w ->
  shiftLeds w = Done tt (with_leds (rotateLeft (leds w)) w).
Proof.
  unfold fullStrip. change (Z.to_nat NUM_LEDS) with 50%nat. intros Hlen.
  set (I := fun (j : Z) (v : World) =>
              0 <= j <= 49
              /\ with_leds [] v = with_leds [] w
              /\ length (leds v) = 50%nat
              /\ forall k, nth k (leds v) (mkCRGB 0 0 0)
                           = if (k <? Z.to_nat j)%nat then nth (S k) (leds w) (mkCRGB 0 0 0)
                             else nth k (leds w) (mkCRGB 0 0 0)).
  destruct (forLoop_invariant I
              (fun i => next <- getLed (i + 1) ;; setLed i next)
              49 0 w) as (v & Hloop & Hj & Hv & Hlenv & Hnth).
  { unfold I. split; [lia |]. split; [reflexivity |].
    split; [exact Hlen |]. intros k. reflexivity. }
  { intros j v Hj (_ & Hv & Hlenv & Hnth).
    unfold bind. rewrite getLed_at by lia. rewrite setLed_at by lia.
    eexists. split; [reflexivity |]. unfold I. cbn [leds with_leds].
    split; [lia |]. split; [exact Hv |].
    split; [rewrite length_replaceAt; exact Hlenv |].
    intros k. rewrite nth_replaceAt by lia.
    unfold ledAt. rewrite (Hnth (Z.to_nat (j + 1))), (Hnth k).
    replace (Z.to_nat (j + 1)) with (S (Z.to_nat j)) by lia.
    destruct (Nat.eqb_spec k (Z.to_nat j)) as [-> | Hne].
    + destruct (Nat.ltb_spec (Z.to_nat j) (S (Z.to_nat j))); [| lia].
      destruct (Nat.ltb_spec (S (Z.to_nat j)) (Z.to_nat j)); [lia |].
      reflexivity.
    + destruct (Nat.ltb_spec k (S (Z.to_nat j)));
        destruct (Nat.ltb_spec k (Z.to_nat j)); try lia; reflexivity. }
  unfold shiftLeds.
  rewrite (bind_done _ _ w _ w (getLed_at w 0 ltac:(lia))).
  change (Z.to_nat (NUM_LEDS - 1)) with 49%nat.
  rewrite (bind_done _ _ w _ v Hloop).
  change (NUM_LEDS - 1) with 49. rewrite setLed_at by lia.
  f_equal.
  rewrite (with_leds_same _ v w Hv). f_equal.
  apply (nth_ext _ _ (mkCRGB 0 0 0) (mkCRGB 0 0 0)).
  - rewrite length_replaceAt, length_rotateLeft. lia.
  - intros k Hk. rewrite length_replaceAt in Hk.
    rewrite nth_replaceAt, nth_rotateLeft by lia. rewrite Hnth, Hlen.
    unfold ledAt. change (Z.to_nat 0) with 0%nat.
    change (Z.to_nat (0 + Z.of_nat 49)) with 49%nat.
    change (Z.to_nat 49) with 49%nat.
    destruct (Nat.eqb_spec k 49) as [-> | Hne]; [reflexivity |].
    destruct (Nat.ltb_spec k 49); destruct (Nat.ltb_spec (S k) 50);
      try lia; reflexivity.
Qed.

(** X15. On a strip of [NUM_LEDS] entries the shift loop of scenarios 1 and
    2 rotates the pixel buffer to the left by one: every LED takes the colour
    of its right neighbour and the last LED the colour of the first.  No
    colour is lost or duplicated, and nothing but the buffer changes. *)
Theorem shift_is_rotation (w : World) :
  fullStrip w ->
  exists w',
    shiftLeds w = Done tt w'
    /\ leds w' = rotateLeft (leds w)
    /\ Permutation (leds w') (leds w)
    /\ fullStrip w'
    /\ ctl w' = ctl w
    /\ driver w' = driver w.
Proof.
  intros Hfull. exists (with_leds (rotateLeft (leds w)) w).
  split; [apply shiftLeds_rotates; exact Hfull |].
  cbn [leds with_leds ctl driver]. split; [reflexivity |]. split.
  - destruct (leds w) as [| x rest]; [apply Permutation_refl |].
    cbn [rotateLeft]. apply Permutation_sym, Permutation_cons_append.
  - split; [| split; reflexivity].
    unfold fullStrip in *. cbn [leds with_leds].
    rewrite length_rotateLeft. exact Hfull.
Qed.

Lemma shift_is_rotation_witness :
  exists w',
    shiftLeds (with_leds (mkCRGB 255 0 0 :: repeat (mkCRGB 0 0 0) 49) (bench []))
    = Done tt w'
    /\ leds w' = repeat (mkCRGB 0 0 0) 49 ++ [mkCRGB 255 0 0].
Proof.
  destruct (shift_is_rotation
              (with_leds (mkCRGB 255 0 0 :: repeat (mkCRGB 0 0 0) 49) (bench [])))
    as (w' & Hrun & Hleds & _); [reflexivity |].
  exists w'. split; [exact Hrun | exact Hleds].
Defined.

Lemma times_S (n : nat) (m : M unit) (w w1 : World) :
  m w = Done tt w1 -> times (S n) m w = times n m w1.
Proof. intros H. cbn [times]. unfold bind. rewrite H. reflexivity. Qed.

Lemma mod_step (j k n : nat) :
  (0 < n)%nat -> (j < n)%nat ->
  (((if S j <? n then S j else 0) + k) mod n = (j + S k) mod n)%nat.
Proof.
  intros Hn Hj. destruct (Nat.ltb_spec (S j) n).
  - f_equal. lia.
  - assert (Hjn : S j = n) by lia.
    replace (j + S k)%nat with (k + 1 * n)%nat by lia.
    rewrite Nat.Div0.mod_add. reflexivity.
Qed.

Lemma times_shiftLeds (k : nat) :
  forall w,
    fullStrip w ->
    exists w',
      times k shiftLeds w = Done tt w'
      /\ fullStrip w'
      /\ with_leds [] w' = with_leds [] w
      /\ forall j, (j < 50)%nat ->
                   nth j (leds w') (mkCRGB 0 0 0)
                   = nth ((j + k) mod 50) (leds w) (mkCRGB 0 0 0).
Proof.
  induction k as [| k IH]; intros w Hfull.
  - exists w. split; [reflexivity |]. split; [exact Hfull |].
    split; [reflexivity |]. intros j Hj.
    rewrite Nat.add_0_r, Nat.mod_small by lia. reflexivity.
  - pose proof (shiftLeds_rotates w Hfull) as Hshift.
    assert (Hfull1 : fullStrip (with_leds (rotateLeft (leds w)) w)).
    { unfold fullStrip in *. cbn [leds with_leds].
      rewrite length_rotateLeft. exact Hfull. }
    destruct (IH _ Hfull1) as (w' & Hrun & Hfull' & Hsame & Hnth).
    exists w'. rewrite (times_S k shiftLeds w _ Hshift).
    split; [exact Hrun |]. split; [exact Hfull' |].
    split; [exact Hsame |]. intros j Hj.
    rewrite (Hnth j Hj). cbn [leds with_leds].
    unfold fullStrip in Hfull. change (Z.to_nat NUM_LEDS) with 50%nat in Hfull.
    assert (Hlt : ((j + k) mod 50 < 50)%nat) by (apply Nat.mod_upper_bound; lia).
    rewrite nth_rotateLeft by lia. rewrite Hfull.
    rewrite <- (mod_step j k 50) by lia.
    destruct (Nat.ltb_spec (S ((j + k) mod 50)) 50) as [Hs | Hs].
    + destruct (Nat.ltb_spec (S j) 50) as [Hsj | Hsj].
      * f_equal. rewrite <- (Nat.mod_small (S ((j + k) mod 50)) 50) by lia.
        replace (S ((j + k) mod 50)) with (1 + (j + k) mod 50)%nat by lia.
        rewrite Nat.Div0.add_mod_idemp_r. f_equal.
      * f_equal. assert (j = 49)%nat by lia. subst j.
        rewrite <- (Nat.mod_small (S ((49 + k) mod 50)) 50) by lia.
        replace (S ((49 + k) mod 50)) with (1 + (49 + k) mod 50)%nat by lia.
        rewrite Nat.Div0.add_mod_idemp_r.
        replace (1 + (49 + k))%nat with (k + 1 * 50)%nat by lia.
        rewrite Nat.Div0.mod_add. reflexivity.
    + assert (He : ((j + k) mod 50 = 49)%nat) by lia.
      destruct (Nat.ltb_spec (S j) 50) as [Hsj | Hsj].
      * f_equal.
        replace (S j + k)%nat with (1 + (j + k))%nat by lia.
        rewrite <- Nat.Div0.add_mod_idemp_r, He. reflexivity.
      * f_equal. assert (j = 49)%nat by lia. subst j.
        replace (0 + k)%nat with k by lia.
        assert (Hk : ((1 + (49 + k)) mod 50 = 0)%nat).
        { rewrite <- Nat.Div0.add_mod_idemp_r, He. reflexivity. }
        replace (1 + (49 + k))%nat with (k + 1 * 50)%nat in Hk by lia.
        rewrite Nat.Div0.mod_add in Hk. symmetry. exact Hk.
Qed.

(** X16. After [k] turns of the shift loop LED [j] shows what LED
    [(j + k) mod NUM_LEDS] showed before; after [NUM_LEDS] turns every LED
    shows its own colour again. *)
Theorem shifts_compose (w : World) (k : nat) :
  fullStrip w ->
  exists w',
    times k shiftLeds w = Done tt w'
    /\ (forall j, (j < 50)%nat ->
          nth j (leds w') (mkCRGB 0 0 0)
          = nth ((j + k) mod 50) (leds w) (mkCRGB 0 0 0))
    /\ (k = 50%nat -> leds w' = leds w)
    /\ ctl w' = ctl w.
Proof.
  intros Hfull.
  destruct (times_shiftLeds k w Hfull) as (w' & Hrun & Hfull' & Hsame & Hnth).
  exists w'. split; [exact Hrun |]. split; [exact Hnth |]. split.
  - intros ->. unfold fullStrip in *.
    apply (nth_ext _ _ (mkCRGB 0 0 0) (mkCRGB 0 0 0)); [congruence |].
    intros j Hj. rewrite Hfull' in Hj.
    change (Z.to_nat NUM_LEDS) with 50%nat in Hj.
    rewrite (Hnth j Hj).
    replace (j + 50)%nat with (j + 1 * 50)%nat by lia.
    rewrite Nat.Div0.mod_add, Nat.mod_small by lia. reflexivity.
  - destruct w', w. unfold with_leds in Hsame. cbn in *.
    inversion Hsame. reflexivity.
Qed.

Lemma shifts_compose_witness :
  exists w',
    times 50 shiftLeds
      (with_leds (mkCRGB 255 0 0 :: repeat (mkCRGB 0 0 0) 49) (bench []))
    = Done tt w'
    /\ leds w' = mkCRGB 255 0 0 :: repeat (mkCRGB 0 0 0) 49.
Proof.
  destruct (shifts_compose
              (with_leds (mkCRGB 255 0 0 :: repeat (mkCRGB 0 0 0) 49) (bench []))
              50)
    as (w' & Hrun & _ & Hback & _); [reflexivity |].
  exists w'. split; [exact Hrun | exact (Hback eq_refl)].
Defined.

Lemma replaceAt_same {A : Type} (n : nat) (d : A) (l : list A) :
  replaceAt n (nth n l d) l = l.
Proof.
  revert n. induction l as [| y l IH]; intros [| n]; cbn; auto.
  rewrite IH. reflexivity.
Qed.

Lemma with_leds_self (w : World) : with_leds (leds w) w = w.
Proof. destruct w; reflexivity. Qed.

(** A [for] loop from 0 whose turn [j] writes LED [j], with a colour that
    may depend on the colour the LED has. *)
Lemma forLoop_fill (body : Z -> M unit) (f : Z -> CRGB -> CRGB) (w : World)
    (count : nat) :
  (count <= 50)%nat ->
  fullStrip w ->
  (forall j v,
     0 <= j < Z.of_nat count ->
     with_leds [] v = with_leds [] w ->
     length (leds v) = 50%nat ->
     body j v
     = Done tt (with_leds (replaceAt (Z.to_nat j) (f j (ledAt v j)) (leds v)) v)) ->
  exists l,
    forLoop count 0 body w = Done tt (with_leds l w)
    /\ length l = 50%nat
    /\ forall k, nth k l (mkCRGB 0 0 0)
                 = if (k <? count)%nat
                   then f (Z.of_nat k) (nth k (leds w) (mkCRGB 0 0 0))
                   else nth k (leds w) (mkCRGB 0 0 0).
Proof.
  intros Hcount Hfull Hbody.
  unfold fullStrip in Hfull. change (Z.to_nat NUM_LEDS) with 50%nat in Hfull.
  set (I := fun (j : Z) (v : World) =>
              0 <= j <= Z.of_nat count
              /\ with_leds [] v = with_leds [] w
              /\ length (leds v) = 50%nat
              /\ forall k, nth k (leds v) (mkCRGB 0 0 0)
                           = if (k <? Z.to_nat j)%nat
                             then f (Z.of_nat k) (nth k (leds w) (mkCRGB 0 0 0))
                             else nth k (leds w) (mkCRGB 0 0 0)).
  destruct (forLoop_invariant I body count 0 w)
    as (v & Hloop & Hj & Hv & Hlenv & Hnth).
  { unfold I. split; [lia |]. split; [reflexivity |].
    split; [exact Hfull |]. intros k. reflexivity. }
  { intros j v Hj (_ & Hv & Hlenv & Hnth).
    rewrite (Hbody j v ltac:(lia) Hv Hlenv).
    eexists. split; [reflexivity |]. unfold I. cbn [leds with_leds].
    split; [lia |]. split; [exact Hv |].
    split; [rewrite length_replaceAt; exact Hlenv |].
    intros k. rewrite nth_replaceAt by lia.
    unfold ledAt. rewrite (Hnth (Z.to_nat j)), (Hnth k).
    replace (Z.to_nat (j + 1)) with (S (Z.to_nat j)) by lia.
    destruct (Nat.eqb_spec k (Z.to_nat j)) as [-> | Hne].
    - destruct (Nat.ltb_spec (Z.to_nat j) (S (Z.to_nat j))); [| lia].
      destruct (Nat.ltb_spec (Z.to_nat j) (Z.to_nat j)); [lia |].
      rewrite Z2Nat.id by lia. reflexivity.
    - destruct (Nat.ltb_spec k (S (Z.to_nat j)));
        destruct (Nat.ltb_spec k (Z.to_nat j)); try lia; reflexivity. }
  exists (leds v). split.
  - rewrite Hloop. f_equal.
    rewrite <- (with_leds_same (leds v) v w Hv). symmetry. apply with_leds_self.
  - split; [exact Hlenv |]. intros k. rewrite Hnth.
    replace (Z.to_nat (0 + Z.of_nat count)) with count by lia. reflexivity.
Qed.

Lemma nth_blankStrip (k : nat) : nth k blankStrip (mkCRGB 0 0 0) = mkCRGB 0 0 0.
Proof.
  unfold blankStrip. change (Z.to_nat NUM_LEDS) with 50%nat.
  destruct (Nat.lt_ge_cases k 50) as [Hk | Hk].
  - apply nth_repeat_lt. exact Hk.
  - apply nth_overflow. rewrite repeat_length. exact Hk.
Qed.

Lemma runningLightInit_lights (w : World) :
  fullStrip w ->
  exists l,
    runningLightInit w = Done tt (with_leds l w)
    /\ length l = 50%nat
    /\ forall k, (k < 50)%nat ->
                 nth k l (mkCRGB 0 0 0)
                 = if (k mod 5 =? 0)%nat
                   then getStandardColor (currentVariant (ctl w))
                   else nth k (leds w) (mkCRGB 0 0 0).
Proof.
  intros Hfull.
  destruct (forLoop_fill
              (fun i =>
                 if Z.rem i 5 =? 0 then
                   variant <- gets currentVariant ;;
                   setLed i (getStandardColor variant)
                 else ret tt)
              (fun j c => if Z.rem j 5 =? 0
                          then getStandardColor (currentVariant (ctl w)) else c)
              w 50 (le_n 50) Hfull) as (l & Hrun & Hlen & Hnth).
  { intros j v Hj Hv Hlenv. cbv beta.
    assert (Hctl : ctl v = ctl w).
    { destruct v, w. unfold with_leds in Hv. cbn in *. inversion Hv.
      reflexivity. }
    destruct (Z.rem j 5 =? 0).
    - unfold bind, gets. rewrite setLed_at by lia. rewrite Hctl. reflexivity.
    - unfold ret, ledAt. rewrite replaceAt_same, with_leds_self. reflexivity. }
  exists l. split; [exact Hrun |]. split; [exact Hlen |].
  intros k Hk. rewrite Hnth.
  destruct (Nat.ltb_spec k 50); [| lia].
  rewrite Z.rem_mod_nonneg by lia.
  replace (Z.of_nat k mod 5) with (Z.of_nat (k mod 5))
    by (rewrite Nat2Z.inj_mod; reflexivity).
  destruct (Nat.eqb_spec (k mod 5) 0) as [He | Hne].
  - rewrite He. reflexivity.
  - destruct (Z.eqb_spec (Z.of_nat (k mod 5)) 0); [lia | reflexivity].
Qed.

Lemma mod_50_mod_5 (a : nat) : ((a mod 50) mod 5 = a mod 5)%nat.
Proof.
  rewrite (Nat.div_mod_eq a 50) at 2.
  replace (50 * (a / 50) + a mod 50)%nat
    with (a mod 50 + (10 * (a / 50)) * 5)%nat by lia.
  rewrite Nat.Div0.mod_add. reflexivity.
Qed.

(** X17. Scenario 1 on a blank strip: the start lights every fifth LED in
    the colour of the variant, and because five divides the number of LEDs
    the pattern stays regular under the shift loop: after [k] turns LED [j]
    is lit exactly when [j + k] is a multiple of five, and dark otherwise. *)
Theorem running_light_pattern (w : World) (k : nat) :
  leds w = blankStrip ->
  exists w1 w2,
    runningLightInit w = Done tt w1
    /\ times k shiftLeds w1 = Done tt w2
    /\ ctl w2 = ctl w
    /\ forall j, (j < 50)%nat ->
                 nth j (leds w2) (mkCRGB 0 0 0)
                 = if ((j + k) mod 5 =? 0)%nat
                   then getStandardColor (currentVariant (ctl w))
                   else mkCRGB 0 0 0.
Proof.
  intros Hblank.
  assert (Hfull : fullStrip w) by (unfold fullStrip; rewrite Hblank; reflexivity).
  destruct (runningLightInit_lights w Hfull) as (l & Hinit & Hlen & Hl).
  assert (Hfull1 : fullStrip (with_leds l w)) by exact Hlen.
  destruct (times_shiftLeds k _ Hfull1) as (w2 & Hrun & _ & Hsame & Hnth).
  exists (with_leds l w), w2. split; [exact Hinit |]. split; [exact Hrun |].
  split.
  - destruct w2, w. unfold with_leds in Hsame. cbn in *.
    inversion Hsame. reflexivity.
  - intros j Hj. rewrite (Hnth j Hj). cbn [leds with_leds].
    rewrite Hl by (apply Nat.mod_upper_bound; lia).
    rewrite mod_50_mod_5, Hblank, nth_blankStrip. reflexivity.
Qed.

Lemma running_light_pattern_witness :
  exists w1 w2,
    runningLightInit (bench []) = Done tt w1
    /\ times 3 shiftLeds w1 = Done tt w2
    /\ nth 2 (leds w2) (mkCRGB 0 0 0) = mkCRGB 255 0 0
    /\ nth 3 (leds w2) (mkCRGB 0 0 0) = mkCRGB 0 0 0.
Proof.
  destruct (running_light_pattern (bench []) 3)
    as (w1 & w2 & Hinit & Hrun & _ & Hnth); [reflexivity |].
  exists w1, w2. split; [exact Hinit |]. split; [exact Hrun |]. split.
  - exact (Hnth 2%nat ltac:(lia)).
  - exact (Hnth 3%nat ltac:(lia)).
Defined.

(** ** The standard colours *)

Lemma getStandardColor_cases (index : Z) :
  0 <= index < 6 ->
  index = 0 \/ index = 1 \/ index = 2 \/ index = 3 \/ index = 4 \/ index = 5.
Proof. lia. Qed.

Lemma standard_shape (index : Z) :
  (red (getStandardColor index) = 0 \/ red (getStandardColor index) = 255)
  /\ (green (getStandardColor index) = 0 \/ green (getStandardColor index) = 255)
  /\ (blue (getStandardColor index) = 0 \/ blue (getStandardColor index) = 255).
Proof.
  unfold getStandardColor.
  repeat match goal with
         | |- context [?x =? ?c] => destruct (Z.eqb_spec x c)
         end; cbn; repeat split; auto.
Qed.

(** X18. [getStandardColor] gives white for index 6 and for every index
    outside 0..6; on 0..5 it gives six different colours, none of them white
    or black, whose channels are all 0 or 255.  So a colour picked as
    [random8() % (NUM_STANDARD_COLORS - 1)] is never white. *)
Theorem standard_colors (index other byte : Z) :
  (index < 0 \/ 6 <= index -> getStandardColor index = mkCRGB 255 255 255)
  /\ (0 <= index < 6 -> 0 <= other < 6 ->
      getStandardColor index = getStandardColor other -> index = other)
  /\ getStandardColor index <> mkCRGB 0 0 0
  /\ (red (getStandardColor index) = 0 \/ red (getStandardColor index) = 255)
  /\ (green (getStandardColor index) = 0 \/ green (getStandardColor index) = 255)
  /\ (blue (getStandardColor index) = 0 \/ blue (getStandardColor index) = 255)
  /\ getStandardColor (Z.rem (u8 byte) (NUM_STANDARD_COLORS - 1))
     <> mkCRGB 255 255 255.
Proof.
  assert (Hshape : forall i,
            getStandardColor i <> mkCRGB 0 0 0
            /\ (red (getStandardColor i) = 0 \/ red (getStandardColor i) = 255)
            /\ (green (getStandardColor i) = 0 \/ green (getStandardColor i) = 255)
            /\ (blue (getStandardColor i) = 0 \/ blue (getStandardColor i) = 255)).
  { intros i. unfold getStandardColor.
    repeat match goal with
           | |- context [?x =? ?c] => destruct (Z.eqb_spec x c)
           end; cbn; repeat split; auto; discriminate. }
  split; [| split; [| split; [| split; [| split; [| split]]]]];
    try apply Hshape.
  - intros Hout. unfold getStandardColor.
    repeat match goal with
           | |- context [?x =? ?c] => destruct (Z.eqb_spec x c); [lia |]
           end.
    reflexivity.
  - intros Hi Ho.
    destruct (getStandardColor_cases index Hi) as [-> | [-> | [-> | [-> | [-> | ->]]]]];
      destruct (getStandardColor_cases other Ho) as [-> | [-> | [-> | [-> | [-> | ->]]]]];
      cbn; intros H; try reflexivity; discriminate H.
  - change (NUM_STANDARD_COLORS - 1) with 6. unfold u8.
    pose proof (Z.mod_pos_bound byte 256 ltac:(lia)).
    rewrite Z.rem_mod_nonneg by lia.
    pose proof (Z.mod_pos_bound (byte mod 256) 6 ltac:(lia)) as Hr.
    destruct (getStandardColor_cases _ Hr) as [-> | [-> | [-> | [-> | [-> | ->]]]]];
      cbn; discriminate.
Qed.

Lemma standard_colors_witness :
  getStandardColor 9 = mkCRGB 255 255 255
  /\ getStandardColor 9 <> mkCRGB 0 0 0.
Proof.
  destruct (standard_colors 9 2 200) as (Hwhite & _ & Hblack & _).
  split; [apply Hwhite; lia | exact Hblack].
Defined.

Lemma getStandardColor_lit (index : Z) : getStandardColor index <> mkCRGB 0 0 0.
Proof.
  unfold getStandardColor.
  repeat match goal with
         | |- context [?x =? ?c] => destruct (Z.eqb_spec x c)
         end; discriminate.
Qed.

(** ** Scenario 6: jump left-right *)

Lemma jumpFill_frame (w : World) (isOdd : bool) :
  fullStrip w ->
  exists l,
    jumpFill isOdd w = Done tt (with_leds l w)
    /\ length l = 50%nat
    /\ forall k, (k < 50)%nat ->
                 nth k l (mkCRGB 0 0 0)
                 = if Bool.eqb (k mod 2 =? 0)%nat isOdd
                   then mkCRGB 0 0 0
                   else getStandardColor (currentVariant (ctl w)).
Proof.
  intros Hfull.
  destruct (forLoop_fill
              (fun i =>
                 variant <- gets currentVariant ;;
                 if isOdd then
                   setLed i (if negb (Z.rem i 2 =? 0)
                             then getStandardColor variant else mkCRGB 0 0 0)
                 else
                   setLed i (if Z.rem i 2 =? 0
                             then getStandardColor variant else mkCRGB 0 0 0))
              (fun j _ =>
                 if Bool.eqb (Z.rem j 2 =? 0) isOdd then mkCRGB 0 0 0
                 else getStandardColor (currentVariant (ctl w)))
              w 50 (le_n 50) Hfull) as (l & Hrun & Hlen & Hnth).
  { intros j v Hj Hv Hlenv. cbv beta.
    assert (Hctl : ctl v = ctl w).
    { destruct v, w. unfold with_leds in Hv. cbn in *. inversion Hv.
      reflexivity. }
    unfold bind, gets. rewrite Hctl.
    destruct isOdd; rewrite setLed_at by lia;
      destruct (Z.rem j 2 =? 0); reflexivity. }
  exists l. split; [exact Hrun |]. split; [exact Hlen |].
  intros k Hk. rewrite Hnth.
  destruct (Nat.ltb_spec k 50); [| lia].
  rewrite Z.rem_mod_nonneg by lia.
  replace (Z.of_nat k mod 2) with (Z.of_nat (k mod 2))
    by (rewrite Nat2Z.inj_mod; reflexivity).
  destruct (Nat.eqb_spec (k mod 2) 0) as [He | Hne].
  - rewrite He. reflexivity.
  - destruct (Z.eqb_spec (Z.of_nat (k mod 2)) 0); [lia | reflexivity].
Qed.

(** X19. Two consecutive frames of scenario 6 are complementary: the fill
    with [isOdd] lights the odd LEDs (the even ones for [false]) in the
    colour of the variant and blacks out the others, whatever the buffer
    held, and the next fill, with the flag flipped, lights exactly the LEDs
    the first left dark. *)
Theorem jump_frames_alternate (w : World) (isOdd : bool) :
  fullStrip w ->
  exists w1 w2,
    jumpFill isOdd w = Done tt w1
    /\ jumpFill (negb isOdd) w1 = Done tt w2
    /\ forall k, (k < 50)%nat ->
         nth k (leds w1) (mkCRGB 0 0 0)
         = (if Bool.eqb (k mod 2 =? 0)%nat isOdd then mkCRGB 0 0 0
            else getStandardColor (currentVariant (ctl w)))
         /\ nth k (leds w2) (mkCRGB 0 0 0)
            = (if Bool.eqb (k mod 2 =? 0)%nat isOdd
               then getStandardColor (currentVariant (ctl w))
               else mkCRGB 0 0 0)
         /\ (nth k (leds w1) (mkCRGB 0 0 0) = mkCRGB 0 0 0
             <-> nth k (leds w2) (mkCRGB 0 0 0) <> mkCRGB 0 0 0).
Proof.
  intros Hfull.
  destruct (jumpFill_frame w isOdd Hfull) as (l1 & Hrun1 & Hlen1 & Hnth1).
  assert (Hfull1 : fullStrip (with_leds l1 w)) by exact Hlen1.
  destruct (jumpFill_frame _ (negb isOdd) Hfull1) as (l2 & Hrun2 & _ & Hnth2).
  exists (with_leds l1 w), (with_leds l2 (with_leds l1 w)).
  split; [exact Hrun1 |]. split; [exact Hrun2 |].
  intros k Hk. cbn [leds with_leds ctl] in *.
  rewrite (Hnth1 k Hk), (Hnth2 k Hk).
  pose proof (getStandardColor_lit (currentVariant (ctl w))) as Hlit.
  destruct (k mod 2 =? 0)%nat; destruct isOdd; cbn;
    repeat split; try reflexivity; intros; congruence.
Qed.

Lemma jump_frames_alternate_witness :
  exists w1 w2,
    jumpFill true (bench []) = Done tt w1
    /\ jumpFill false w1 = Done tt w2
    /\ nth 1 (leds w1) (mkCRGB 0 0 0) = mkCRGB 255 0 0
    /\ nth 1 (leds w2) (mkCRGB 0 0 0) = mkCRGB 0 0 0.
Proof.
  destruct (jump_frames_alternate (bench []) true)
    as (w1 & w2 & Hrun1 & Hrun2 & Hnth); [reflexivity |].
  exists w1, w2. split; [exact Hrun1 |]. split; [exact Hrun2 |].
  destruct (Hnth 1%nat ltac:(lia)) as (H1 & H2 & _).
  split; [exact H1 | exact H2].
Defined.

(** ** Scenario 4: random colors *)

(** X20. The fill loop of scenario 4 stops one short of the strip: it draws
    49 random bytes, gives LEDs 0..48 the standard colour of their byte
    modulo 6, never white, and leaves the last LED as it was.  The settings
    are untouched. *)
Theorem random_fill_skips_last (w : World) :
  fullStrip w ->
  exists w',
    randomColorsFill w = Done tt w'
    /\ rndPos w' = (49 + rndPos w)%nat
    /\ ctl w' = ctl w
    /\ nth 49 (leds w') (mkCRGB 0 0 0) = nth 49 (leds w) (mkCRGB 0 0 0)
    /\ forall k, (k < 49)%nat ->
         nth k (leds w') (mkCRGB 0 0 0)
         = getStandardColor (u8 (rnd w (k + rndPos w)%nat) mod 6)
         /\ nth k (leds w') (mkCRGB 0 0 0) <> mkCRGB 255 255 255.
Proof.
  unfold fullStrip. change (Z.to_nat NUM_LEDS) with 50%nat. intros Hfull.
  set (I := fun (j : Z) (v : World) =>
              0 <= j <= 49
              /\ with_leds [] (with_rndPos 0 v) = with_leds [] (with_rndPos 0 w)
              /\ rndPos v = (Z.to_nat j + rndPos w)%nat
              /\ length (leds v) = 50%nat
              /\ forall k, nth k (leds v) (mkCRGB 0 0 0)
                           = if (k <? Z.to_nat j)%nat
                             then getStandardColor
                                    (u8 (rnd w (k + rndPos w)%nat) mod 6)
                             else nth k (leds w) (mkCRGB 0 0 0)).
  destruct (forLoop_invariant I
              (fun i =>
                 byte <- random8 ;;
                 setLed i (getStandardColor
                             (Z.rem byte (NUM_STANDARD_COLORS - 1))))
              49 0 w) as (v & Hloop & Hj & Hv & Hpos & Hlenv & Hnth).
  { unfold I. split; [lia |]. split; [reflexivity |].
    split; [reflexivity |]. split; [exact Hfull |]. intros k. reflexivity. }
  { intros j v Hj (_ & Hv & Hpos & Hlenv & Hnth).
    assert (Hrnd : rnd v = rnd w).
    { destruct v, w. unfold with_leds, with_rndPos in Hv. cbn in *.
      inversion Hv. reflexivity. }
    unfold bind, random8. rewrite setLed_at by (cbn; lia).
    eexists. split; [reflexivity |]. unfold I.
    cbn [leds with_leds with_rndPos rndPos].
    split; [lia |]. split.
    - destruct v, w. unfold with_leds, with_rndPos in *. cbn in *.
      inversion Hv. reflexivity.
    - split; [lia |]. split; [rewrite length_replaceAt; exact Hlenv |].
      intros k. rewrite nth_replaceAt by lia. rewrite (Hnth k).
      replace (Z.to_nat (j + 1)) with (S (Z.to_nat j)) by lia.
      change (NUM_STANDARD_COLORS - 1) with 6.
      destruct (Nat.eqb_spec k (Z.to_nat j)) as [-> | Hne].
      + destruct (Nat.ltb_spec (Z.to_nat j) (S (Z.to_nat j))); [| lia].
        rewrite Hrnd, Hpos. unfold u8.
        pose proof (Z.mod_pos_bound (rnd w (Z.to_nat j + rndPos w)%nat) 256
                      ltac:(lia)).
        rewrite Z.rem_mod_nonneg by lia. reflexivity.
      + destruct (Nat.ltb_spec k (S (Z.to_nat j)));
          destruct (Nat.ltb_spec k (Z.to_nat j)); try lia; reflexivity. }
  exists v. unfold randomColorsFill.
  change (Z.to_nat (NUM_LEDS - 1)) with 49%nat.
  split; [exact Hloop |].
  replace (Z.to_nat (0 + Z.of_nat 49)) with 49%nat in * by lia.
  split; [exact Hpos |]. split.
  - destruct v, w. unfold with_leds, with_rndPos in Hv. cbn in *.
    inversion Hv. reflexivity.
  - split.
    + rewrite Hnth. reflexivity.
    + intros k Hk. rewrite Hnth.
      destruct (Nat.ltb_spec k 49); [| lia].
      split; [reflexivity |].
      unfold u8.
      pose proof (Z.mod_pos_bound (rnd w (k + rndPos w)%nat) 256 ltac:(lia)).
      pose proof (Z.mod_pos_bound (rnd w (k + rndPos w)%nat mod 256) 6
                    ltac:(lia)) as Hr.
      destruct (getStandardColor_cases _ Hr) as [-> | [-> | [-> | [-> | [-> | ->]]]]];
        cbn; discriminate.
Qed.

Lemma random_fill_skips_last_witness :
  exists w',
    randomColorsFill (bench []) = Done tt w'
    /\ nth 49 (leds w') (mkCRGB 0 0 0) = mkCRGB 0 0 0
    /\ rndPos w' = 49%nat.
Proof.
  destruct (random_fill_skips_last (bench []))
    as (w' & Hrun & Hpos & _ & Hlast & _); [reflexivity |].
  exists w'. split; [exact Hrun |]. split; [exact Hlast | exact Hpos].
Defined.

(** ** A cancelled routine leaves a blank strip *)

Lemma sleepLoop_cancel (fuel : nat) (startTime adjustedTime : Z) :
  forall (w w' : World),
    validSettings (ctl w) ->
    isSwitchedOn (ctl w) = true ->
    sleepLoop fuel startTime adjustedTime w = Done true w' ->
    leds w' = blankStrip
    /\ (exists older, driver w' = PushFrame blankStrip :: older)
    /\ validSettings (ctl w').
Proof.
  induction fuel as [| fuel IH]; intros w w' Hv Hon Hrun;
    [discriminate Hrun |].
  rewrite sleepLoop_S in Hrun.
  destruct (readReceiverAndProcess_behaviour w Hv)
    as (c & w1 & Hpoll & Hv1 & _ & _ & Hh).
  rewrite Hpoll in Hrun. destruct c.
  - inversion Hrun; subst. clear Hrun.
    destruct Hh as (_ & Hblank & _).
    destruct (Hblank Hon) as [Hleds Hdrv].
    split; [exact Hleds |]. split; [eexists; exact Hdrv | exact Hv1].
  - destruct Hh as (Hon1 & _).
    destruct (u32 (u32 (clock w1 (clockPos w1)) - startTime) <=? adjustedTime);
      [| discriminate Hrun].
    exact (IH (with_clockPos (S (clockPos w1)) w1) w' Hv1 Hon1 Hrun).
Qed.

Lemma sleep_true_outcome (w w' : World) (fuel : nat) (milliseconds : Z) :
  validSettings (ctl w) ->
  isSwitchedOn (ctl w) = true ->
  sleep fuel milliseconds w = Done true w' ->
  leds w' = blankStrip
  /\ (exists older, driver w' = PushFrame blankStrip :: older)
  /\ validSettings (ctl w').
Proof.
  intros Hv Hon Hrun.
  destruct (sleep_cases w w' fuel milliseconds true Hrun)
    as [(w1 & Hsw & Hctl & Hdelay) | (n & _ & -> & _)].
  - unfold sleepDelay, bind, gets, millis in Hdelay.
    apply sleepLoop_cancel in Hdelay; [exact Hdelay | |];
      cbn; rewrite Hctl; assumption.
  - split; [apply rotated_leds |].
    split; [eexists; apply rotated_driver | apply valid_rotated; exact Hv].
Qed.

(** X21. A call of [sleep] that returns [true], entered with the strip
    switched on, has blanked the pixel buffer, and the last call it made on
    the driver pushed the blank frame: whatever the reason of the cancel
    (power off, another scenario or variant, the switch-mode timer), the
    routine that is cancelled leaves no pixel of its own behind. *)
Theorem sleep_true_blanks (w w' : World) (fuel : nat) (milliseconds : Z) :
  validSettings (ctl w) ->
  isSwitchedOn (ctl w) = true ->
  sleep fuel milliseconds w = Done true w' ->
  leds w' = blankStrip
  /\ exists older, driver w' = PushFrame blankStrip :: older.
Proof.
  intros Hv Hon Hrun.
  destruct (sleep_true_outcome w w' fuel milliseconds Hv Hon Hrun)
    as (Hleds & Hdrv & _).
  split; assumption.
Qed.

Lemma sleep_true_blanks_witness :
  leds (rotated overdue 1) = blankStrip
  /\ exists older, driver (rotated overdue 1) = PushFrame blankStrip :: older.
Proof.
  apply (sleep_true_blanks overdue (rotated overdue 1) 2 1000).
  - vm_compute. intuition congruence.
  - reflexivity.
  - apply sleep_switches.
    + reflexivity.
    + intros i Hi. assert (i = 0%nat) by lia. subst i. reflexivity.
    + discriminate.
    + lia.
Defined.

(** *** Routines only write pixels *)

Lemma sameSettings_refl (w : World) : sameSettings w w.
Proof. reflexivity. Qed.

Lemma sameSettings_trans (w1 w2 w3 : World) :
  sameSettings w1 w2 -> sameSettings w2 w3 -> sameSettings w1 w3.
Proof. unfold sameSettings. congruence. Qed.

Lemma sameSettings_env (w w' : World) :
  ctl w' = ctl w -> rndPos w' = rndPos w -> sameSettings w w'.
Proof. intros H _. exact H. Qed.

Lemma settings_getLed (index : Z) : respects sameSettings (getLed index).
Proof.
  intros w c w' H. unfold getLed in H.
  exact (respects_arrayAt sameSettings sameSettings_refl (leds w) index w c w' H).
Qed.

Lemma settings_setLed (index : Z) (color : CRGB) :
  respects sameSettings (setLed index color).
Proof.
  intros w u w' H. unfold setLed in H.
  destruct ((0 <=? index) && (index <? Z.of_nat (length (leds w))));
    inversion H. reflexivity.
Qed.

Lemma settings_random8 : respects sameSettings random8.
Proof. intros w u w' H. inversion H. reflexivity. Qed.

Lemma settings_forLoop (body : Z -> M unit) (count : nat) :
  (forall i, respects sameSettings (body i)) ->
  forall i, respects sameSettings (forLoop count i body).
Proof.
  intros Hbody. induction count as [| count IH]; intros i.
  - apply (respects_ret sameSettings sameSettings_refl).
  - cbn [forLoop].
    apply (respects_bind sameSettings sameSettings_trans); [apply Hbody |].
    intros _. apply IH.
Qed.

Ltac settings :=
  repeat first
    [ apply (respects_ret sameSettings sameSettings_refl)
    | apply (respects_gets sameSettings sameSettings_refl)
    | apply settings_getLed
    | apply settings_setLed
    | apply settings_random8
    | apply settings_forLoop; intro
    | apply (respects_bind sameSettings sameSettings_trans); [| intro]
    | match goal with
      | |- respects _ (if ?c then _ else _) => destruct c
      end ].

Lemma settings_shiftLeds : respects sameSettings shiftLeds.
Proof. unfold shiftLeds. settings. Qed.

Lemma settings_runningLightInit : respects sameSettings runningLightInit.
Proof. unfold runningLightInit. settings. Qed.

Lemma settings_loopedSequenceInit : respects sameSettings loopedSequenceInit.
Proof. unfold loopedSequenceInit. settings. Qed.

Lemma settings_randomColorsFill : respects sameSettings randomColorsFill.
Proof. unfold randomColorsFill. settings. Qed.

Lemma settings_jumpFill (isOdd : bool) : respects sameSettings (jumpFill isOdd).
Proof. unfold jumpFill. settings. Qed.

(** The loop of scenarios 1, 2, 4 and 6 ends only on a cancel, and then the
    strip is blank. *)
Lemma showUntilCancelled_blank {L : Type} (body : L -> M L) (delay : Z)
    (sleepFuel fuel : nat) :
  (forall local, respects sameSettings (body local)) ->
  forall (local : L) (w w' : World),
    validSettings (ctl w) ->
    isSwitchedOn (ctl w) = true ->
    showUntilCancelled fuel sleepFuel body delay local w = Done tt w' ->
    leds w' = blankStrip
    /\ exists older, driver w' = PushFrame blankStrip :: older.
Proof.
  intros Hbody. induction fuel as [| fuel IH]; intros local w w' Hv Hon Hrun;
    [discriminate Hrun |].
  cbn [showUntilCancelled] in Hrun. unfold bind at 1 in Hrun.
  destruct (body local w) as [local' w1 | |] eqn:Hb; try discriminate Hrun.
  pose proof (Hbody local w local' w1 Hb) as Hctl. unfold sameSettings in Hctl.
  unfold bind at 1 in Hrun. unfold FastLED_show at 1 in Hrun.
  unfold bind at 1 in Hrun.
  set (w2 := with_driver (PushFrame (leds w1) :: driver w1) w1) in Hrun.
  assert (Hv2 : validSettings (ctl w2)) by (cbn; rewrite Hctl; exact Hv).
  assert (Hon2 : isSwitchedOn (ctl w2) = true) by (cbn; rewrite Hctl; exact Hon).
  destruct (sleep sleepFuel delay w2) as [[|] w3 | |] eqn:Hs;
    try discriminate Hrun.
  - inversion Hrun; subst. clear Hrun.
    destruct (sleep_true_outcome w2 w' sleepFuel delay Hv2 Hon2 Hs)
      as (Hleds & Hdrv & _).
    split; assumption.
  - destruct (sleep_false_outcome w2 w3 sleepFuel delay Hv2 Hs)
      as (Hon3 & _ & _ & _ & Hv3 & _).
    exact (IH local' w3 w' Hv3 Hon3 Hrun).
Qed.

(** X22. Scenarios 1, 2, 4 and 6 (running light, looped sequence, random
    colors, jump left-right), started on a switched-on strip with settings
    in range: when the routine returns, the pixel buffer is blank and the
    last call on the driver pushed the blank frame.  The routine returns only
    because a [sleep] asked for a cancel, and the cancel has wiped what the
    routine drew. *)
Theorem routines_return_blank (w w' : World) (fuel sleepFuel : nat) :
  validSettings (ctl w) ->
  isSwitchedOn (ctl w) = true ->
  runningLight fuel sleepFuel w = Done tt w'
  \/ loopedSequence fuel sleepFuel w = Done tt w'
  \/ randomColors fuel sleepFuel w = Done tt w'
  \/ jumpLeftRight fuel sleepFuel w = Done tt w' ->
  leds w' = blankStrip
  /\ exists older, driver w' = PushFrame blankStrip :: older.
Proof.
  intros Hv Hon [Hrun | [Hrun | [Hrun | Hrun]]].
  - unfold runningLight, bind in Hrun.
    destruct (runningLightInit w) as [[] w1 | |] eqn:Hinit; try discriminate Hrun.
    pose proof (settings_runningLightInit w tt w1 Hinit) as Hctl.
    unfold sameSettings in Hctl.
    apply (showUntilCancelled_blank (fun _ : unit => shiftLeds) 60
             sleepFuel fuel (fun _ => settings_shiftLeds) tt w1 w');
      [rewrite Hctl; exact Hv | rewrite Hctl; exact Hon | exact Hrun].
  - unfold loopedSequence, bind in Hrun.
    destruct (loopedSequenceInit w) as [[] w1 | |] eqn:Hinit; try discriminate Hrun.
    pose proof (settings_loopedSequenceInit w tt w1 Hinit) as Hctl.
    unfold sameSettings in Hctl.
    apply (showUntilCancelled_blank (fun _ : unit => shiftLeds) 1000
             sleepFuel fuel (fun _ => settings_shiftLeds) tt w1 w');
      [rewrite Hctl; exact Hv | rewrite Hctl; exact Hon | exact Hrun].
  - apply (showUntilCancelled_blank (fun _ : unit => randomColorsFill) 1000
             sleepFuel fuel (fun _ => settings_randomColorsFill) tt w w');
      assumption.
  - apply (showUntilCancelled_blank
             (fun isOdd : bool => jumpFill isOdd ;; ret (negb isOdd)) 700
             sleepFuel fuel) with (local := true) (w := w); try assumption.
    intros isOdd.
    apply (respects_bind sameSettings sameSettings_trans);
      [apply settings_jumpFill |].
    intros _. apply (respects_ret sameSettings sameSettings_refl).
Qed.

Lemma routines_return_blank_witness :
  exists w',
    runningLight 1 1 (bench [0xBA45FF00]) = Done tt w'
    /\ leds w' = blankStrip.
Proof.
  exists (match runningLight 1 1 (bench [0xBA45FF00]) with
          | Done _ w' => w'
          | _ => bench []
          end).
  assert (Hrun : runningLight 1 1 (bench [0xBA45FF00])
                 = Done tt (match runningLight 1 1 (bench [0xBA45FF00]) with
                            | Done _ w' => w'
                            | _ => bench []
                            end))
    by (vm_compute; reflexivity).
  split; [exact Hrun |].
  apply (routines_return_blank (bench [0xBA45FF00]) _ 1 1).
  - vm_compute. intuition congruence.
  - reflexivity.
  - left. exact Hrun.
Defined.

(** ** Scenarios 7 and 8: the two points that move apart *)

Lemma index_range (startIndex i : Z) :
  0 <= startIndex < NUM_LEDS -> 0 <= i <= 25 ->
  0 <= leftIndex startIndex i < NUM_LEDS
  /\ 0 <= rightIndex startIndex i < NUM_LEDS.
Proof.
  unfold leftIndex, rightIndex, NUM_LEDS. intros Hs Hi.
  rewrite !Z.rem_mod_nonneg by lia.
  split; apply Z.mod_pos_bound; lia.
Qed.

Lemma points_cover (startIndex k : Z) :
  0 <= startIndex < NUM_LEDS -> 0 <= k < NUM_LEDS ->
  exists i, 0 <= i <= 25
            /\ (k = leftIndex startIndex i \/ k = rightIndex startIndex i).
Proof.
  unfold leftIndex, rightIndex, NUM_LEDS. intros Hs Hk.
  destruct (Z_le_gt_dec startIndex k) as [Hle | Hgt].
  - destruct (Z_le_gt_dec (k - startIndex) 25) as [Hnear | Hfar].
    + exists (k - startIndex). split; [lia |]. right.
      rewrite Z.rem_mod_nonneg by lia.
      replace (startIndex + (k - startIndex)) with k by lia.
      rewrite Z.mod_small by lia. reflexivity.
    + exists (50 - (k - startIndex)). split; [lia |]. left.
      rewrite Z.rem_mod_nonneg by lia.
      replace (50 + startIndex - (50 - (k - startIndex))) with k by lia.
      rewrite Z.mod_small by lia. reflexivity.
  - destruct (Z_le_gt_dec (startIndex - k) 25) as [Hnear | Hfar].
    + exists (startIndex - k). split; [lia |]. left.
      rewrite Z.rem_mod_nonneg by lia.
      replace (50 + startIndex - (startIndex - k)) with (k + 1 * 50) by lia.
      rewrite Z.mod_add, Z.mod_small by lia. reflexivity.
    + exists (50 - (startIndex - k)). split; [lia |]. right.
      rewrite Z.rem_mod_nonneg by lia.
      replace (startIndex + (50 - (startIndex - k))) with (k + 1 * 50) by lia.
      rewrite Z.mod_add, Z.mod_small by lia. reflexivity.
Qed.

Lemma ledAt_replaced (w : World) (index k : Z) (color : CRGB) :
  0 <= index < Z.of_nat (length (leds w)) -> 0 <= k ->
  ledAt (with_leds (replaceAt (Z.to_nat index) color (leds w)) w) k
  = if k =? index then color else ledAt w k.
Proof.
  intros Hi Hk. unfold ledAt. cbn [leds with_leds].
  rewrite nth_replaceAt by lia.
  destruct (Nat.eqb_spec (Z.to_nat k) (Z.to_nat index)) as [He | Hne];
    destruct (Z.eqb_spec k index); try lia; reflexivity.
Qed.

Lemma blastSpread_paints (sleepFuel : nat) (color : CRGB) (startIndex : Z)
    (count : nat) :
  0 <= startIndex < NUM_LEDS ->
  forall (i : Z) (w w' : World),
    0 <= i -> i + Z.of_nat count = 26 ->
    validSettings (ctl w) ->
    fullStrip w ->
    (forall k i', 0 <= i' < i ->
       k = leftIndex startIndex i' \/ k = rightIndex startIndex i' ->
       ledAt w k = color) ->
    blastSpread count sleepFuel color startIndex i w = Done false w' ->
    fullStrip w'
    /\ validSettings (ctl w')
    /\ currentScenario (ctl w') = currentScenario (ctl w)
    /\ currentVariant (ctl w') = currentVariant (ctl w)
    /\ (forall k i', 0 <= i' < 26 ->
          k = leftIndex startIndex i' \/ k = rightIndex startIndex i' ->
          ledAt w' k = color).
Proof.
  intros Hs. induction count as [| count IH];
    intros i w w' Hi Hsum Hv Hfull Hpaint Hrun.
  - inversion Hrun; subst. clear Hrun.
    replace 26 with i by lia. auto.
  - destruct (index_range startIndex i Hs ltac:(lia)) as [Hl Hr].
    unfold fullStrip in Hfull.
    cbn [blastSpread] in Hrun.
    rewrite (bind_done _ _ w tt _
               (setLed_at w (leftIndex startIndex i) color ltac:(lia))) in Hrun.
    set (w1 := with_leds (replaceAt (Z.to_nat (leftIndex startIndex i)) color
                            (leds w)) w) in Hrun.
    assert (Hlen1 : length (leds w1) = Z.to_nat NUM_LEDS)
      by (cbn; rewrite length_replaceAt; exact Hfull).
    rewrite (bind_done _ _ w1 tt _
               (setLed_at w1 (rightIndex startIndex i) color ltac:(lia))) in Hrun.
    set (w2 := with_leds (replaceAt (Z.to_nat (rightIndex startIndex i)) color
                            (leds w1)) w1) in Hrun.
    unfold bind at 1 in Hrun. unfold FastLED_show at 1 in Hrun.
    set (w3 := with_driver (PushFrame (leds w2) :: driver w2) w2) in Hrun.
    unfold bind at 1 in Hrun.
    destruct (sleep sleepFuel 30 w3) as [[|] w4 | |] eqn:Hsleep;
      try discriminate Hrun.
    destruct (sleep_false_outcome w3 w4 sleepFuel 30 Hv Hsleep)
      as (_ & Hsc & Hvar & Hleds & Hv4 & _).
    assert (Hfull4 : fullStrip w4).
    { unfold fullStrip. rewrite Hleds. cbn. rewrite !length_replaceAt.
      exact Hfull. }
    destruct (IH (i + 1) w4 w' ltac:(lia) ltac:(lia) Hv4 Hfull4) as
      (Hfull' & Hv' & Hsc' & Hvar' & Hpaint'); [| exact Hrun |].
    + intros k i' Hi' Hk.
      assert (Hk0 : 0 <= k).
      { destruct (index_range startIndex i' Hs ltac:(lia)).
        destruct Hk; subst k; lia. }
      unfold ledAt. rewrite Hleds.
      change (nth (Z.to_nat k) (leds w3) (mkCRGB 0 0 0)) with (ledAt w2 k).
      unfold w2. rewrite ledAt_replaced by lia.
      destruct (k =? rightIndex startIndex i) eqn:Hkr; [reflexivity |].
      unfold w1. rewrite ledAt_replaced by lia.
      destruct (k =? leftIndex startIndex i) eqn:Hkl; [reflexivity |].
      destruct (Z.eq_dec i' i) as [-> | Hne].
      * destruct Hk as [-> | ->]; rewrite Z.eqb_refl in *; discriminate.
      * apply (Hpaint k i'); [lia | exact Hk].
    + split; [exact Hfull' |]. split; [exact Hv' |].
      cbn in Hsc, Hvar. split; [congruence |]. split; [congruence |].
      exact Hpaint'.
Qed.

(** X23. One wave of scenario 8 that no [sleep] cancels colours the whole
    strip: started at any LED, after the 26 steps of the loop every LED has
    the colour of the wave.  The two points never leave the strip, and the
    scenario and variant are still the ones the wave started with. *)
Theorem blast_wave_fills_strip (w w' : World) (sleepFuel : nat) (color : CRGB)
    (startIndex : Z) :
  validSettings (ctl w) ->
  fullStrip w ->
  0 <= startIndex < NUM_LEDS ->
  blastSpread (Z.to_nat (NUM_LEDS / 2 + 1)) sleepFuel color startIndex 0 w
  = Done false w' ->
  (forall k, 0 <= k < NUM_LEDS -> ledAt w' k = color)
  /\ fullStrip w'
  /\ currentScenario (ctl w') = currentScenario (ctl w)
  /\ currentVariant (ctl w') = currentVariant (ctl w).
Proof.
  intros Hv Hfull Hs Hrun.
  change (Z.to_nat (NUM_LEDS / 2 + 1)) with 26%nat in Hrun.
  destruct (blastSpread_paints sleepFuel color startIndex 26 Hs 0 w w'
              ltac:(lia) ltac:(lia) Hv Hfull) as
    (Hfull' & _ & Hsc & Hvar & Hpaint); [| exact Hrun |].
  - intros k i' Hi'. lia.
  - split; [| auto]. intros k Hk.
    destruct (points_cover startIndex k Hs Hk) as (i & Hi & Hki).
    apply (Hpaint k i); [lia | exact Hki].
Qed.

Lemma blast_wave_fills_strip_witness :
  exists w',
    blastSpread 26 40 (mkCRGB 0 255 0) 10 0 (bench []) = Done false w'
    /\ ledAt w' 37 = mkCRGB 0 255 0.
Proof.
  set (wEnd := match blastSpread 26 40 (mkCRGB 0 255 0) 10 0 (bench []) with
               | Done _ w' => w'
               | _ => bench []
               end).
  exists wEnd.
  assert (Hrun : blastSpread 26 40 (mkCRGB 0 255 0) 10 0 (bench [])
                 = Done false wEnd)
    by (vm_compute; reflexivity).
  split; [exact Hrun |].
  destruct (blast_wave_fills_strip (bench []) wEnd 40 (mkCRGB 0 255 0) 10)
    as (Hall & _).
  - vm_compute. intuition congruence.
  - reflexivity.
  - unfold NUM_LEDS. lia.
  - exact Hrun.
  - apply Hall. unfold NUM_LEDS. lia.
Defined.

Lemma replaceAt_twice {A : Type} (n : nat) (x y : A) (l : list A) :
  replaceAt n x (replaceAt n y l) = replaceAt n x l.
Proof.
  revert n. induction l as [| z l IH]; intros [| n]; cbn; auto.
  rewrite IH. reflexivity.
Qed.

Lemma blendChannel_twice (channel : Z) :
  channel = 0 \/ channel = 255 ->
  blendChannel (blendChannel 0 channel) channel = 0.
Proof. intros [-> | ->]; reflexivity. Qed.

(** Blending one point of a blank strip twice with a standard colour. *)
Lemma blendLed_twice (w : World) (index colorIndex : Z) :
  leds w = blankStrip ->
  0 <= index < NUM_LEDS ->
  (blendLed index (getStandardColor colorIndex) ;;
   blendLed index (getStandardColor colorIndex)) w
  = Done tt w.
Proof.
  intros Hblank Hi.
  assert (Hlen : Z.of_nat (length (leds w)) = NUM_LEDS)
    by (rewrite Hblank; reflexivity).
  destruct (standard_shape colorIndex) as (Hr & Hg & Hb).
  unfold blendLed.
  unfold bind at 1. unfold bind at 1.
  rewrite getLed_at by lia. rewrite setLed_at by lia.
  unfold bind at 1.
  rewrite getLed_at by (cbn; rewrite length_replaceAt; lia).
  rewrite setLed_at by (cbn; rewrite length_replaceAt; lia).
  f_equal.
  rewrite !ledAt_replaced by lia. rewrite Z.eqb_refl.
  cbn [red green blue leds with_leds].
  assert (Hold : ledAt w index = mkCRGB 0 0 0)
    by (unfold ledAt; rewrite Hblank; apply nth_blankStrip).
  rewrite Hold. cbn [red green blue].
  rewrite !blendChannel_twice by assumption.
  rewrite replaceAt_twice.
  rewrite (with_leds_same _ (with_leds _ w) w eq_refl).
  rewrite <- Hold. unfold ledAt. rewrite replaceAt_same.
  apply with_leds_self.
Qed.

(** X24. The blend of scenario 7 stores [min(sum, 256)] in a byte, so where
    the left and the right point of a start point coincide the point is
    blended twice with its colour and every channel at 255 comes out as 0.
    That is the case at the first step and at the last step of a race: after
    the clean-up and the three blends the whole strip is black. *)
Theorem race_starts_and_ends_dark (w : World) (start0 start1 start2 i : Z) :
  0 <= start0 < NUM_LEDS ->
  0 <= start1 < NUM_LEDS ->
  0 <= start2 < NUM_LEDS ->
  i = 0 \/ i = NUM_LEDS / 2 ->
  raceStep [start0; start1; start2] i w = Done tt (with_leds blankStrip w).
Proof.
  intros H0 H1 H2 Hi.
  assert (Hsame : forall start, 0 <= start < NUM_LEDS ->
            leftIndex start i = rightIndex start i
            /\ 0 <= rightIndex start i < NUM_LEDS).
  { intros start Hs. unfold leftIndex, rightIndex, NUM_LEDS in *.
    change (50 / 2) with 25 in Hi.
    rewrite !Z.rem_mod_nonneg by lia.
    split; [| apply Z.mod_pos_bound; lia].
    destruct Hi as [-> | ->].
    - replace (50 + start - 0) with (start + 0 + 1 * 50) by lia.
      rewrite Z.mod_add by lia. reflexivity.
    - f_equal. lia. }
  unfold raceStep, bind at 1, memsetLeds.
  set (v := with_leds blankStrip w).
  assert (Hturn : forall j start,
            0 <= start < NUM_LEDS ->
            arrayAt [start0; start1; start2] j v = Done start v ->
            (start <- arrayAt [start0; start1; start2] j ;;
             variant <- gets currentVariant ;;
             let color :=
               getStandardColor (Z.rem (wrap16 (variant + j))
                                   (NUM_STANDARD_COLORS - 1)) in
             blendLed (leftIndex start i) color ;;
             blendLed (rightIndex start i) color) v = Done tt v).
  { intros j start Hs Hat. rewrite (bind_done _ _ v start v Hat).
    unfold bind at 1, gets. cbv zeta.
    destruct (Hsame start Hs) as [-> Hrange].
    apply blendLed_twice; [reflexivity | exact Hrange]. }
  cbn [forLoop].
  rewrite (bind_done _ _ v tt v (Hturn 0 start0 H0 eq_refl)).
  rewrite (bind_done _ _ v tt v (Hturn (0 + 1) start1 H1 eq_refl)).
  rewrite (bind_done _ _ v tt v (Hturn (0 + 1 + 1) start2 H2 eq_refl)).
  reflexivity.
Qed.

Lemma race_starts_and_ends_dark_witness :
  raceStep [3; 20; 41] 0 (bench []) = Done tt (with_leds blankStrip (bench [])).
Proof.
  apply (race_starts_and_ends_dark (bench []) 3 20 41 0);
    unfold NUM_LEDS; try lia.
Defined.

(** ** Scenario 9: stacking colours *)

(** One block dropped by the inner loop of scenario 9: it lands on position
    [i]; the stack below is untouched and the strip above is black. *)
Lemma stackMove_lands (sleepFuel : nat) (color : CRGB) (i : Z) (count : nat) :
  0 <= i ->
  forall (j : Z) (w w' : World),
    j = i + Z.of_nat count - 1 -> j <= NUM_LEDS - 1 ->
    validSettings (ctl w) ->
    fullStrip w ->
    (forall k, i <= k < NUM_LEDS ->
       ledAt w k = if k =? j + 1 then color else mkCRGB 0 0 0) ->
    stackMove count sleepFuel color j w = Done false w' ->
    fullStrip w'
    /\ validSettings (ctl w')
    /\ currentScenario (ctl w') = currentScenario (ctl w)
    /\ currentVariant (ctl w') = currentVariant (ctl w)
    /\ (forall k, 0 <= k < i -> ledAt w' k = ledAt w k)
    /\ (forall k, i <= k < NUM_LEDS ->
          ledAt w' k = if k =? i then color else mkCRGB 0 0 0).
Proof.
  intros Hi. induction count as [| count IH];
    intros j w w' Hj Hmax Hv Hfull Habove Hrun.
  - inversion Hrun as [Hw]. rewrite <- Hw. clear Hrun Hw.
    replace (j + 1) with i in Habove by lia. auto 10.
  - unfold fullStrip in Hfull. cbn [stackMove] in Hrun.
    unfold NUM_LEDS in *. change (Z.to_nat 50) with 50%nat in Hfull.
    assert (Hclean : exists w1,
              (if negb (j =? 50 - 1) then setLed (j + 1) (mkCRGB 0 0 0)
               else ret tt) w = Done tt w1
              /\ length (leds w1) = 50%nat
              /\ ctl w1 = ctl w
              /\ forall k, 0 <= k < 50 ->
                   ledAt w1 k
                   = if k =? j + 1 then mkCRGB 0 0 0 else ledAt w k).
    { destruct (Z.eqb_spec j (50 - 1)) as [-> | Hne]; cbn [negb].
      - exists w. split; [reflexivity |]. split; [exact Hfull |].
        split; [reflexivity |]. intros k Hk.
        destruct (Z.eqb_spec k (50 - 1 + 1)); [lia | reflexivity].
      - eexists. split; [apply setLed_at; rewrite Hfull; lia |].
        cbn [leds with_leds ctl]. rewrite length_replaceAt.
        split; [exact Hfull |]. split; [reflexivity |].
        intros k Hk. apply ledAt_replaced; rewrite ?Hfull; lia. }
    destruct Hclean as (w1 & Hrun1 & Hlen1 & Hctl1 & Hleds1).
    rewrite (bind_done _ _ w tt w1 Hrun1) in Hrun.
    rewrite (bind_done _ _ w1 tt _
               (setLed_at w1 j color ltac:(rewrite Hlen1; lia))) in Hrun.
    set (w2 := with_leds (replaceAt (Z.to_nat j) color (leds w1)) w1) in Hrun.
    unfold bind at 1 in Hrun. unfold FastLED_show at 1 in Hrun.
    set (w3 := with_driver (PushFrame (leds w2) :: driver w2) w2) in Hrun.
    unfold bind at 1 in Hrun.
    assert (Hv3 : validSettings (ctl w3)) by (cbn; rewrite Hctl1; exact Hv).
    destruct (sleep sleepFuel 10 w3) as [[|] w4 | |] eqn:Hsleep;
      try discriminate Hrun.
    destruct (sleep_false_outcome w3 w4 sleepFuel 10 Hv3 Hsleep)
      as (_ & Hsc & Hvar & Hleds & Hv4 & _).
    assert (Hat4 : forall k, 0 <= k < 50 ->
              ledAt w4 k
              = if k =? j then color
                else if k =? j + 1 then mkCRGB 0 0 0 else ledAt w k).
    { intros k Hk. unfold ledAt at 1. rewrite Hleds.
      change (nth (Z.to_nat k) (leds w3) (mkCRGB 0 0 0)) with (ledAt w2 k).
      unfold w2. rewrite ledAt_replaced by (rewrite ?Hlen1; lia).
      destruct (k =? j); [reflexivity |]. apply Hleds1. exact Hk. }
    assert (Hfull4 : fullStrip w4).
    { unfold fullStrip. rewrite Hleds. cbn. rewrite length_replaceAt.
      exact Hlen1. }
    destruct (IH (j - 1) w4 w' ltac:(lia) ltac:(lia) Hv4 Hfull4) as
      (Hfull' & Hv' & Hsc' & Hvar' & Hbelow' & Habove'); [| exact Hrun |].
    + intros k Hk. rewrite Hat4 by lia.
      replace (j - 1 + 1) with j by lia.
      destruct (Z.eqb_spec k j); [reflexivity |].
      destruct (Z.eqb_spec k (j + 1)); [reflexivity |].
      rewrite Habove by lia.
      destruct (Z.eqb_spec k (j + 1)); [lia | reflexivity].
    + split; [exact Hfull' |]. split; [exact Hv' |].
      cbn in Hsc, Hvar. rewrite Hctl1 in Hsc, Hvar.
      split; [congruence |]. split; [congruence |].
      split; [| exact Habove'].
      intros k Hk. rewrite Hbelow' by lia. rewrite Hat4 by lia.
      destruct (Z.eqb_spec k j); [lia |].
      destruct (Z.eqb_spec k (j + 1)); [lia | reflexivity].
Qed.

(** The blocks the outer loop of scenario 9 has dropped form a stack at the
    start of the strip. *)
Lemma stackBlocks_stack (sleepFuel count : nat) :
  forall (i : Z) (w w' : World),
    0 <= i -> i + Z.of_nat count <= NUM_LEDS ->
    validSettings (ctl w) ->
    fullStrip w ->
    (forall k, 0 <= k < NUM_LEDS ->
       ledAt w k
       = if k <? i then getStandardColor (Z.rem k (NUM_STANDARD_COLORS - 1))
         else mkCRGB 0 0 0) ->
    stackBlocks count sleepFuel i w = Done false w' ->
    fullStrip w'
    /\ validSettings (ctl w')
    /\ currentScenario (ctl w') = currentScenario (ctl w)
    /\ currentVariant (ctl w') = currentVariant (ctl w)
    /\ (forall k, 0 <= k < NUM_LEDS ->
          ledAt w' k
          = if k <? i + Z.of_nat count
            then getStandardColor (Z.rem k (NUM_STANDARD_COLORS - 1))
            else mkCRGB 0 0 0).
Proof.
  induction count as [| count IH]; intros i w w' Hi Hsum Hv Hfull Hstack Hrun.
  - inversion Hrun; subst. clear Hrun.
    replace (i + Z.of_nat 0) with i by lia. auto.
  - cbn [stackBlocks] in Hrun. cbv zeta in Hrun. unfold bind at 1 in Hrun.
    destruct (stackMove (Z.to_nat (NUM_LEDS - i)) sleepFuel
                (getStandardColor (Z.rem i (NUM_STANDARD_COLORS - 1)))
                (NUM_LEDS - 1) w) as [[|] w1 | |] eqn:Hmove;
      try discriminate Hrun.
    destruct (stackMove_lands sleepFuel
                (getStandardColor (Z.rem i (NUM_STANDARD_COLORS - 1)))
                i (Z.to_nat (NUM_LEDS - i)) Hi (NUM_LEDS - 1) w w1
                ltac:(lia) ltac:(lia) Hv Hfull) as
      (Hfull1 & Hv1 & Hsc1 & Hvar1 & Hbelow1 & Habove1); [| exact Hmove |].
    { intros k Hk. rewrite Hstack by lia.
      destruct (Z.ltb_spec k i); [lia |].
      destruct (Z.eqb_spec k (NUM_LEDS - 1 + 1)); [lia | reflexivity]. }
    destruct (IH (i + 1) w1 w' ltac:(lia) ltac:(lia) Hv1 Hfull1) as
      (Hfull' & Hv' & Hsc' & Hvar' & Hstack'); [| exact Hrun |].
    + intros k Hk.
      destruct (Z.ltb_spec k i) as [Hlt | Hge].
      * rewrite Hbelow1 by lia. rewrite Hstack by lia.
        destruct (Z.ltb_spec k i); [| lia].
        destruct (Z.ltb_spec k (i + 1)); [reflexivity | lia].
      * rewrite Habove1 by lia.
        destruct (Z.eqb_spec k i) as [-> | Hne].
        -- destruct (Z.ltb_spec i (i + 1)); [reflexivity | lia].
        -- destruct (Z.ltb_spec k (i + 1)); [lia | reflexivity].
    + split; [exact Hfull' |]. split; [exact Hv' |].
      split; [congruence |]. split; [congruence |].
      intros k Hk. rewrite Hstack' by exact Hk.
      replace (i + 1 + Z.of_nat count) with (i + Z.of_nat (S count)) by lia.
      reflexivity.
Qed.

(** X25. Scenario 9 builds its stack from the start of the strip: after the
    clean-up and [blocks] turns of the outer loop that no [sleep] cancelled,
    LED [k] below [blocks] has the standard colour [k % 6] and every LED from
    [blocks] on is black; after all 50 turns the whole strip shows the six
    colours in turn.  The scenario and the variant are still the ones the
    loop started with. *)
Theorem stack_grows (w w' : World) (sleepFuel blocks : nat) :
  validSettings (ctl w) ->
  (blocks <= Z.to_nat NUM_LEDS)%nat ->
  (memsetLeds ;; stackBlocks blocks sleepFuel 0) w = Done false w' ->
  (forall k, 0 <= k < NUM_LEDS ->
     ledAt w' k
     = if k <? Z.of_nat blocks
       then getStandardColor (Z.rem k (NUM_STANDARD_COLORS - 1))
       else mkCRGB 0 0 0)
  /\ currentScenario (ctl w') = currentScenario (ctl w)
  /\ currentVariant (ctl w') = currentVariant (ctl w).
Proof.
  intros Hv Hblocks Hrun.
  unfold bind, memsetLeds in Hrun.
  destruct (stackBlocks_stack sleepFuel blocks 0 (with_leds blankStrip w) w'
              ltac:(lia) ltac:(unfold NUM_LEDS in *; lia) Hv eq_refl) as
    (_ & _ & Hsc & Hvar & Hstack); [| exact Hrun |].
  - intros k Hk. unfold ledAt. cbn [leds with_leds]. rewrite nth_blankStrip.
    destruct (Z.ltb_spec k 0); [lia | reflexivity].
  - split; [| split; assumption].
    intros k Hk. rewrite Hstack by exact Hk. reflexivity.
Qed.

Lemma stack_grows_witness :
  exists w',
    (memsetLeds ;; stackBlocks 2 40 0) (bench []) = Done false w'
    /\ ledAt w' 0 = mkCRGB 255 0 0
    /\ ledAt w' 1 = mkCRGB 0 255 0
    /\ ledAt w' 2 = mkCRGB 0 0 0.
Proof.
  set (wEnd := match (memsetLeds ;; stackBlocks 2 40 0) (bench []) with
               | Done _ w' => w'
               | _ => bench []
               end).
  exists wEnd.
  assert (Hrun : (memsetLeds ;; stackBlocks 2 40 0) (bench [])
                 = Done false wEnd)
    by (vm_compute; reflexivity).
  split; [exact Hrun |].
  destruct (stack_grows (bench []) wEnd 40 2) as (Hall & _).
  - vm_compute. intuition congruence.
  - vm_compute. lia.
  - exact Hrun.
  - split; [| split]; rewrite Hall by (unfold NUM_LEDS; lia); reflexivity.
Defined.

(** ** Routines that leave their loops on a cancel *)

Lemma settings_random16 : respects sameSettings random16.
Proof. intros w u w' H. inversion H. reflexivity. Qed.

Lemma settings_memsetLeds : respects sameSettings memsetLeds.
Proof. intros w u w' H. inversion H. reflexivity. Qed.

Lemma settings_blendLed (index : Z) (color : CRGB) :
  respects sameSettings (blendLed index color).
Proof. unfold blendLed. settings. Qed.

Lemma settings_raceStep (startIndices : list Z) (i : Z) :
  respects sameSettings (raceStep startIndices i).
Proof.
  unfold raceStep.
  apply (respects_bind sameSettings sameSettings_trans);
    [apply settings_memsetLeds | intros _].
  apply settings_forLoop. intros j.
  apply (respects_bind sameSettings sameSettings_trans);
    [apply (respects_arrayAt sameSettings sameSettings_refl) | intros start].
  apply (respects_bind sameSettings sameSettings_trans);
    [apply (respects_gets sameSettings sameSettings_refl) | intros variant].
  cbv zeta.
  apply (respects_bind sameSettings sameSettings_trans);
    [apply settings_blendLed | intros _; apply settings_blendLed].
Qed.

Lemma settings_redrawWhileTaken (fuel : nat) (taken : list Z) :
  forall point, respects sameSettings (redrawWhileTaken fuel taken point).
Proof.
  induction fuel as [| fuel IH]; intros point; [intros w p w' H; discriminate H |].
  cbn [redrawWhileTaken]. destruct (existsb (Z.eqb point) taken).
  - apply (respects_bind sameSettings sameSettings_trans);
      [apply settings_random16 | intros word; apply IH].
  - apply (respects_ret sameSettings sameSettings_refl).
Qed.

Lemma settings_selectStartPoints (fuel : nat) :
  respects sameSettings (selectStartPoints fuel).
Proof.
  unfold selectStartPoints.
  repeat (apply (respects_bind sameSettings sameSettings_trans);
          [first [apply settings_random16 | apply settings_redrawWhileTaken]
          | intro]).
  apply (respects_ret sameSettings sameSettings_refl).
Qed.

Lemma cancellable_ret_false : cancellable (ret false).
Proof.
  intros w w' cancelled Hv Hon H. inversion H; subst. split; assumption.
Qed.

(** Steps that leave the settings alone, before a cancellable loop. *)
Lemma cancellable_bind {A : Type} (m : M A) (k : A -> M bool) :
  respects sameSettings m ->
  (forall a, cancellable (k a)) ->
  cancellable (bind m k).
Proof.
  intros Hm Hk w w' cancelled Hv Hon Hrun. unfold bind in Hrun.
  destruct (m w) as [a w1 | |] eqn:Hmw; try discriminate Hrun.
  pose proof (Hm w a w1 Hmw) as Hctl. unfold sameSettings in Hctl.
  apply (Hk a w1 w' cancelled); [rewrite Hctl; exact Hv
                                | rewrite Hctl; exact Hon | exact Hrun].
Qed.

(** A frame, a sleep, and out on a cancel. *)
Lemma cancellable_show_sleep (sleepFuel : nat) (delay : Z) (next : M bool) :
  cancellable next ->
  cancellable (FastLED_show ;;
               cancel <- sleep sleepFuel delay ;;
               if cancel then ret true else next).
Proof.
  intros Hnext w w' cancelled Hv Hon Hrun.
  unfold bind at 1 in Hrun. unfold FastLED_show at 1 in Hrun.
  set (w2 := with_driver (PushFrame (leds w) :: driver w) w) in Hrun.
  unfold bind at 1 in Hrun.
  destruct (sleep sleepFuel delay w2) as [[|] w3 | |] eqn:Hs;
    try discriminate Hrun.
  - inversion Hrun; subst. clear Hrun.
    destruct (sleep_true_outcome w2 w' sleepFuel delay Hv Hon Hs)
      as (Hleds & Hdrv & Hv').
    split; [exact Hv' | split; assumption].
  - destruct (sleep_false_outcome w2 w3 sleepFuel delay Hv Hs)
      as (Hon3 & _ & _ & _ & Hv3 & _).
    exact (Hnext w3 w' cancelled Hv3 Hon3 Hrun).
Qed.

(** A cancellable loop inside a cancellable loop. *)
Lemma cancellable_nested (inner next : M bool) :
  cancellable inner -> cancellable next ->
  cancellable (cancelled <- inner ;; if cancelled then ret true else next).
Proof.
  intros Hinner Hnext w w' cancelled Hv Hon Hrun. unfold bind in Hrun.
  destruct (inner w) as [[|] w1 | |] eqn:Hi; try discriminate Hrun.
  - inversion Hrun; subst. exact (Hinner w w' true Hv Hon Hi).
  - destruct (Hinner w w1 false Hv Hon Hi) as [Hv1 Hon1].
    exact (Hnext w1 w' cancelled Hv1 Hon1 Hrun).
Qed.

Lemma cancellable_raceLoop (sleepFuel : nat) (startIndices : list Z)
    (count : nat) :
  forall i, cancellable (raceLoop count sleepFuel startIndices i).
Proof.
  induction count as [| count IH]; intros i; [apply cancellable_ret_false |].
  cbn [raceLoop].
  apply cancellable_bind; [apply settings_raceStep | intros _].
  apply cancellable_show_sleep. apply IH.
Qed.

Lemma cancellable_blastSpread (sleepFuel : nat) (color : CRGB)
    (startIndex : Z) (count : nat) :
  forall i, cancellable (blastSpread count sleepFuel color startIndex i).
Proof.
  induction count as [| count IH]; intros i; [apply cancellable_ret_false |].
  cbn [blastSpread].
  apply cancellable_bind; [apply settings_setLed | intros _].
  apply cancellable_bind; [apply settings_setLed | intros _].
  apply cancellable_show_sleep. apply IH.
Qed.

Lemma cancellable_stackMove (sleepFuel : nat) (color : CRGB) (count : nat) :
  forall j, cancellable (stackMove count sleepFuel color j).
Proof.
  induction count as [| count IH]; intros j; [apply cancellable_ret_false |].
  cbn [stackMove].
  apply cancellable_bind; [| intros _].
  { destruct (negb (j =? NUM_LEDS - 1));
      [apply settings_setLed
      | apply (respects_ret sameSettings sameSettings_refl)]. }
  apply cancellable_bind; [apply settings_setLed | intros _].
  apply cancellable_show_sleep. apply IH.
Qed.

Lemma cancellable_stackBlocks (sleepFuel count : nat) :
  forall i, cancellable (stackBlocks count sleepFuel i).
Proof.
  induction count as [| count IH]; intros i; [apply cancellable_ret_false |].
  cbn [stackBlocks]. cbv zeta.
  apply cancellable_nested; [apply cancellable_stackMove | apply IH].
Qed.

(** The tail of the [do ... while (!sleep(0))] loop of scenarios 7, 8 and 9:
    the routine returns only with the strip gone dark. *)
Lemma round_ends_dark (inner : M bool) (again : M unit) (sleepFuel : nat)
    (w w' : World) :
  cancellable inner ->
  (forall v, validSettings (ctl v) -> isSwitchedOn (ctl v) = true ->
     again v = Done tt w' -> wentDark w') ->
  validSettings (ctl w) ->
  isSwitchedOn (ctl w) = true ->
  (cancelled <- inner ;;
   if cancelled then ret tt
   else cancel <- sleep sleepFuel 0 ;; if cancel then ret tt else again) w
  = Done tt w' ->
  wentDark w'.
Proof.
  intros Hinner Hagain Hv Hon Hrun. unfold bind at 1 in Hrun.
  destruct (inner w) as [[|] w1 | |] eqn:Hi; try discriminate Hrun.
  - inversion Hrun; subst. exact (proj2 (Hinner w w' true Hv Hon Hi)).
  - destruct (Hinner w w1 false Hv Hon Hi) as [Hv1 Hon1].
    unfold bind at 1 in Hrun.
    destruct (sleep sleepFuel 0 w1) as [[|] w2 | |] eqn:Hs;
      try discriminate Hrun.
    + inversion Hrun; subst.
      destruct (sleep_true_outcome w1 w' sleepFuel 0 Hv1 Hon1 Hs)
        as (Hleds & Hdrv & _).
      split; assumption.
    + destruct (sleep_false_outcome w1 w2 sleepFuel 0 Hv1 Hs)
        as (Hon2 & _ & _ & _ & Hv2 & _).
      exact (Hagain w2 Hv2 Hon2 Hrun).
Qed.

Lemma racingLights_dark (drawFuel sleepFuel fuel : nat) :
  forall w w',
    validSettings (ctl w) -> isSwitchedOn (ctl w) = true ->
    racingLights fuel drawFuel sleepFuel w = Done tt w' -> wentDark w'.
Proof.
  induction fuel as [| fuel IH]; intros w w' Hv Hon Hrun; [discriminate Hrun |].
  cbn [racingLights] in Hrun. unfold bind at 1 in Hrun.
  destruct (selectStartPoints drawFuel w) as [points w1 | |] eqn:Hsel;
    try discriminate Hrun.
  pose proof (settings_selectStartPoints drawFuel w points w1 Hsel) as Hctl.
  unfold sameSettings in Hctl.
  refine (round_ends_dark _ _ sleepFuel w1 w' _ _ _ _ Hrun).
  - apply cancellable_raceLoop.
  - intros v. apply IH.
  - rewrite Hctl. exact Hv.
  - rewrite Hctl. exact Hon.
Qed.

Lemma blastWave_dark (sleepFuel fuel : nat) :
  forall w w',
    validSettings (ctl w) -> isSwitchedOn (ctl w) = true ->
    blastWave fuel sleepFuel w = Done tt w' -> wentDark w'.
Proof.
  induction fuel as [| fuel IH]; intros w w' Hv Hon Hrun; [discriminate Hrun |].
  cbn [blastWave] in Hrun. unfold bind at 1 in Hrun.
  destruct (random8 w) as [byte w1 | |] eqn:Hbyte; try discriminate Hrun.
  pose proof (settings_random8 w byte w1 Hbyte) as Hctl1.
  cbv zeta in Hrun. unfold bind at 1 in Hrun.
  destruct (random16 w1) as [word w2 | |] eqn:Hword; try discriminate Hrun.
  pose proof (settings_random16 w1 word w2 Hword) as Hctl2.
  unfold sameSettings in Hctl1, Hctl2.
  refine (round_ends_dark _ _ sleepFuel w2 w' _ _ _ _ Hrun).
  - apply cancellable_blastSpread.
  - intros v. apply IH.
  - rewrite Hctl2, Hctl1. exact Hv.
  - rewrite Hctl2, Hctl1. exact Hon.
Qed.

Lemma stackingColors_dark (sleepFuel fuel : nat) :
  forall w w',
    validSettings (ctl w) -> isSwitchedOn (ctl w) = true ->
    stackingColors fuel sleepFuel w = Done tt w' -> wentDark w'.
Proof.
  induction fuel as [| fuel IH]; intros w w' Hv Hon Hrun; [discriminate Hrun |].
  cbn [stackingColors] in Hrun. unfold bind at 1, memsetLeds at 1 in Hrun.
  refine (round_ends_dark _ _ sleepFuel (with_leds blankStrip w) w'
            _ _ _ _ Hrun).
  - apply cancellable_stackBlocks.
  - intros v. apply IH.
  - exact Hv.
  - exact Hon.
Qed.

(** X26. Scenarios 7, 8 and 9 leave their nested loops only through a
    [sleep] that asked for a cancel: whenever one of the three routines
    returns, started on a machine that is switched on, the strip is blank and
    a blank frame was the last thing shown, whatever the loops had drawn. *)
Theorem nested_routines_return_blank (w w' : World)
    (fuel drawFuel sleepFuel : nat) :
  validSettings (ctl w) ->
  isSwitchedOn (ctl w) = true ->
  racingLights fuel drawFuel sleepFuel w = Done tt w'
  \/ blastWave fuel sleepFuel w = Done tt w'
  \/ stackingColors fuel sleepFuel w = Done tt w' ->
  leds w' = blankStrip
  /\ exists older, driver w' = PushFrame blankStrip :: older.
Proof.
  intros Hv Hon [Hrun | [Hrun | Hrun]].
  - exact (racingLights_dark drawFuel sleepFuel fuel w w' Hv Hon Hrun).
  - exact (blastWave_dark sleepFuel fuel w w' Hv Hon Hrun).
  - exact (stackingColors_dark sleepFuel fuel w w' Hv Hon Hrun).
Qed.

Lemma nested_routines_return_blank_witness :
  exists w',
    stackingColors 1 40 (bench [0xBA45FF00]) = Done tt w'
    /\ leds w' = blankStrip.
Proof.
  set (wEnd := match stackingColors 1 40 (bench [0xBA45FF00]) with
               | Done _ w' => w'
               | _ => bench []
               end).
  exists wEnd.
  assert (Hrun : stackingColors 1 40 (bench [0xBA45FF00]) = Done tt wEnd)
    by (vm_compute; reflexivity).
  split; [exact Hrun |].
  apply (nested_routines_return_blank (bench [0xBA45FF00]) wEnd 1 0 40).
  - vm_compute. intuition congruence.
  - reflexivity.
  - right. right. exact Hrun.
Defined.

(** ** Scenario 7: the start points *)

Lemma random16_point (w : World) :
  random16 w = Done (u16 (rnd w (rndPos w))) (with_rndPos (S (rndPos w)) w).
Proof. reflexivity. Qed.

Lemma point_range (word : Z) : 0 <= Z.rem (u16 word) NUM_LEDS < NUM_LEDS.
Proof.
  unfold u16, NUM_LEDS. apply Z.rem_bound_pos; [| lia].
  apply Z.mod_pos_bound. lia.
Qed.

(** What a [while] loop of the selection returns is none of [taken], and a
    point of the strip if the point it started with was one. *)
Lemma redrawWhileTaken_fresh (taken : list Z) (fuel : nat) :
  forall (point : Z) (w : World) (p : Z) (w' : World),
    0 <= point < NUM_LEDS ->
    redrawWhileTaken fuel taken point w = Done p w' ->
    existsb (Z.eqb p) taken = false /\ 0 <= p < NUM_LEDS.
Proof.
  induction fuel as [| fuel IH]; intros point w p w' Hpoint Hrun;
    [discriminate Hrun |].
  cbn [redrawWhileTaken] in Hrun.
  destruct (existsb (Z.eqb point) taken) eqn:Htaken.
  - unfold bind at 1 in Hrun. rewrite random16_point in Hrun.
    exact (IH _ _ p w' (point_range _) Hrun).
  - inversion Hrun; subst. split; assumption.
Qed.

(** X27. The three start points scenario 7 selects are three different
    LEDs of the strip, whatever the generator gave: a point that repeats an
    earlier one is drawn again. *)
Theorem start_points_distinct (w w' : World) (fuel : nat) (points : list Z) :
  selectStartPoints fuel w = Done points w' ->
  exists start0 start1 start2,
    points = [start0; start1; start2]
    /\ start0 <> start1 /\ start0 <> start2 /\ start1 <> start2
    /\ 0 <= start0 < NUM_LEDS
    /\ 0 <= start1 < NUM_LEDS
    /\ 0 <= start2 < NUM_LEDS.
Proof.
  intros Hrun. unfold selectStartPoints in Hrun.
  unfold bind at 1 in Hrun. rewrite random16_point in Hrun.
  unfold bind at 1 in Hrun. rewrite random16_point in Hrun.
  unfold bind at 1 in Hrun. rewrite random16_point in Hrun.
  cbv zeta in Hrun. unfold bind at 1 in Hrun.
  match type of Hrun with
  | context [redrawWhileTaken fuel [?s0] ?p1 ?v] =>
      set (start0 := s0) in *;
      destruct (redrawWhileTaken fuel [start0] p1 v) as [start1 v1 | |] eqn:H1;
        try discriminate Hrun;
      destruct (redrawWhileTaken_fresh [start0] fuel p1 v start1 v1
                  (point_range _) H1) as [Hfresh1 Hrange1]
  end.
  unfold bind at 1 in Hrun.
  match type of Hrun with
  | context [redrawWhileTaken fuel [start0; start1] ?p2 ?v] =>
      destruct (redrawWhileTaken fuel [start0; start1] p2 v)
        as [start2 v2 | |] eqn:H2;
        try discriminate Hrun;
      destruct (redrawWhileTaken_fresh [start0; start1] fuel p2 v start2 v2
                  (point_range _) H2) as [Hfresh2 Hrange2]
  end.
  inversion Hrun; subst points w'. clear Hrun.
  exists start0, start1, start2.
  cbn [existsb] in Hfresh1, Hfresh2.
  apply Bool.orb_false_iff in Hfresh1. destruct Hfresh1 as [H10 _].
  apply Bool.orb_false_iff in Hfresh2. destruct Hfresh2 as [H20 H21].
  apply Bool.orb_false_iff in H21. destruct H21 as [H21 _].
  apply Z.eqb_neq in H10, H20, H21.
  split; [reflexivity |].
  split; [congruence |]. split; [congruence |]. split; [congruence |].
  split; [apply point_range |]. split; assumption.
Qed.

Lemma start_points_distinct_witness :
  exists start0 start1 start2,
    [0; 1; 2] = [start0; start1; start2]
    /\ start0 <> start1 /\ start0 <> start2 /\ start1 <> start2
    /\ 0 <= start0 < NUM_LEDS
    /\ 0 <= start1 < NUM_LEDS
    /\ 0 <= start2 < NUM_LEDS.
Proof.
  apply (start_points_distinct (bench []) (with_rndPos 3 (bench [])) 1 [0; 1; 2]).
  reflexivity.
Defined.

(** X28. When the first three draws already give three different points the
    selection of scenario 7 takes them as they are: with fuel for one test
    per loop it returns them, and it has drawn exactly three numbers. *)
Theorem start_points_kept (w : World) (fuel : nat) :
  nextPoint w 0 <> nextPoint w 1 ->
  nextPoint w 0 <> nextPoint w 2 ->
  nextPoint w 1 <> nextPoint w 2 ->
  selectStartPoints (S fuel) w
  = Done [nextPoint w 0; nextPoint w 1; nextPoint w 2]
      (with_rndPos (rndPos w + 3) w).
Proof.
  unfold nextPoint. rewrite Nat.add_0_r.
  replace (rndPos w + 1)%nat with (S (rndPos w)) by lia.
  replace (rndPos w + 2)%nat with (S (S (rndPos w))) by lia.
  replace (rndPos w + 3)%nat with (S (S (S (rndPos w)))) by lia.
  intros H01 H02 H12. unfold selectStartPoints.
  unfold bind at 1. rewrite random16_point.
  unfold bind at 1. rewrite random16_point.
  unfold bind at 1. rewrite random16_point.
  cbv zeta. unfold bind at 1. cbn [redrawWhileTaken existsb].
  destruct w as [c l d i ip ck cp r rp].
  cbn [rnd rndPos with_rndPos ctl leds driver ir irPos clock clockPos] in *.
  unfold with_rndPos.
  cbn [rnd rndPos with_rndPos ctl leds driver ir irPos clock clockPos] in *.
  apply Z.eqb_neq in H01, H02, H12.
  rewrite Z.eqb_sym in H01. rewrite Z.eqb_sym in H02. rewrite Z.eqb_sym in H12.
  rewrite H01. cbn [orb]. unfold ret at 1, bind at 1.
  cbn [redrawWhileTaken existsb].
  rewrite H02, H12. cbn [orb]. reflexivity.
Qed.

Lemma start_points_kept_witness :
  selectStartPoints 1 (bench [])
  = Done [nextPoint (bench []) 0; nextPoint (bench []) 1; nextPoint (bench []) 2]
      (with_rndPos (rndPos (bench []) + 3) (bench [])).
Proof.
  apply (start_points_kept (bench []) 0); vm_compute; discriminate.
Defined.

(** ** Scenario 2: the looped sequence *)

(** The initial loop of scenario 2 writes every LED: red, green, blue in
    turn. *)
Lemma loopedSequenceInit_paints (w : World) :
  fullStrip w ->
  exists l,
    loopedSequenceInit w = Done tt (with_leds l w)
    /\ length l = 50%nat
    /\ forall k, (k < 50)%nat ->
                 nth k l (mkCRGB 0 0 0)
                 = match (k mod 3)%nat with
                   | 0%nat => mkCRGB 255 0 0
                   | 1%nat => mkCRGB 0 255 0
                   | _ => mkCRGB 0 0 255
                   end.
Proof.
  intros Hfull.
  destruct (forLoop_fill
              (fun i =>
                 (if Z.rem i 3 =? 0 then setLed i (mkCRGB 255 0 0) else ret tt) ;;
                 (if Z.rem i 3 =? 1 then setLed i (mkCRGB 0 255 0) else ret tt) ;;
                 (if Z.rem i 3 =? 2 then setLed i (mkCRGB 0 0 255) else ret tt))
              (fun j c => if Z.rem j 3 =? 0 then mkCRGB 255 0 0
                          else if Z.rem j 3 =? 1 then mkCRGB 0 255 0
                          else mkCRGB 0 0 255)
              w 50 (le_n 50) Hfull) as (l & Hrun & Hlen & Hnth).
  { intros j v Hj Hv Hlenv. cbv beta.
    assert (Hrem : 0 <= Z.rem j 3 < 3) by (apply Z.rem_bound_pos; lia).
    destruct (Z.eqb_spec (Z.rem j 3) 0) as [H0 | H0];
      destruct (Z.eqb_spec (Z.rem j 3) 1) as [H1 | H1];
      destruct (Z.eqb_spec (Z.rem j 3) 2) as [H2 | H2]; try lia;
      unfold bind, ret; rewrite setLed_at by lia; reflexivity. }
  exists l. split; [exact Hrun |]. split; [exact Hlen |].
  intros k Hk. rewrite Hnth.
  destruct (Nat.ltb_spec k 50); [| lia].
  rewrite Z.rem_mod_nonneg by lia.
  replace (Z.of_nat k mod 3) with (Z.of_nat (k mod 3))
    by (rewrite Nat2Z.inj_mod; reflexivity).
  pose proof (Nat.mod_upper_bound k 3 ltac:(lia)) as Hbound.
  destruct (k mod 3)%nat as [| [| [| r]]]; try reflexivity. lia.
Qed.

(** X29. Scenario 2 paints the whole strip red, green, blue in turn,
    whatever it showed before, and each turn of its loop moves the picture
    one LED to the left: after the initial loop and [k] shifts LED [j] has
    the colour of position [(j + k) mod 50].  The strip has 50 LEDs, not a
    multiple of 3, so the picture that goes round has a seam: the last LED
    starts green and the first one red. *)
Theorem looped_sequence_pattern (w : World) (k : nat) :
  fullStrip w ->
  exists w1 w2,
    loopedSequenceInit w = Done tt w1
    /\ times k shiftLeds w1 = Done tt w2
    /\ ctl w2 = ctl w
    /\ (forall j, (j < 50)%nat ->
          nth j (leds w2) (mkCRGB 0 0 0)
          = match (((j + k) mod 50) mod 3)%nat with
            | 0%nat => mkCRGB 255 0 0
            | 1%nat => mkCRGB 0 255 0
            | _ => mkCRGB 0 0 255
            end)
    /\ nth 49 (leds w1) (mkCRGB 0 0 0) = mkCRGB 0 255 0
    /\ nth 0 (leds w1) (mkCRGB 0 0 0) = mkCRGB 255 0 0.
Proof.
  intros Hfull.
  destruct (loopedSequenceInit_paints w Hfull) as (l & Hinit & Hlen & Hl).
  assert (Hfull1 : fullStrip (with_leds l w)) by exact Hlen.
  destruct (times_shiftLeds k _ Hfull1) as (w2 & Hrun & _ & Hsame & Hnth).
  exists (with_leds l w), w2. split; [exact Hinit |]. split; [exact Hrun |].
  split; [| split; [| split]].
  - destruct w2, w. unfold with_leds in Hsame. cbn in *.
    inversion Hsame. reflexivity.
  - intros j Hj. rewrite (Hnth j Hj). cbn [leds with_leds].
    apply Hl. apply Nat.mod_upper_bound. lia.
  - cbn [leds with_leds]. rewrite Hl by lia. reflexivity.
  - cbn [leds with_leds]. rewrite Hl by lia. reflexivity.
Qed.

Lemma looped_sequence_pattern_witness :
  exists w1 w2,
    loopedSequenceInit (bench []) = Done tt w1
    /\ times 2 shiftLeds w1 = Done tt w2
    /\ nth 47 (leds w2) (mkCRGB 0 0 0) = mkCRGB 0 255 0
    /\ nth 48 (leds w2) (mkCRGB 0 0 0) = mkCRGB 255 0 0
    /\ nth 49 (leds w2) (mkCRGB 0 0 0) = mkCRGB 0 255 0.
Proof.
  destruct (looped_sequence_pattern (bench []) 2)
    as (w1 & w2 & Hinit & Hrun & _ & Hnth & _); [reflexivity |].
  exists w1, w2. split; [exact Hinit |]. split; [exact Hrun |].
  split; [| split].
  - exact (Hnth 47%nat ltac:(lia)).
  - exact (Hnth 48%nat ltac:(lia)).
  - exact (Hnth 49%nat ltac:(lia)).
Defined.

(** ** Scenario 3: the transition *)

Lemma transitionChannel_between (fromChannel toChannel dt : Z) :
  0 <= fromChannel <= 255 ->
  0 <= toChannel <= 255 ->
  0 <= dt <= TRANSITION_PERIOD ->
  Z.min fromChannel toChannel - 1
  <= transitionChannel fromChannel toChannel dt
  <= Z.max fromChannel toChannel.
Proof.
  unfold transitionChannel, TRANSITION_PERIOD, u8, u32. intros Hf Ht Hdt.
  rewrite (Z.mod_small (1000 - dt)) by lia.
  rewrite (Z.mod_small (fromChannel * (1000 - dt))) by nia.
  rewrite (Z.mod_small (toChannel * dt)) by nia.
  pose proof (Z.div_mod (fromChannel * (1000 - dt)) 1000 ltac:(lia)) as Ha.
  pose proof (Z.mod_pos_bound (fromChannel * (1000 - dt)) 1000 ltac:(lia)) as Hra.
  pose proof (Z.div_mod (toChannel * dt) 1000 ltac:(lia)) as Hb.
  pose proof (Z.mod_pos_bound (toChannel * dt) 1000 ltac:(lia)) as Hrb.
  set (qa := fromChannel * (1000 - dt) / 1000) in *.
  set (qb := toChannel * dt / 1000) in *.
  assert (Hlow : 1000 * Z.min fromChannel toChannel
                 <= fromChannel * (1000 - dt) + toChannel * dt) by nia.
  assert (Hhigh : fromChannel * (1000 - dt) + toChannel * dt
                  <= 1000 * Z.max fromChannel toChannel) by nia.
  assert (Hqa : 0 <= qa) by (apply Z.div_pos; nia).
  assert (Hqb : 0 <= qb) by (apply Z.div_pos; nia).
  assert (Hsum : Z.min fromChannel toChannel - 1 <= qa + qb
                 <= Z.max fromChannel toChannel) by lia.
  rewrite (Z.mod_small (qa + qb)) by lia.
  rewrite (Z.mod_small (qa + qb)) by lia.
  exact Hsum.
Qed.

(** X30. The linear transition of scenario 3 starts at the colour it comes
    from, ends at the colour it goes to, and in between keeps every channel
    between the two, at most one step below the lower one; the products fit
    in 32 bits as long as the time read is within the period.  A channel
    that is on in both colours drops to 254 on the way.  A time read past
    the period wraps the subtraction: one millisecond late, a channel that
    is on in both colours comes out as 54. *)
Theorem transition_between (fromColor toColor : CRGB) (dt : Z) :
  0 <= red fromColor <= 255 /\ 0 <= green fromColor <= 255
  /\ 0 <= blue fromColor <= 255 ->
  0 <= red toColor <= 255 /\ 0 <= green toColor <= 255
  /\ 0 <= blue toColor <= 255 ->
  0 <= dt <= TRANSITION_PERIOD ->
  (forall channel : CRGB -> Z,
     channel = red \/ channel = green \/ channel = blue ->
     Z.min (channel fromColor) (channel toColor) - 1
     <= channel (transitionColor fromColor toColor dt)
     <= Z.max (channel fromColor) (channel toColor))
  /\ transitionColor fromColor toColor 0 = fromColor
  /\ transitionColor fromColor toColor TRANSITION_PERIOD = toColor
  /\ transitionChannel 255 255 1 = 254
  /\ transitionChannel 255 255 (TRANSITION_PERIOD + 1) = 54.
Proof.
  intros (Hfr & Hfg & Hfb) (Htr & Htg & Htb) Hdt.
  split; [| split; [| split; [| split]]].
  - intros channel [-> | [-> | ->]]; cbn [red green blue transitionColor];
      apply transitionChannel_between; assumption.
  - destruct fromColor as [r g b]. cbn [red green blue] in *.
    unfold transitionColor, transitionChannel, TRANSITION_PERIOD, u8, u32.
    cbn [red green blue].
    change (1000 - 0) with 1000. change (1000 mod 4294967296) with 1000.
    rewrite !Z.mul_0_r. change (0 mod 4294967296 / 1000) with 0.
    rewrite !Z.add_0_r.
    rewrite !(Z.mod_small (_ * 1000)) by lia.
    rewrite !Z.div_mul by lia.
    rewrite !(Z.mod_small _ 4294967296) by lia.
    rewrite !(Z.mod_small _ 256) by lia. reflexivity.
  - destruct toColor as [r g b]. cbn [red green blue] in *.
    unfold transitionColor, transitionChannel, TRANSITION_PERIOD, u8, u32.
    cbn [red green blue].
    change (1000 - 1000) with 0. change (0 mod 4294967296) with 0.
    rewrite !Z.mul_0_r. change (0 mod 4294967296 / 1000) with 0.
    rewrite !Z.add_0_l.
    rewrite !(Z.mod_small (_ * 1000)) by lia.
    rewrite !Z.div_mul by lia.
    rewrite !(Z.mod_small _ 4294967296) by lia.
    rewrite !(Z.mod_small _ 256) by lia. reflexivity.
  - vm_compute. reflexivity.
  - vm_compute. reflexivity.
Qed.

Lemma transition_between_witness :
  transitionColor (mkCRGB 255 0 0) (mkCRGB 255 255 0) 0 = mkCRGB 255 0 0
  /\ transitionColor (mkCRGB 255 0 0) (mkCRGB 255 255 0) TRANSITION_PERIOD
     = mkCRGB 255 255 0.
Proof.
  destruct (transition_between (mkCRGB 255 0 0) (mkCRGB 255 255 0) 500)
    as (_ & Hstart & Hend & _).
  - cbn [red green blue]. lia.
  - cbn [red green blue]. lia.
  - unfold TRANSITION_PERIOD. lia.
  - split; [exact Hstart | exact Hend].
Defined.
